(** * ATS Resume Evaluator (Codes.py): a shallow embedding and its properties

    The program is a Streamlit script: it reads a job description and a list
    of uploaded resumes, builds one prompt per resume, sends it to an external
    text-generation service, decodes the reply as JSON and collects one report
    row per resume.

    Conventions of the embedding.
    - A Python [str] is a list of Unicode code points ([list N]).
    - Calls that leave the program (the PDF and DOCX decoders, the generative
      model) are inputs of the model: a file carries what its decoders would
      return, and the model is a function from prompts to replies.
    - What the script shows to the user, and every external call it makes, is
      recorded in a trace of events; an exception that nothing catches ends
      the run ([Raise]).
    - The texts that come from outside (the names of the files, what the user
      types, what the decoders and the client of the model return or report)
      are well-formed Unicode.  A string decoded from a reply is not always:
      [json.loads] turns the escape of half a surrogate pair into a surrogate
      code point, which cannot be encoded as UTF-8, and the Streamlit element
      that is given such a string, like [str.encode], raises
      [UnicodeEncodeError].

    Library behaviour is modelled as far as the script depends on it:
    [json.loads] and [json.dumps] in full, except that a float is kept as
    its literal and that the interpreter's limits (recursion depth, digits
    of an integer) are left out; [str.lower] and [str.isupper] in full, on
    the data of Unicode 14.0; [st.metric] with its check of the
    value's type; a CSV as its header line and its records, the printing of
    a cell being left to pandas; the word characters of a pattern on the
    code points named at their definition; a set as its elements, in an
    order that the program does not determine. *)

From Stdlib Require Import List NArith ZArith String Ascii Bool Lia DecimalString.
Import ListNotations.

Set Warnings "-register-all".

(* ===================================================================== *)
(** ** Python text *)
(* ===================================================================== *)

Module Text.

Local Open Scope N_scope.

Definition str := list N.

(** A literal: the code points of an ASCII string. *)
Definition lit (s : string) : str := map N_of_ascii (list_ascii_of_string s).

(** A literal in which the apostrophe stands for the double quote (U+0022). *)
Definition litq (s : string) : str :=
  map (fun c => if c =? 39 then 34 else c) (lit s).

Definition nl : str := [10].

Fixpoint str_eqb (a b : str) : bool :=
  match a, b with
  | [], [] => true
  | x :: a', y :: b' => (x =? y) && str_eqb a' b'
  | _, _ => false
  end.

(** [s.startswith(p)] and [s.endswith(p)]. *)
Fixpoint startswith (s p : str) : bool :=
  match p, s with
  | [], _ => true
  | x :: p', y :: s' => (x =? y) && startswith s' p'
  | _ :: _, [] => false
  end.

Definition endswith (s p : str) : bool := startswith (rev s) (rev p).

(** *** Case: [str.lower] and [str.isupper]

    The data are those of Unicode 14.0, the character database of
    Python 3.11; on them the two functions are exact for every code point. *)

(** [c] lies in one of the ranges, both ends included. *)
Definition in_ranges (c : N) (ranges : list (N * N)) : bool :=
  existsb (fun r => (fst r <=? c) && (c <=? snd r)) ranges.

(** The code points with a lowercase form of one character.  An entry
    (first, last, step, target) stands for the code points first,
    first + step, ..., last, whose lowercase forms are target,
    target + step, ...: the letters A to Z are (65, 90, 1, 97). *)
Definition lowercase_table : list (N * N * N * N) :=
  [
    (65, 90, 1, 97); (192, 214, 1, 224); (216, 222, 1, 248); (256, 302, 2, 257);
    (306, 310, 2, 307); (313, 327, 2, 314); (330, 374, 2, 331); (376, 376, 1, 255);
    (377, 381, 2, 378); (385, 385, 1, 595); (386, 388, 2, 387); (390, 390, 1, 596);
    (391, 391, 1, 392); (393, 394, 1, 598); (395, 395, 1, 396); (398, 398, 1, 477);
    (399, 399, 1, 601); (400, 400, 1, 603); (401, 401, 1, 402); (403, 403, 1, 608);
    (404, 404, 1, 611); (406, 406, 1, 617); (407, 407, 1, 616); (408, 408, 1, 409);
    (412, 412, 1, 623); (413, 413, 1, 626); (415, 415, 1, 629); (416, 420, 2, 417);
    (422, 422, 1, 640); (423, 423, 1, 424); (425, 425, 1, 643); (428, 428, 1, 429);
    (430, 430, 1, 648); (431, 431, 1, 432); (433, 434, 1, 650); (435, 437, 2, 436);
    (439, 439, 1, 658); (440, 440, 1, 441); (444, 444, 1, 445); (452, 452, 1, 454);
    (453, 453, 1, 454); (455, 455, 1, 457); (456, 456, 1, 457); (458, 458, 1, 460);
    (459, 475, 2, 460); (478, 494, 2, 479); (497, 497, 1, 499); (498, 500, 2, 499);
    (502, 502, 1, 405); (503, 503, 1, 447); (504, 542, 2, 505); (544, 544, 1, 414);
    (546, 562, 2, 547); (570, 570, 1, 11365); (571, 571, 1, 572); (573, 573, 1, 410);
    (574, 574, 1, 11366); (577, 577, 1, 578); (579, 579, 1, 384); (580, 580, 1, 649);
    (581, 581, 1, 652); (582, 590, 2, 583); (880, 882, 2, 881); (886, 886, 1, 887);
    (895, 895, 1, 1011); (902, 902, 1, 940); (904, 906, 1, 941); (908, 908, 1, 972);
    (910, 911, 1, 973); (913, 929, 1, 945); (931, 939, 1, 963); (975, 975, 1, 983);
    (984, 1006, 2, 985); (1012, 1012, 1, 952); (1015, 1015, 1, 1016); (1017, 1017, 1, 1010);
    (1018, 1018, 1, 1019); (1021, 1023, 1, 891); (1024, 1039, 1, 1104); (1040, 1071, 1, 1072);
    (1120, 1152, 2, 1121); (1162, 1214, 2, 1163); (1216, 1216, 1, 1231); (1217, 1229, 2, 1218);
    (1232, 1326, 2, 1233); (1329, 1366, 1, 1377); (4256, 4293, 1, 11520); (4295, 4295, 1, 11559);
    (4301, 4301, 1, 11565); (5024, 5103, 1, 43888); (5104, 5109, 1, 5112); (7312, 7354, 1, 4304);
    (7357, 7359, 1, 4349); (7680, 7828, 2, 7681); (7838, 7838, 1, 223); (7840, 7934, 2, 7841);
    (7944, 7951, 1, 7936); (7960, 7965, 1, 7952); (7976, 7983, 1, 7968); (7992, 7999, 1, 7984);
    (8008, 8013, 1, 8000); (8025, 8031, 2, 8017); (8040, 8047, 1, 8032); (8072, 8079, 1, 8064);
    (8088, 8095, 1, 8080); (8104, 8111, 1, 8096); (8120, 8121, 1, 8112); (8122, 8123, 1, 8048);
    (8124, 8124, 1, 8115); (8136, 8139, 1, 8050); (8140, 8140, 1, 8131); (8152, 8153, 1, 8144);
    (8154, 8155, 1, 8054); (8168, 8169, 1, 8160); (8170, 8171, 1, 8058); (8172, 8172, 1, 8165);
    (8184, 8185, 1, 8056); (8186, 8187, 1, 8060); (8188, 8188, 1, 8179); (8486, 8486, 1, 969);
    (8490, 8490, 1, 107); (8491, 8491, 1, 229); (8498, 8498, 1, 8526); (8544, 8559, 1, 8560);
    (8579, 8579, 1, 8580); (9398, 9423, 1, 9424); (11264, 11311, 1, 11312);
    (11360, 11360, 1, 11361); (11362, 11362, 1, 619); (11363, 11363, 1, 7549);
    (11364, 11364, 1, 637); (11367, 11371, 2, 11368); (11373, 11373, 1, 593);
    (11374, 11374, 1, 625); (11375, 11375, 1, 592); (11376, 11376, 1, 594);
    (11378, 11378, 1, 11379); (11381, 11381, 1, 11382); (11390, 11391, 1, 575);
    (11392, 11490, 2, 11393); (11499, 11501, 2, 11500); (11506, 11506, 1, 11507);
    (42560, 42604, 2, 42561); (42624, 42650, 2, 42625); (42786, 42798, 2, 42787);
    (42802, 42862, 2, 42803); (42873, 42875, 2, 42874); (42877, 42877, 1, 7545);
    (42878, 42886, 2, 42879); (42891, 42891, 1, 42892); (42893, 42893, 1, 613);
    (42896, 42898, 2, 42897); (42902, 42920, 2, 42903); (42922, 42922, 1, 614);
    (42923, 42923, 1, 604); (42924, 42924, 1, 609); (42925, 42925, 1, 620);
    (42926, 42926, 1, 618); (42928, 42928, 1, 670); (42929, 42929, 1, 647);
    (42930, 42930, 1, 669); (42931, 42931, 1, 43859); (42932, 42946, 2, 42933);
    (42948, 42948, 1, 42900); (42949, 42949, 1, 642); (42950, 42950, 1, 7566);
    (42951, 42953, 2, 42952); (42960, 42960, 1, 42961); (42966, 42968, 2, 42967);
    (42997, 42997, 1, 42998); (65313, 65338, 1, 65345); (66560, 66599, 1, 66600);
    (66736, 66771, 1, 66776); (66928, 66938, 1, 66967); (66940, 66954, 1, 66979);
    (66956, 66962, 1, 66995); (66964, 66965, 1, 67003); (68736, 68786, 1, 68800);
    (71840, 71871, 1, 71872); (93760, 93791, 1, 93792); (125184, 125217, 1, 125218) ].

Definition lowercase_of (c : N) : option N :=
  match find (fun e => let '(first, last, step, _) := e in
                       (first <=? c) && (c <=? last) && ((c - first) mod step =? 0))
             lowercase_table with
  | Some (first, _, _, target) => Some (target + (c - first))
  | None => None
  end.

(** The lowercase forms that the table gives, entry by entry. *)
Definition lowercase_forms : list N :=
  flat_map (fun e => let '(first, last, step, target) := e in
                     map (fun k => target + N.of_nat k * step)
                         (seq 0 (S (N.to_nat ((last - first) / step)))))
           lowercase_table.

(** The lowercase form of a code point taken on its own.  U+0130 (capital
    I with a dot above) is the one code point whose lowercase form has two
    characters; a code point without a lowercase form stays as it is. *)
Definition lower_char (c : N) : str :=
  if c =? 304 then [105; 775]
  else match lowercase_of c with Some l => [l] | None => [c] end.

(** The case-ignorable code points, and the cased ones that are not
    case-ignorable: what the rule for the capital sigma looks at. *)
Definition case_ignorable_ranges : list (N * N) :=
  [
    (39, 39); (46, 46); (58, 58); (94, 94); (96, 96); (168, 168); (173, 173); (175, 175);
    (180, 180); (183, 184); (688, 879); (884, 885); (890, 890); (900, 901); (903, 903);
    (1155, 1161); (1369, 1369); (1375, 1375); (1425, 1469); (1471, 1471); (1473, 1474);
    (1476, 1477); (1479, 1479); (1524, 1524); (1536, 1541); (1552, 1562); (1564, 1564);
    (1600, 1600); (1611, 1631); (1648, 1648); (1750, 1757); (1759, 1768); (1770, 1773);
    (1807, 1807); (1809, 1809); (1840, 1866); (1958, 1968); (2027, 2037); (2042, 2042);
    (2045, 2045); (2070, 2093); (2137, 2139); (2184, 2184); (2192, 2193); (2200, 2207);
    (2249, 2306); (2362, 2362); (2364, 2364); (2369, 2376); (2381, 2381); (2385, 2391);
    (2402, 2403); (2417, 2417); (2433, 2433); (2492, 2492); (2497, 2500); (2509, 2509);
    (2530, 2531); (2558, 2558); (2561, 2562); (2620, 2620); (2625, 2626); (2631, 2632);
    (2635, 2637); (2641, 2641); (2672, 2673); (2677, 2677); (2689, 2690); (2748, 2748);
    (2753, 2757); (2759, 2760); (2765, 2765); (2786, 2787); (2810, 2815); (2817, 2817);
    (2876, 2876); (2879, 2879); (2881, 2884); (2893, 2893); (2901, 2902); (2914, 2915);
    (2946, 2946); (3008, 3008); (3021, 3021); (3072, 3072); (3076, 3076); (3132, 3132);
    (3134, 3136); (3142, 3144); (3146, 3149); (3157, 3158); (3170, 3171); (3201, 3201);
    (3260, 3260); (3263, 3263); (3270, 3270); (3276, 3277); (3298, 3299); (3328, 3329);
    (3387, 3388); (3393, 3396); (3405, 3405); (3426, 3427); (3457, 3457); (3530, 3530);
    (3538, 3540); (3542, 3542); (3633, 3633); (3636, 3642); (3654, 3662); (3761, 3761);
    (3764, 3772); (3782, 3782); (3784, 3789); (3864, 3865); (3893, 3893); (3895, 3895);
    (3897, 3897); (3953, 3966); (3968, 3972); (3974, 3975); (3981, 3991); (3993, 4028);
    (4038, 4038); (4141, 4144); (4146, 4151); (4153, 4154); (4157, 4158); (4184, 4185);
    (4190, 4192); (4209, 4212); (4226, 4226); (4229, 4230); (4237, 4237); (4253, 4253);
    (4348, 4348); (4957, 4959); (5906, 5908); (5938, 5939); (5970, 5971); (6002, 6003);
    (6068, 6069); (6071, 6077); (6086, 6086); (6089, 6099); (6103, 6103); (6109, 6109);
    (6155, 6159); (6211, 6211); (6277, 6278); (6313, 6313); (6432, 6434); (6439, 6440);
    (6450, 6450); (6457, 6459); (6679, 6680); (6683, 6683); (6742, 6742); (6744, 6750);
    (6752, 6752); (6754, 6754); (6757, 6764); (6771, 6780); (6783, 6783); (6823, 6823);
    (6832, 6862); (6912, 6915); (6964, 6964); (6966, 6970); (6972, 6972); (6978, 6978);
    (7019, 7027); (7040, 7041); (7074, 7077); (7080, 7081); (7083, 7085); (7142, 7142);
    (7144, 7145); (7149, 7149); (7151, 7153); (7212, 7219); (7222, 7223); (7288, 7293);
    (7376, 7378); (7380, 7392); (7394, 7400); (7405, 7405); (7412, 7412); (7416, 7417);
    (7468, 7530); (7544, 7544); (7579, 7679); (8125, 8125); (8127, 8129); (8141, 8143);
    (8157, 8159); (8173, 8175); (8189, 8190); (8203, 8207); (8216, 8217); (8228, 8228);
    (8231, 8231); (8234, 8238); (8288, 8292); (8294, 8303); (8305, 8305); (8319, 8319);
    (8336, 8348); (8400, 8432); (11388, 11389); (11503, 11505); (11631, 11631); (11647, 11647);
    (11744, 11775); (11823, 11823); (12293, 12293); (12330, 12333); (12337, 12341);
    (12347, 12347); (12441, 12446); (12540, 12542); (40981, 40981); (42232, 42237);
    (42508, 42508); (42607, 42610); (42612, 42621); (42623, 42623); (42652, 42655);
    (42736, 42737); (42752, 42785); (42864, 42864); (42888, 42890); (42994, 42996);
    (43000, 43001); (43010, 43010); (43014, 43014); (43019, 43019); (43045, 43046);
    (43052, 43052); (43204, 43205); (43232, 43249); (43263, 43263); (43302, 43309);
    (43335, 43345); (43392, 43394); (43443, 43443); (43446, 43449); (43452, 43453);
    (43471, 43471); (43493, 43494); (43561, 43566); (43569, 43570); (43573, 43574);
    (43587, 43587); (43596, 43596); (43632, 43632); (43644, 43644); (43696, 43696);
    (43698, 43700); (43703, 43704); (43710, 43711); (43713, 43713); (43741, 43741);
    (43756, 43757); (43763, 43764); (43766, 43766); (43867, 43871); (43881, 43883);
    (44005, 44005); (44008, 44008); (44013, 44013); (64286, 64286); (64434, 64450);
    (65024, 65039); (65043, 65043); (65056, 65071); (65106, 65106); (65109, 65109);
    (65279, 65279); (65287, 65287); (65294, 65294); (65306, 65306); (65342, 65342);
    (65344, 65344); (65392, 65392); (65438, 65439); (65507, 65507); (65529, 65531);
    (66045, 66045); (66272, 66272); (66422, 66426); (67456, 67461); (67463, 67504);
    (67506, 67514); (68097, 68099); (68101, 68102); (68108, 68111); (68152, 68154);
    (68159, 68159); (68325, 68326); (68900, 68903); (69291, 69292); (69446, 69456);
    (69506, 69509); (69633, 69633); (69688, 69702); (69744, 69744); (69747, 69748);
    (69759, 69761); (69811, 69814); (69817, 69818); (69821, 69821); (69826, 69826);
    (69837, 69837); (69888, 69890); (69927, 69931); (69933, 69940); (70003, 70003);
    (70016, 70017); (70070, 70078); (70089, 70092); (70095, 70095); (70191, 70193);
    (70196, 70196); (70198, 70199); (70206, 70206); (70367, 70367); (70371, 70378);
    (70400, 70401); (70459, 70460); (70464, 70464); (70502, 70508); (70512, 70516);
    (70712, 70719); (70722, 70724); (70726, 70726); (70750, 70750); (70835, 70840);
    (70842, 70842); (70847, 70848); (70850, 70851); (71090, 71093); (71100, 71101);
    (71103, 71104); (71132, 71133); (71219, 71226); (71229, 71229); (71231, 71232);
    (71339, 71339); (71341, 71341); (71344, 71349); (71351, 71351); (71453, 71455);
    (71458, 71461); (71463, 71467); (71727, 71735); (71737, 71738); (71995, 71996);
    (71998, 71998); (72003, 72003); (72148, 72151); (72154, 72155); (72160, 72160);
    (72193, 72202); (72243, 72248); (72251, 72254); (72263, 72263); (72273, 72278);
    (72281, 72283); (72330, 72342); (72344, 72345); (72752, 72758); (72760, 72765);
    (72767, 72767); (72850, 72871); (72874, 72880); (72882, 72883); (72885, 72886);
    (73009, 73014); (73018, 73018); (73020, 73021); (73023, 73029); (73031, 73031);
    (73104, 73105); (73109, 73109); (73111, 73111); (73459, 73460); (78896, 78904);
    (92912, 92916); (92976, 92982); (92992, 92995); (94031, 94031); (94095, 94111);
    (94176, 94177); (94179, 94180); (110576, 110579); (110581, 110587); (110589, 110590);
    (113821, 113822); (113824, 113827); (118528, 118573); (118576, 118598); (119143, 119145);
    (119155, 119170); (119173, 119179); (119210, 119213); (119362, 119364); (121344, 121398);
    (121403, 121452); (121461, 121461); (121476, 121476); (121499, 121503); (121505, 121519);
    (122880, 122886); (122888, 122904); (122907, 122913); (122915, 122916); (122918, 122922);
    (123184, 123197); (123566, 123566); (123628, 123631); (125136, 125142); (125252, 125259);
    (127995, 127999); (917505, 917505); (917536, 917631); (917760, 917999) ].

Definition cased_ranges : list (N * N) :=
  [
    (65, 90); (97, 122); (170, 170); (181, 181); (186, 186); (192, 214); (216, 246); (248, 442);
    (444, 447); (452, 659); (661, 687); (880, 883); (886, 887); (891, 893); (895, 895);
    (902, 902); (904, 906); (908, 908); (910, 929); (931, 1013); (1015, 1153); (1162, 1327);
    (1329, 1366); (1376, 1416); (4256, 4293); (4295, 4295); (4301, 4301); (4304, 4346);
    (4349, 4351); (5024, 5109); (5112, 5117); (7296, 7304); (7312, 7354); (7357, 7359);
    (7424, 7467); (7531, 7543); (7545, 7578); (7680, 7957); (7960, 7965); (7968, 8005);
    (8008, 8013); (8016, 8023); (8025, 8025); (8027, 8027); (8029, 8029); (8031, 8061);
    (8064, 8116); (8118, 8124); (8126, 8126); (8130, 8132); (8134, 8140); (8144, 8147);
    (8150, 8155); (8160, 8172); (8178, 8180); (8182, 8188); (8450, 8450); (8455, 8455);
    (8458, 8467); (8469, 8469); (8473, 8477); (8484, 8484); (8486, 8486); (8488, 8488);
    (8490, 8493); (8495, 8500); (8505, 8505); (8508, 8511); (8517, 8521); (8526, 8526);
    (8544, 8575); (8579, 8580); (9398, 9449); (11264, 11387); (11390, 11492); (11499, 11502);
    (11506, 11507); (11520, 11557); (11559, 11559); (11565, 11565); (42560, 42605);
    (42624, 42651); (42786, 42863); (42865, 42887); (42891, 42894); (42896, 42954);
    (42960, 42961); (42963, 42963); (42965, 42969); (42997, 42998); (43002, 43002);
    (43824, 43866); (43872, 43880); (43888, 43967); (64256, 64262); (64275, 64279);
    (65313, 65338); (65345, 65370); (66560, 66639); (66736, 66771); (66776, 66811);
    (66928, 66938); (66940, 66954); (66956, 66962); (66964, 66965); (66967, 66977);
    (66979, 66993); (66995, 67001); (67003, 67004); (68736, 68786); (68800, 68850);
    (71840, 71903); (93760, 93823); (119808, 119892); (119894, 119964); (119966, 119967);
    (119970, 119970); (119973, 119974); (119977, 119980); (119982, 119993); (119995, 119995);
    (119997, 120003); (120005, 120069); (120071, 120074); (120077, 120084); (120086, 120092);
    (120094, 120121); (120123, 120126); (120128, 120132); (120134, 120134); (120138, 120144);
    (120146, 120485); (120488, 120512); (120514, 120538); (120540, 120570); (120572, 120596);
    (120598, 120628); (120630, 120654); (120656, 120686); (120688, 120712); (120714, 120744);
    (120746, 120770); (120772, 120779); (122624, 122633); (122635, 122654); (125184, 125251);
    (127280, 127305); (127312, 127337); (127344, 127369) ].

(** The first character of [s] that is not case-ignorable is a cased one. *)
Fixpoint cased_first (s : str) : bool :=
  match s with
  | [] => false
  | c :: t =>
    if in_ranges c case_ignorable_ranges then cased_first t
    else in_ranges c cased_ranges
  end.

(** [str.lower()]: every character gets its lowercase form, but for the
    capital sigma U+03A3: it becomes the final sigma U+03C2 when a cased
    character stands before it and none after it, case-ignorable characters
    being passed over, and the small sigma U+03C3 otherwise.  [before] is
    the text that precedes [s], last character first. *)
Fixpoint lower_from (before s : str) : str :=
  match s with
  | [] => []
  | c :: t =>
    (if c =? 931 then
       if cased_first before && negb (cased_first t) then [962] else [963]
     else lower_char c)
    ++ lower_from (c :: before) t
  end.

Definition lower (s : str) : str := lower_from [] s.

(** [str.isupper()] of one code point: the code points with a lowercase
    form, but for the titlecase letters, and the uppercase code points
    without one (such as the mathematical capitals from U+1D400 on), which
    [str.lower()] leaves as they are. *)
Definition titlecase_ranges : list (N * N) :=
  [
    (453, 453); (456, 456); (459, 459); (498, 498); (8072, 8079); (8088, 8095); (8104, 8111);
    (8124, 8124); (8140, 8140); (8188, 8188) ].

Definition uppercase_only_ranges : list (N * N) :=
  [
    (978, 980); (8450, 8450); (8455, 8455); (8459, 8461); (8464, 8466); (8469, 8469);
    (8473, 8477); (8484, 8484); (8488, 8488); (8492, 8493); (8496, 8497); (8499, 8499);
    (8510, 8511); (8517, 8517); (119808, 119833); (119860, 119885); (119912, 119937);
    (119964, 119964); (119966, 119967); (119970, 119970); (119973, 119974); (119977, 119980);
    (119982, 119989); (120016, 120041); (120068, 120069); (120071, 120074); (120077, 120084);
    (120086, 120092); (120120, 120121); (120123, 120126); (120128, 120132); (120134, 120134);
    (120138, 120144); (120172, 120197); (120224, 120249); (120276, 120301); (120328, 120353);
    (120380, 120405); (120432, 120457); (120488, 120512); (120546, 120570); (120604, 120628);
    (120662, 120686); (120720, 120744); (120778, 120778); (127280, 127305); (127312, 127337);
    (127344, 127369) ].

Definition isupper (c : N) : bool :=
  ((c =? 304) || (match lowercase_of c with Some _ => true | None => false end))
  && negb (in_ranges c titlecase_ranges)
  || in_ranges c uppercase_only_ranges.

(** [str.isspace()] of one code point: the whitespace set of [str.strip()]. *)
Definition isspace (c : N) : bool :=
  ((9 <=? c) && (c <=? 13)) || ((28 <=? c) && (c <=? 32)) ||
  (c =? 133) || (c =? 160) || (c =? 5760) ||
  ((8192 <=? c) && (c <=? 8202)) ||
  (c =? 8232) || (c =? 8233) || (c =? 8239) || (c =? 8287) || (c =? 12288).

Fixpoint lstrip (s : str) : str :=
  match s with
  | [] => []
  | c :: t => if isspace c then lstrip t else s
  end.

Definition rstrip (s : str) : str := rev (lstrip (rev s)).

Definition strip (s : str) : str := rstrip (lstrip s).

(** [sep.join(parts)]. *)
Fixpoint join (sep : str) (parts : list str) : str :=
  match parts with
  | [] => []
  | [p] => p
  | p :: rest => p ++ sep ++ join sep rest
  end.

(** [str(n)] for a natural number. *)
Definition of_nat (n : nat) : str := lit (NilEmpty.string_of_uint (Nat.to_uint n)).

(** [template.format] with keyword arguments, for templates whose replacement fields are
    plain names: a doubled brace is a literal brace, [{name}] is replaced by
    the argument of that name.  [None] stands for the [ValueError] of an
    unbalanced brace and the [KeyError] of an unknown name.  [field] holds the
    (reversed) name read so far while inside a replacement field. *)
Fixpoint format_from (args : str -> option str) (field : option str) (s : str)
  : option str :=
  match s with
  | [] => match field with None => Some [] | Some _ => None end
  | c :: t =>
    match field with
    | Some acc =>
      if c =? 125 then
        match args (rev acc), format_from args None t with
        | Some v, Some r => Some (v ++ r)
        | _, _ => None
        end
      else if c =? 123 then None
      else format_from args (Some (c :: acc)) t
    | None =>
      if c =? 123 then
        match t with
        | c' :: t' =>
          if c' =? 123 then option_map (cons 123) (format_from args None t')
          else format_from args (Some []) t
        | [] => None
        end
      else if c =? 125 then
        match t with
        | c' :: t' =>
          if c' =? 125 then option_map (cons 125) (format_from args None t')
          else None
        | [] => None
        end
      else option_map (cons c) (format_from args None t)
    end
  end.

Definition format (template : str) (args : str -> option str) : option str :=
  format_from args None template.

End Text.

Import Text.

(* ===================================================================== *)
(** ** The [json] module: values, [json.loads], [json.dumps] *)
(* ===================================================================== *)

Module Json.

Local Open Scope N_scope.

(** What [json.loads] returns.  An integer literal becomes an [int]; a
    literal with a fraction or an exponent, and the constants NaN, Infinity
    and -Infinity, become a [float], kept here as the literal that was read.
    An object becomes a [dict]: its keys in insertion order, each once. *)
Inductive json : Type :=
| JNull
| JBool (b : bool)
| JInt (z : Z)
| JFloat (literal : str)
| JStr (s : str)
| JArr (items : list json)
| JObj (pairs : list (str * json)).

Definition obind {A B} (o : option A) (f : A -> option B) : option B :=
  match o with Some a => f a | None => None end.

Local Notation "x <- o ;; k" := (obind o (fun x => k))
  (at level 61, o at next level, right associativity).
Local Notation "' p <- o ;; k" := (obind o (fun x => match x with p => k end))
  (at level 61, p pattern, o at next level, right associativity).

(** [d[k] = v] on a dict: a new key goes last, a known key keeps its place. *)
Fixpoint dict_set {V} (k : str) (v : V) (d : list (str * V)) : list (str * V) :=
  match d with
  | [] => [(k, v)]
  | (k', v') :: r => if str_eqb k k' then (k, v) :: r else (k', v') :: dict_set k v r
  end.

Definition dict_of_pairs {V} (pairs : list (str * V)) : list (str * V) :=
  fold_left (fun d kv => dict_set (fst kv) (snd kv) d) pairs [].

(** [d.get(k)]: [None] when the key is absent. *)
Fixpoint dict_get {V} (k : str) (d : list (str * V)) : option V :=
  match d with
  | [] => None
  | (k', v) :: r => if str_eqb k k' then Some v else dict_get k r
  end.

(** *** Scanning *)

Definition is_ws (c : N) : bool := (c =? 32) || (c =? 9) || (c =? 10) || (c =? 13).

Fixpoint skip_ws (s : str) : str :=
  match s with
  | [] => []
  | c :: t => if is_ws c then skip_ws t else s
  end.

Definition expect (c : N) (s : str) : option str :=
  match s with
  | x :: t => if x =? c then Some t else None
  | [] => None
  end.

Definition expect_lit (p s : str) : option str :=
  if startswith s p then Some (skipn (List.length p) s) else None.

Definition is_digit (c : N) : bool := (48 <=? c) && (c <=? 57).

Definition hex_digit (c : N) : option N :=
  if is_digit c then Some (c - 48)
  else if (97 <=? c) && (c <=? 102) then Some (c - 87)
  else if (65 <=? c) && (c <=? 70) then Some (c - 55)
  else None.

(** Four hexadecimal digits of a [\uXXXX] escape. *)
Definition hex4 (s : str) : option (N * str) :=
  match s with
  | a :: b :: c :: d :: r =>
    x1 <- hex_digit a ;; x2 <- hex_digit b ;;
    x3 <- hex_digit c ;; x4 <- hex_digit d ;;
    Some (((x1 * 16 + x2) * 16 + x3) * 16 + x4, r)
  | _ => None
  end.

Definition is_high_surrogate (u : N) : bool := (55296 <=? u) && (u <=? 56319).
Definition is_low_surrogate (u : N) : bool := (56320 <=? u) && (u <=? 57343).

(** The escapes of one letter. *)
Definition simple_escape (e : N) : option N :=
  if e =? 34 then Some 34 else if e =? 92 then Some 92
  else if e =? 47 then Some 47 else if e =? 98 then Some 8
  else if e =? 102 then Some 12 else if e =? 110 then Some 10
  else if e =? 114 then Some 13 else if e =? 116 then Some 9
  else None.

(** One [\uXXXX] escape, [s] standing after the letter u; a high surrogate
    followed by a second escape that holds a low surrogate is one code
    point, and a second escape that is not four hexadecimal digits is an
    error. *)
Definition unicode_escape (s : str) : option (N * str) :=
  '(u, r) <- hex4 s ;;
  if is_high_surrogate u then
    match r with
    | a :: b :: r2 =>
      if (a =? 92) && (b =? 117) then
        '(u2, r3) <- hex4 r2 ;;
        if is_low_surrogate u2
        then Some (65536 + ((u - 55296) * 1024 + (u2 - 56320)), r3)
        else Some (u, r)
      else Some (u, r)
    | _ => Some (u, r)
    end
  else Some (u, r).

(** The body of a string, after its opening quote (strict mode: a raw
    control character is an error).  [fuel] bounds the number of characters
    and escapes read; [acc] is the text so far, reversed. *)
Fixpoint scanstring (fuel : nat) (s : str) (acc : str) : option (str * str) :=
  match fuel with
  | O => None
  | S fuel' =>
    match s with
    | [] => None
    | c :: t =>
      if c =? 34 then Some (rev acc, t)
      else if c =? 92 then
        match t with
        | [] => None
        | e :: t' =>
          if e =? 117 then
            '(u, r) <- unicode_escape t' ;; scanstring fuel' r (u :: acc)
          else
            x <- simple_escape e ;; scanstring fuel' t' (x :: acc)
        end
      else if c <=? 31 then None
      else scanstring fuel' t (c :: acc)
    end
  end.

Fixpoint span_digits (s : str) : str * str :=
  match s with
  | c :: t => if is_digit c then let (ds, r) := span_digits t in (c :: ds, r) else ([], s)
  | [] => ([], [])
  end.

Definition digits_value (ds : str) : Z :=
  fold_left (fun acc c => (acc * 10 + Z.of_N (c - 48))%Z) ds 0%Z.

(** The integer part: one zero, or a non-zero digit and the digits after it. *)
Definition int_part (s : str) : option (str * str) :=
  match s with
  | d :: t =>
    if (49 <=? d) && (d <=? 57) then let (ds, r) := span_digits t in Some (d :: ds, r)
    else if d =? 48 then Some ([48], t)
    else None
  | [] => None
  end.

(** A fraction is read only when a digit follows the point. *)
Definition frac_part (s : str) : str * str :=
  match s with
  | p :: d :: t =>
    if (p =? 46) && is_digit d then let (ds, r) := span_digits t in (p :: d :: ds, r)
    else ([], s)
  | _ => ([], s)
  end.

(** An exponent is read only when it has a digit. *)
Definition exp_part (s : str) : str * str :=
  match s with
  | e :: t =>
    if (e =? 101) || (e =? 69) then
      let (sign, t1) :=
        match t with
        | c :: t' => if (c =? 45) || (c =? 43) then ([c], t') else ([], t)
        | [] => ([], t)
        end in
      match span_digits t1 with
      | ([], _) => ([], s)
      | (ds, r) => (e :: sign ++ ds, r)
      end
    else ([], s)
  | [] => ([], s)
  end.

Definition match_number (s : str) : option (json * str) :=
  let (sign, s1) :=
    match s with
    | c :: t => if c =? 45 then ([c], t) else ([], s)
    | [] => ([], s)
    end in
  '(ds, r1) <- int_part s1 ;;
  let (fr, r2) := frac_part r1 in
  let (ex, r3) := exp_part r2 in
  match fr, ex with
  | [], [] =>
    Some (JInt (match sign with [] => digits_value ds | _ => - digits_value ds end)%Z, r3)
  | _, _ => Some (JFloat (sign ++ ds ++ fr ++ ex), r3)
  end.

Definition constant (s : str) : option (json * str) :=
  match expect_lit (lit "null") s with Some r => Some (JNull, r) | None =>
  match expect_lit (lit "true") s with Some r => Some (JBool true, r) | None =>
  match expect_lit (lit "false") s with Some r => Some (JBool false, r) | None =>
  match expect_lit (lit "NaN") s with Some r => Some (JFloat (lit "NaN"), r) | None =>
  match expect_lit (lit "Infinity") s with Some r => Some (JFloat (lit "Infinity"), r) | None =>
  match expect_lit (lit "-Infinity") s with Some r => Some (JFloat (lit "-Infinity"), r) | None =>
  None end end end end end end.

(** One JSON term at the head of [s], and what follows it.  [parse_object]
    and [parse_array] stand at a key, respectively an item, with the pairs
    and items read so far (reversed).  Every recursive call takes one unit
    of [fuel]. *)
Fixpoint scan_once (fuel : nat) (s : str) {struct fuel} : option (json * str) :=
  match fuel with
  | O => None
  | S fuel' =>
    match s with
    | [] => None
    | c :: t =>
      if c =? 34 then
        '(x, r) <- scanstring (List.length t) t [] ;; Some (JStr x, r)
      else if c =? 123 then
        let t1 := skip_ws t in
        match expect 125 t1 with
        | Some r => Some (JObj [], r)
        | None => parse_object fuel' t1 []
        end
      else if c =? 91 then
        let t1 := skip_ws t in
        match expect 93 t1 with
        | Some r => Some (JArr [], r)
        | None => parse_array fuel' t1 []
        end
      else
        match constant s with
        | Some r => Some r
        | None => match_number s
        end
    end
  end
with parse_object (fuel : nat) (s : str) (acc : list (str * json)) {struct fuel}
  : option (json * str) :=
  match fuel with
  | O => None
  | S fuel' =>
    s1 <- expect 34 s ;;
    '(key, s2) <- scanstring (List.length s1) s1 [] ;;
    s3 <- expect 58 (skip_ws s2) ;;
    '(v, s4) <- scan_once fuel' (skip_ws s3) ;;
    match skip_ws s4 with
    | [] => None
    | d :: s5 =>
      if d =? 125 then Some (JObj (dict_of_pairs (rev ((key, v) :: acc))), s5)
      else if d =? 44 then parse_object fuel' (skip_ws s5) ((key, v) :: acc)
      else None
    end
  end
with parse_array (fuel : nat) (s : str) (acc : list json) {struct fuel}
  : option (json * str) :=
  match fuel with
  | O => None
  | S fuel' =>
    '(v, s1) <- scan_once fuel' s ;;
    match skip_ws s1 with
    | [] => None
    | d :: s2 =>
      if d =? 93 then Some (JArr (rev (v :: acc)), s2)
      else if d =? 44 then parse_array fuel' (skip_ws s2) (v :: acc)
      else None
    end
  end.

(** [json.loads(s)]; [None] is [JSONDecodeError].  A nested term takes at
    most two units of fuel per character read before it, so that the fuel
    given here never runs out ([JsonFacts.loads_fuel] below). *)
Definition loads (s : str) : option json :=
  '(v, rest) <- scan_once (S (2 * List.length s)) (skip_ws s) ;;
  match skip_ws rest with
  | [] => Some v
  | _ :: _ => None
  end.

(** *** Printing *)

Definition hex_char (d : N) : N := if d <? 10 then 48 + d else 87 + d.

Definition u_escape (c : N) : str :=
  [92; 117; hex_char (c / 4096 mod 16); hex_char (c / 256 mod 16);
   hex_char (c / 16 mod 16); hex_char (c mod 16)].

(** One character of a string under [ensure_ascii]. *)
Definition escape_char (c : N) : str :=
  if (32 <=? c) && (c <=? 126) && negb (c =? 92) && negb (c =? 34) then [c]
  else if c =? 92 then [92; 92] else if c =? 34 then [92; 34]
  else if c =? 8 then [92; 98] else if c =? 12 then [92; 102]
  else if c =? 10 then [92; 110] else if c =? 13 then [92; 114]
  else if c =? 9 then [92; 116]
  else if 65536 <=? c then
    u_escape (55296 + ((c - 65536) / 1024) mod 1024) ++
    u_escape (56320 + (c - 65536) mod 1024)
  else u_escape c.

Definition dumps_str (s : str) : str := [34] ++ flat_map escape_char s ++ [34].

(** [json.dumps(v)] with the default separators.  A float is printed as the
    literal it was read from. *)
Fixpoint dumps (v : json) : str :=
  match v with
  | JNull => lit "null"
  | JBool true => lit "true"
  | JBool false => lit "false"
  | JInt z => lit (NilZero.string_of_int (Z.to_int z))
  | JFloat l => l
  | JStr s => dumps_str s
  | JArr items =>
    lit "[" ++ join (lit ", ") (map dumps items) ++ lit "]"
  | JObj pairs =>
    lit "{" ++
    join (lit ", ") (map (fun kv => dumps_str (fst kv) ++ lit ": " ++ dumps (snd kv)) pairs)
    ++ lit "}"
  end.

End Json.

Import Json.

(* ===================================================================== *)
(** ** The pattern of the response parser *)
(* ===================================================================== *)

Module Re.

Local Open Scope N_scope.

(** The pattern is an opening brace, [.*] and a closing brace, under
    [re.DOTALL] (the dot matches every character, line breaks too).

    [dot_star_brace s] matches [.*] and the closing brace at the head of [s]
    the way a backtracking matcher does: the star first takes one more
    character and the rest is tried; only when that fails is the closing
    brace looked for here.  The result is the text matched. *)
Fixpoint dot_star_brace (s : str) : option str :=
  match s with
  | [] => None
  | c :: t =>
    match dot_star_brace t with
    | Some m => Some (c :: m)
    | None => if c =? 125 then Some [c] else None
    end
  end.

(** [re.search]: the first position, from the left, at which the pattern
    matches; the result is [match.group()]. *)
Fixpoint search_braces (s : str) : option str :=
  match s with
  | [] => None
  | c :: t =>
    if c =? 123 then
      match dot_star_brace t with
      | Some m => Some (c :: m)
      | None => search_braces t
      end
    else search_braces t
  end.

End Re.

(* ===================================================================== *)
(** ** Exceptions, events and the script's monad *)
(* ===================================================================== *)

(** The exceptions the script can meet.  [FormatError] is the [KeyError] or
    [ValueError] of [str.format]; [DecoderError] is whatever a document
    decoder raises. *)
Inductive exn : Type :=
| JSONDecodeError
| TypeError
| AttributeError
| UnicodeEncodeError
| FormatError
| DecoderError (msg : str).

Inductive result (A : Type) : Type :=
| Ok (a : A)
| Raise (e : exn).

Arguments Ok {A} a.
Arguments Raise {A} e.

(** [pd.DataFrame(list of dicts)]: the columns are the keys in the order in
    which they first appear; a record holds, per column, the value of its
    dict ([None] where the dict lacks the key). *)
Record DataFrame : Type := {
  columns : list str;
  records : list (list (option json))
}.

(** [df.to_csv(index=False)]: a header line, then one line per record.  The
    header is kept as text (column names are printed as they are: ours hold
    no comma, quote or line break); a record is kept as its cells, in column
    order, since how pandas prints a cell is not part of this model. *)
Record csv : Type := {
  header : str;
  lines : list (list (option json))
}.

(** What the user sees, and the calls that leave the program. *)
Inductive event : Type :=
| PdfReader (file : str)                    (* PyPDF2 decodes the file *)
| docx2txt_process (file : str)             (* docx2txt decodes the file *)
| generate_content (prompt : str)           (* the request to the model *)
| st_error (msg : str)
| st_progress                               (* st.progress(0) *)
| progress_progress (num den : nat)         (* progress.progress(num/den) *)
| st_subheader (text : str)
| st_metric (label : str) (value : json)
| st_markdown_card (candidate_name role current_company duration
                    overall_experience linkedin : json)
| st_info_summary (profile_summary : json)
| st_warning (text : str)
| st_download_button (data : csv)
| st_success (text : str)
| st_balloons.

(** A computation: the events it produced, and its value or the exception
    that ended it. *)
Definition M (A : Type) : Type := (list event * result A)%type.

Definition ret {A} (a : A) : M A := ([], Ok a).

Definition bind {A B} (m : M A) (f : A -> M B) : M B :=
  match m with
  | (t, Ok a) => let (t', r) := f a in (t ++ t', r)
  | (t, Raise e) => (t, Raise e)
  end.

Definition emit (e : event) : M unit := ([e], Ok tt).

Definition lift {A} (r : result A) : M A := ([], r).

Notation "x <- m ;; k" := (bind m (fun x => k))
  (at level 61, m at next level, right associativity).
Notation "m ;;; k" := (bind m (fun _ => k))
  (at level 61, right associativity).

Definition trace {A} (m : M A) : list event := fst m.
Definition outcome {A} (m : M A) : result A := snd m.

(* ===================================================================== *)
(** ** Python and Streamlit operations on decoded values *)
(* ===================================================================== *)

(** [len(v)]: defined on strings, lists and dicts. *)
Definition py_len (v : json) : result nat :=
  match v with
  | JStr s => Ok (List.length s)
  | JArr items => Ok (List.length items)
  | JObj pairs => Ok (List.length pairs)
  | _ => Raise TypeError
  end.

(** The digits of a float literal that stand before its exponent. *)
Fixpoint mantissa (l : str) : str :=
  match l with
  | [] => []
  | c :: t => if ((c =? 101) || (c =? 69))%N then [] else c :: mantissa t
  end.

(** The truth value of [v] in a condition.  For a float it is decided on the
    literal: false when only zeros, a sign and a point stand before the
    exponent (the script takes [len] first, which a float does not pass). *)
Definition py_bool (v : json) : bool :=
  match v with
  | JNull => false
  | JBool b => b
  | JInt z => negb (z =? 0)%Z
  | JFloat l => existsb (fun c => negb ((c =? 48) || (c =? 45) || (c =? 46))%N) (mantissa l)
  | JStr s => negb (Nat.eqb (List.length s) 0)
  | JArr items => negb (Nat.eqb (List.length items) 0)
  | JObj pairs => negb (Nat.eqb (List.length pairs) 0)
  end.

(** The items of [v] when every one of them is a string. *)
Fixpoint strings_of (items : list json) : option (list str) :=
  match items with
  | [] => Some []
  | JStr s :: rest => option_map (cons s) (strings_of rest)
  | _ :: _ => None
  end.

(** [sep.join(v)]: [v] is iterated (a string gives its characters, a dict
    its keys) and every item must be a string. *)
Definition py_join (sep : str) (v : json) : result str :=
  match v with
  | JArr items =>
    match strings_of items with
    | Some parts => Ok (join sep parts)
    | None => Raise TypeError
    end
  | JStr s => Ok (join sep (map (fun c => [c]) s))
  | JObj pairs => Ok (join sep (map fst pairs))
  | _ => Raise TypeError
  end.

(** [v.get(key, default)]: only a dict has the method. *)
Definition py_get (v : json) (key : str) (default : json) : result json :=
  match v with
  | JObj pairs =>
    Ok (match dict_get key pairs with Some x => x | None => default end)
  | _ => Raise AttributeError
  end.

(** A text can be encoded as UTF-8 when it holds no surrogate code point.
    The texts that reach the script from outside (the names of the files,
    what the user types, what the decoders and the client of the model
    return) are well-formed; a string decoded by [json.loads] holds a
    surrogate on its own when the reply spells one with an escape. *)
Definition is_surrogate (c : N) : bool := ((55296 <=? c) && (c <=? 57343))%N.

Definition encodable (s : str) : bool := forallb (fun c => negb (is_surrogate c)) s.

(** The text that stands for a value in an f-string, in [st.metric] or in a
    cell of the CSV can be encoded: a string stands there as it is; any
    other value is printed by [str()], which writes the strings inside a
    list or a dict with escapes. *)
Definition shown_ok (v : json) : bool :=
  match v with
  | JStr s => encodable s
  | _ => true
  end.

(** A Streamlit element puts its text into a message for the browser, and
    raises [UnicodeEncodeError] when the text cannot be encoded. *)
Definition show (ok : bool) (e : event) : M unit :=
  if ok then emit e else lift (Raise UnicodeEncodeError).

(** [st.metric(label, value)] accepts an int, a float, a str or None and
    raises [TypeError] for anything else. *)
Definition metric (label : str) (value : json) : M unit :=
  match value with
  | JArr _ | JObj _ => lift (Raise TypeError)
  | _ => show (shown_ok value) (st_metric label value)
  end.

(** [pd.DataFrame(data)] and [df.to_csv(index=False)]. *)
Definition add_column (cols : list str) (key : str) : list str :=
  if existsb (str_eqb key) cols then cols else cols ++ [key].

Definition pd_DataFrame (data : list (list (str * json))) : DataFrame :=
  let cols := fold_left (fun cs d => fold_left add_column (map fst d) cs) data [] in
  {| columns := cols;
     records := map (fun d => map (fun c => dict_get c d) cols) data |}.

Definition to_csv (df : DataFrame) : csv :=
  {| header := join (lit ",") (columns df); lines := records df |}.

(** [text.encode("utf-8")] of the CSV text: it raises when a column name or
    a cell holds a surrogate. *)
Definition encode_utf8 (data : csv) : result csv :=
  if encodable (header data)
     && forallb (forallb (fun cell => match cell with
                                      | Some v => shown_ok v
                                      | None => true
                                      end)) (lines data)
  then Ok data
  else Raise UnicodeEncodeError.

(* ===================================================================== *)
(** ** The script *)
(* ===================================================================== *)

(** An uploaded file: its name, and what the two decoders return on it. *)
Record uploaded_file : Type := {
  name : str;
  pdf_pages : result (list str);     (* page.extract_text() of every page *)
  docx_text : result str             (* docx2txt.process(file) *)
}.

(** What the generative model does with a prompt: it answers with a text
    or the call raises, with a message. *)
Inductive reply : Type :=
| Reply (text : str)
| Fails (message : str).

(** The payload returned when the call to the model fails. *)
Definition fallback_pairs : list (str * json) :=
  [ (lit "JD Match", JStr (lit "N/A"));
    (lit "MissingKeywords", JArr []);
    (lit "Profile Summary", JStr (lit "Error"));
    (lit "Candidate Name", JStr []);
    (lit "Role", JStr []);
    (lit "Current Company", JStr []);
    (lit "Duration", JStr []);
    (lit "Overall Experience", JStr []);
    (lit "LinkedIn", JStr []) ].

Definition fallback : json := JObj fallback_pairs.

Definition get_gemini_response (generate : str -> reply) (input_text : str) : M str :=
  emit (generate_content input_text) ;;;
  match generate input_text with
  | Reply text => ret text
  | Fails e =>
    emit (st_error (lit "Gemini API error: " ++ e)) ;;;
    ret (dumps fallback)
  end.

Definition input_resume_text (f : uploaded_file) : M str :=
  if endswith (name f) (lit ".pdf") then
    emit (PdfReader (name f)) ;;;
    pages <- lift (pdf_pages f) ;;
    ret (List.concat (filter (fun t => negb (Nat.eqb (List.length t) 0)) pages))
  else if endswith (name f) (lit ".docx") then
    emit (docx2txt_process (name f)) ;;;
    lift (docx_text f)
  else ret [].

Definition input_prompt : str :=
  nl ++ lit "Act like an ATS. Evaluate this resume against the JD." ++
  nl ++ lit "Return JSON:" ++
  nl ++ litq "{{'JD Match':'%','MissingKeywords':[],'Profile Summary':'','Candidate Name':'','Role':'','Current Company':'','Duration':'','Overall Experience':'','LinkedIn':'{linkedin}'}}" ++
  nl ++ lit "Resume: {text}" ++
  nl ++ lit "Job Description: {jd}" ++
  nl ++ lit "LinkedIn: {linkedin}" ++
  nl.

(** The keyword arguments of [input_prompt.format]. *)
Definition prompt_args (text jd linkedin : str) (field : str) : option str :=
  if str_eqb field (lit "text") then Some text
  else if str_eqb field (lit "jd") then Some jd
  else if str_eqb field (lit "linkedin") then Some linkedin
  else None.

(** [input_prompt.format(text=resume_text[:4000], jd=jd_input[:1000],
    linkedin=linkedin_url)]. *)
Definition build_prompt (resume_text jd_input linkedin_url : str) : result str :=
  match format input_prompt
          (prompt_args (firstn 4000 resume_text) (firstn 1000 jd_input) linkedin_url) with
  | Some prompt => Ok prompt
  | None => Raise FormatError
  end.

(** The [try] around [json.loads(response)] and its handler: [Some] is the
    decoded reply, [None] is the [continue] of the loop.  The second
    [json.loads] stands inside the handler, where nothing catches it. *)
Definition parse_response (response : str) : M (option json) :=
  match loads response with
  | Some response_json => ret (Some response_json)
  | None =>
    match Re.search_braces response with
    | Some group =>
      match loads group with
      | Some response_json => ret (Some response_json)
      | None => lift (Raise JSONDecodeError)
      end
    | None =>
      emit (st_error (lit "Failed to parse JSON.")) ;;;
      ret None
    end
  end.

Definition row : Type := list (str * json).

(** The rest of the loop body, from the nine [get] calls to the progress
    bar: the values are read, shown, and the row is appended. *)
Definition record_result (total idx : nat) (file_name : str) (response_json : json)
    (results_data : list row) : M (list row) :=
  jd_match <- lift (py_get response_json (lit "JD Match") (JStr (lit "N/A"))) ;;
  missing_keywords <- lift (py_get response_json (lit "MissingKeywords") (JArr [])) ;;
  profile_summary <- lift (py_get response_json (lit "Profile Summary") (JStr [])) ;;
  candidate_name <- lift (py_get response_json (lit "Candidate Name") (JStr [])) ;;
  role <- lift (py_get response_json (lit "Role") (JStr [])) ;;
  current_company <- lift (py_get response_json (lit "Current Company") (JStr [])) ;;
  duration <- lift (py_get response_json (lit "Duration") (JStr [])) ;;
  overall_experience <- lift (py_get response_json (lit "Overall Experience") (JStr [])) ;;
  linkedin <- lift (py_get response_json (lit "LinkedIn") (JStr [])) ;;
  metric ([127919%N] ++ lit " JD Match") jd_match ;;;
  count <- lift (py_len missing_keywords) ;;
  metric ([128201%N] ++ lit " Missing Keywords") (JStr (of_nat count)) ;;;
  show (forallb shown_ok [candidate_name; role; current_company; duration;
                          overall_experience; linkedin])
       (st_markdown_card candidate_name role current_company duration
                         overall_experience linkedin) ;;;
  show (shown_ok profile_summary) (st_info_summary profile_summary) ;;;
  (if py_bool missing_keywords then
     joined <- lift (py_join (lit ", ") missing_keywords) ;;
     show (encodable joined) (st_warning (lit "Missing Keywords: " ++ joined))
   else ret tt) ;;;
  joined <- lift (py_join (lit ", ") missing_keywords) ;;
  let results_data' :=
    results_data ++
    [[ (lit "Resume File", JStr file_name);
       (lit "JD Match", jd_match);
       (lit "Candidate Name", candidate_name);
       (lit "Role", role);
       (lit "Current Company", current_company);
       (lit "Duration", duration);
       (lit "Overall Experience", overall_experience);
       (lit "LinkedIn", linkedin);
       (lit "Missing Keywords", JStr joined);
       (lit "Profile Summary", profile_summary) ]] in
  emit (progress_progress (idx + 1) total) ;;;
  ret results_data'.

(** What the loop does with the model's reply. *)
Definition handle_response (total idx : nat) (file_name : str) (response : str)
    (results_data : list row) : M (list row) :=
  parsed <- parse_response response ;;
  match parsed with
  | Some response_json => record_result total idx file_name response_json results_data
  | None => ret results_data
  end.

(** One turn of the loop. *)
Definition evaluate_resume (generate : str -> reply) (jd_input linkedin_url : str)
    (total idx : nat) (f : uploaded_file) (results_data : list row) : M (list row) :=
  text <- input_resume_text f ;;
  let resume_text := lower text in
  emit (st_subheader ([128206%N] ++ lit " Resume: `" ++ name f ++ lit "`")) ;;;
  prompt <- lift (build_prompt resume_text jd_input linkedin_url) ;;
  response <- get_gemini_response generate prompt ;;
  handle_response total idx (name f) response results_data.

Fixpoint evaluate_loop (generate : str -> reply) (jd_input linkedin_url : str)
    (total idx : nat) (files : list uploaded_file) (results_data : list row)
  : M (list row) :=
  match files with
  | [] => ret results_data
  | f :: rest =>
    results_data' <- evaluate_resume generate jd_input linkedin_url total idx f results_data ;;
    evaluate_loop generate jd_input linkedin_url total (S idx) rest results_data'
  end.

Definition is_empty {A} (l : list A) : bool :=
  match l with [] => true | _ :: _ => false end.

(** The body of [if st.button(...)]: one run, started by the user, from an
    empty [results_data].  Its value is [results_data] at the end. *)
Definition evaluate_resumes (generate : str -> reply) (jd_input : str)
    (uploaded_files : list uploaded_file) (linkedin_url : str) : M (list row) :=
  if is_empty uploaded_files || is_empty (strip jd_input) then
    emit (st_error (lit "Please provide both JD and at least one resume.")) ;;;
    ret []
  else
    emit st_progress ;;;
    results_data <- evaluate_loop generate jd_input linkedin_url
                      (List.length uploaded_files) 0 uploaded_files [] ;;
    (if is_empty results_data then ret tt
     else
       data <- lift (encode_utf8 (to_csv (pd_DataFrame results_data))) ;;
       emit (st_download_button data)) ;;;
    emit (st_success ([9989%N] ++ lit " Evaluation complete.")) ;;;
    emit st_balloons ;;;
    ret results_data.

(* ===================================================================== *)
(** ** Definitions used to state the properties *)
(* ===================================================================== *)

(** The prompt, written out: the template with its three fields filled. *)
Definition prompt_layout (text jd linkedin : str) : str :=
  nl ++ lit "Act like an ATS. Evaluate this resume against the JD." ++
  nl ++ lit "Return JSON:" ++
  nl ++ litq "{'JD Match':'%','MissingKeywords':[],'Profile Summary':'','Candidate Name':'','Role':'','Current Company':'','Duration':'','Overall Experience':'','LinkedIn':'" ++
  linkedin ++ litq "'}" ++
  nl ++ lit "Resume: " ++ text ++
  nl ++ lit "Job Description: " ++ jd ++
  nl ++ lit "LinkedIn: " ++ linkedin ++
  nl.

(** The fallback payload, as the text [json.dumps] prints. *)
Definition fallback_text : str :=
  litq "{'JD Match': 'N/A', 'MissingKeywords': [], 'Profile Summary': 'Error', 'Candidate Name': '', 'Role': '', 'Current Company': '', 'Duration': '', 'Overall Experience': '', 'LinkedIn': ''}".

(** The keys of a recorded row, in the order in which the script writes
    them. *)
Definition column_names : list str :=
  [ lit "Resume File"; lit "JD Match"; lit "Candidate Name"; lit "Role";
    lit "Current Company"; lit "Duration"; lit "Overall Experience";
    lit "LinkedIn"; lit "Missing Keywords"; lit "Profile Summary" ].

(** The value read for [key]: the object's own, or the default. *)
Definition field (pairs : list (str * json)) (key : str) (default : json) : json :=
  match dict_get key pairs with Some x => x | None => default end.

(** What [st.metric] accepts. *)
Definition metric_ok (v : json) : bool :=
  match v with JArr _ | JObj _ => false | _ => true end.

(** The row recorded for a decoded object, [joined] being its keywords,
    joined. *)
Definition report_row (file_name : str) (pairs : list (str * json)) (joined : str) : row :=
  [ (lit "Resume File", JStr file_name);
    (lit "JD Match", field pairs (lit "JD Match") (JStr (lit "N/A")));
    (lit "Candidate Name", field pairs (lit "Candidate Name") (JStr []));
    (lit "Role", field pairs (lit "Role") (JStr []));
    (lit "Current Company", field pairs (lit "Current Company") (JStr []));
    (lit "Duration", field pairs (lit "Duration") (JStr []));
    (lit "Overall Experience", field pairs (lit "Overall Experience") (JStr []));
    (lit "LinkedIn", field pairs (lit "LinkedIn") (JStr []));
    (lit "Missing Keywords", JStr joined);
    (lit "Profile Summary", field pairs (lit "Profile Summary") (JStr [])) ].

(** The keys read from the decoded object, each with its default. *)
Definition text_defaults : list (str * json) :=
  [ (lit "JD Match", JStr (lit "N/A"));
    (lit "Profile Summary", JStr []);
    (lit "Candidate Name", JStr []);
    (lit "Role", JStr []);
    (lit "Current Company", JStr []);
    (lit "Duration", JStr []);
    (lit "Overall Experience", JStr []);
    (lit "LinkedIn", JStr []) ].

(** The six values of the card, and the condition under which all that the
    page shows of a decoded object can be encoded: neither the JD Match, nor
    a value of the card, nor the summary is a string with a surrogate. *)
Definition card_values (pairs : list (str * json)) : list json :=
  [ field pairs (lit "Candidate Name") (JStr []);
    field pairs (lit "Role") (JStr []);
    field pairs (lit "Current Company") (JStr []);
    field pairs (lit "Duration") (JStr []);
    field pairs (lit "Overall Experience") (JStr []);
    field pairs (lit "LinkedIn") (JStr []) ].

Definition texts_ok (pairs : list (str * json)) : bool :=
  shown_ok (field pairs (lit "JD Match") (JStr (lit "N/A")))
  && forallb shown_ok (card_values pairs)
  && shown_ok (field pairs (lit "Profile Summary") (JStr [])).

(** The header line of the report. *)
Definition header_line : str :=
  lit "Resume File,JD Match,Candidate Name,Role,Current Company,Duration,Overall Experience,LinkedIn,Missing Keywords,Profile Summary".

(** The report of a list of rows: the header, and per row its ten cells. *)
Definition report (rows : list row) : csv :=
  {| header := header_line;
     lines := map (fun r => map (fun kv => Some (snd kv)) r) rows |}.

(** An event other than the download button, and a computation that shows
    no download button. *)
Definition not_download (e : event) : Prop :=
  match e with st_download_button _ => False | _ => True end.

Definition quiet {A} (m : M A) : Prop := Forall not_download (trace m).

(** The reply of the model for a file, and what the parser makes of it. *)
Definition reply_of (generate : str -> reply) (jd_input linkedin_url : str)
    (f : uploaded_file) : result str :=
  match outcome (input_resume_text f) with
  | Ok text =>
    match build_prompt (lower text) jd_input linkedin_url with
    | Ok prompt => outcome (get_gemini_response generate prompt)
    | Raise e => Raise e
    end
  | Raise e => Raise e
  end.

(** [Ok (Some v)]: the reply was decoded to [v]; [Ok None]: it was skipped. *)
Definition decoded (generate : str -> reply) (jd_input linkedin_url : str)
    (f : uploaded_file) : result (option json) :=
  match reply_of generate jd_input linkedin_url f with
  | Ok response => outcome (parse_response response)
  | Raise e => Raise e
  end.

(** The rows a file contributes: those of its own turn of the loop, run on
    an empty list. *)
Definition resume_rows (generate : str -> reply) (jd_input linkedin_url : str)
    (f : uploaded_file) : list row :=
  match outcome (evaluate_resume generate jd_input linkedin_url 0 0 f []) with
  | Ok rows => rows
  | Raise _ => []
  end.

(* ===================================================================== *)
(** ** Sample inputs *)
(* ===================================================================== *)

(** A file that is neither a PDF nor a DOCX: both decoders would raise. *)
Definition notes_txt : uploaded_file :=
  {| name := lit "notes.txt";
     pdf_pages := Raise (DecoderError (lit "not a PDF"));
     docx_text := Raise (DecoderError (lit "not a DOCX")) |}.

(** A model whose every call fails. *)
Definition service_down : str -> reply := fun _ => Fails (lit "503 unavailable").

(** A DOCX resume with capital letters. *)
Definition cv_docx : uploaded_file :=
  {| name := lit "cv.docx";
     pdf_pages := Raise (DecoderError (lit "not a PDF"));
     docx_text := Ok (lit "Senior ENGINEER, SQL and Python") |}.

(** A text of 4001 characters whose 4000th is U+0130: lowercased, it has
    4002 characters. *)
Definition dotted_text : str := repeat 97%N 3999 ++ [304%N; 66%N].

(** A DOCX resume whose text is the one character U+1D400. *)
Definition bold_cv : uploaded_file :=
  {| name := lit "cv.docx";
     pdf_pages := Raise (DecoderError (lit "not a PDF"));
     docx_text := Ok [119808%N] |}.

(** A model that answers with braces around text that is not JSON. *)
Definition garbled : str -> reply := fun _ => Reply (lit "{abc}").

(** A reply that is the expected object, and the dict it decodes to. *)
Definition full_reply : str :=
  litq "{'JD Match':'85%','MissingKeywords':['python','sql'],'Profile Summary':'Data engineer','Candidate Name':'A. Jones','Role':'Engineer','Current Company':'Acme','Duration':'2 years','Overall Experience':'5 years','LinkedIn':'https://linkedin.com/in/ajones'}".

Definition full_reply_pairs : list (str * json) :=
  [ (lit "JD Match", JStr (lit "85%"));
    (lit "MissingKeywords", JArr (map JStr [lit "python"; lit "sql"]));
    (lit "Profile Summary", JStr (lit "Data engineer"));
    (lit "Candidate Name", JStr (lit "A. Jones"));
    (lit "Role", JStr (lit "Engineer"));
    (lit "Current Company", JStr (lit "Acme"));
    (lit "Duration", JStr (lit "2 years"));
    (lit "Overall Experience", JStr (lit "5 years"));
    (lit "LinkedIn", JStr (lit "https://linkedin.com/in/ajones")) ].

Definition docx (file_name text : str) : uploaded_file :=
  {| name := file_name;
     pdf_pages := Raise (DecoderError (lit "not a PDF"));
     docx_text := Ok text |}.

(** Three resumes and a model that answers the first with the expected
    object, the second with prose, and fails on the third (it tells the
    three prompts apart by their length), with the rows of that run. *)
Definition three_resumes : list uploaded_file :=
  [ docx (lit "a.docx") (lit "x"); docx (lit "b.docx") (lit "yy");
    docx (lit "c.docx") (lit "zzz") ].

Definition scripted (prompt : str) : reply :=
  match Nat.modulo (List.length prompt) 3 with
  | 0 => Reply full_reply
  | 1 => Reply (lit "I cannot evaluate this resume.")
  | _ => Fails (lit "quota exceeded")
  end.

(** Two resumes and a model that answers the first with the expected
    object and the second with an object whose MissingKeywords is null (it
    tells the two prompts apart by their length). *)
Definition two_resumes : list uploaded_file :=
  [ docx (lit "a.docx") (lit "x"); docx (lit "b.docx") (lit "yy") ].

Definition null_keywords (prompt : str) : reply :=
  if Nat.even (List.length prompt) then Reply full_reply
  else Reply (litq "{'MissingKeywords':null}").

Definition three_rows : list row :=
  [ report_row (lit "a.docx") full_reply_pairs (lit "python, sql");
    report_row (lit "c.docx") fallback_pairs [] ].

(* ===================================================================== *)
(** ** The keyword extractor *)
(* ===================================================================== *)

Module Words.

Local Open Scope N_scope.

(** [\w] in a pattern over [str]: the alphanumeric characters and the
    underscore.  Exact for U+0000..U+00FF: the digits, the letters A..Z and
    a..z, the underscore, the ordinal indicators, the superscript digits,
    the micro sign, the three vulgar fractions and the letters from U+00C0
    on (so neither the multiplication nor the division sign); no code point
    above U+00FF is taken for a word character. *)
Definition is_word (c : N) : bool :=
  ((48 <=? c) && (c <=? 57)) || ((65 <=? c) && (c <=? 90)) || (c =? 95) ||
  ((97 <=? c) && (c <=? 122)) ||
  (c =? 170) || (c =? 178) || (c =? 179) || (c =? 181) || (c =? 185) || (c =? 186) ||
  ((188 <=? c) && (c <=? 190)) ||
  ((192 <=? c) && (c <=? 255) && negb (c =? 215) && negb (c =? 247)).

(** The class [[a-zA-Z]]. *)
Definition is_letter (c : N) : bool :=
  ((97 <=? c) && (c <=? 122)) || ((65 <=? c) && (c <=? 90)).

(** [\b] at a position: exactly one of the character before it ([prev],
    [None] at the start of the text) and the character at it (the head of
    [s], none at the end) is a word character. *)
Definition word_before (prev : option N) : bool :=
  match prev with Some c => is_word c | None => false end.

Definition word_at (s : str) : bool :=
  match s with c :: _ => is_word c | [] => false end.

Definition boundary (prev : option N) (s : str) : bool :=
  xorb (word_before prev) (word_at s).

(** [[a-zA-Z]{min,}\b] at the head of [s], the way a backtracking matcher
    runs it: the repetition first takes one more letter and the rest is
    tried; only when that fails, and [min] letters have been taken, is the
    boundary looked for here.  The result is the text matched and the text
    left. *)
Fixpoint letters_boundary (min : nat) (prev : option N) (s : str)
  : option (str * str) :=
  let stop := if Nat.eqb min 0 && boundary prev s then Some ([], s) else None in
  match s with
  | [] => stop
  | c :: t =>
    if is_letter c then
      match letters_boundary (Nat.pred min) (Some c) t with
      | Some (m, r) => Some (c :: m, r)
      | None => stop
      end
    else stop
  end.

(** The last character of [prev] followed by [m]. *)
Definition last_of (prev : option N) (m : str) : option N :=
  match rev m with c :: _ => Some c | [] => prev end.

(** [re.findall] for the pattern [\b[a-zA-Z]{3,}\b]: the matches from left
    to right, each search starting where the match before it ended, or one
    character further when there is no match at a position.  A match holds
    three characters at least, so [fuel] the length of the text is enough. *)
Fixpoint findall_from (fuel : nat) (prev : option N) (s : str) : list str :=
  match fuel, s with
  | S fuel', c :: t =>
    match (if boundary prev s then letters_boundary 3 prev s else None) with
    | Some (m, r) => m :: findall_from fuel' (last_of prev m) r
    | None => findall_from fuel' (Some c) t
    end
  | _, _ => []
  end.

Definition findall (s : str) : list str := findall_from (List.length s) None s.

End Words.

(** [list(set(xs))]: the elements of [xs], each once.  Their order is that
    of the set's hash table, which the program does not determine: every
    duplicate-free list with the elements of [xs] is a possible value. *)
Definition list_of_set (xs l : list str) : Prop :=
  NoDup l /\ forall x, In x l <-> In x xs.

(** One such list: the last occurrences, in the order of [xs]. *)
Definition distinct (xs : list str) : list str :=
  nodup (list_eq_dec N.eq_dec) xs.

(** [extract_keywords_from_jd(jd_text)] may return [keywords]. *)
Definition extract_keywords_from_jd (jd_text : str) (keywords : list str) : Prop :=
  list_of_set (Words.findall (lower jd_text)) keywords.

(* ===================================================================== *)
(** ** The page *)
(* ===================================================================== *)

Module Page.

(** What one execution of the script finds: the process environment, what
    the user has entered on the page, and the generative model. *)
Record session : Type := {
  genai_installed : bool;                (* [import google.generativeai] succeeds *)
  GOOGLE_API_KEY : option str;           (* [os.getenv], after [load_dotenv()] *)
  jd_input : str;                        (* the text area *)
  uploaded_files : list uploaded_file;   (* the file uploader *)
  linkedin_url : str;                    (* the text input *)
  button : bool;                         (* the button has been clicked *)
  generate : str -> reply
}.

(** What the script puts on the page, in order.  The two [st.markdown] calls
    that carry the style sheet and the title are kept without their text. *)
Inductive element : Type :=
| error (msg : str)
| configure (api_key : str)              (* genai.configure(api_key=...) *)
| style
| title
| markdown (text : str)
| header (text : str)
| text_area (label : str)
| file_uploader (label : str) (type : list str) (accept_multiple_files : bool)
| text_input (label : str)
| st_button (label : str)
| run (e : event)                        (* an event of the evaluation *)
| add_vertical_space (num_lines : nat)
| caption (text : str).

(** How the execution ends: at its last line, at [st.stop()], or with an
    exception. *)
Inductive ending : Type :=
| Completed
| Stopped
| Raised (e : exn).

(** The page down to the button. *)
Definition inputs (api_key : str) : list element :=
  [ configure api_key; style; title;
    markdown (lit "Use AI to evaluate resumes against job descriptions and extract useful profile information.");
    header (lit "Job Description");
    text_area (lit "Paste the Job Description");
    header (lit "Upload Resumes");
    file_uploader (lit "Upload Resume PDFs or DOCX") [lit "pdf"; lit "docx"] true;
    text_input (lit "LinkedIn Profile URL (optional)");
    st_button ([128640%N] ++ lit " Evaluate Resumes") ].

(** The last three lines. *)
Definition footer : list element :=
  [ add_vertical_space 2;
    markdown (lit "---");
    caption ([128196%N] ++ lit " Powered by Google Gemini | Styled with "
             ++ [10084%N; 65039%N] ++ lit " using Streamlit") ].

(** The script, from its first line to its last. *)
Definition script (s : session) : list element * ending :=
  if negb (genai_installed s) then
    ([error (lit "Module 'google-generativeai' not found. Please install it using 'pip install google-generativeai'")],
     Stopped)
  else
    match GOOGLE_API_KEY s with
    | Some (c :: key) =>
      if button s then
        match evaluate_resumes (generate s) (jd_input s) (uploaded_files s)
                (linkedin_url s) with
        | (shown, Ok _) => (inputs (c :: key) ++ map run shown ++ footer, Completed)
        | (shown, Raise e) => (inputs (c :: key) ++ map run shown, Raised e)
        end
      else (inputs (c :: key) ++ footer, Completed)
    | _ =>
      ([error (lit "Google API key not found. Please add it as 'GOOGLE_API_KEY' in your .env file.")],
       Stopped)
    end.

End Page.

(* ===================================================================== *)
(** ** More definitions used to state properties *)
(* ===================================================================== *)

(** The prompts sent to the model and the values given to the progress bar,
    as a trace holds them. *)
Definition requests (t : list event) : list str :=
  flat_map (fun e => match e with generate_content prompt => [prompt] | _ => [] end) t.

Definition progress_values (t : list event) : list (nat * nat) :=
  flat_map (fun e => match e with progress_progress num den => [(num, den)] | _ => [] end) t.

(** The prompt sent for a resume whose extracted text is [text]. *)
Definition resume_prompt (jd_input linkedin_url text : str) : str :=
  prompt_layout (firstn 4000 (lower text)) (firstn 1000 jd_input) linkedin_url.

(** The value of a file's turn of the loop, taken on its own. *)
Definition turn (generate : str -> reply) (jd_input linkedin_url : str)
    (f : uploaded_file) : result (list row) :=
  outcome (evaluate_resume generate jd_input linkedin_url 0 0 f []).

(** The positions, counted from [idx], of the files whose reply is decoded. *)
Fixpoint recorded (generate : str -> reply) (jd_input linkedin_url : str)
    (idx : nat) (files : list uploaded_file) : list nat :=
  match files with
  | [] => []
  | f :: rest =>
    match decoded generate jd_input linkedin_url f with
    | Ok (Some _) => idx :: recorded generate jd_input linkedin_url (S idx) rest
    | _ => recorded generate jd_input linkedin_url (S idx) rest
    end
  end.

(** The files whose reply is skipped. *)
Definition skipped (generate : str -> reply) (jd_input linkedin_url : str)
    (f : uploaded_file) : bool :=
  match decoded generate jd_input linkedin_url f with
  | Ok None => true
  | _ => false
  end.

(** The run is accepted: there is a file, and the job description is not
    blank. *)
Definition accepted (jd_input : str) (uploaded_files : list uploaded_file) : bool :=
  negb (is_empty uploaded_files || is_empty (strip jd_input)).

(** The events a turn of the loop can show. *)
Definition turn_event (e : event) : bool :=
  match e with
  | st_progress | st_download_button _ | st_success _ | st_balloons => false
  | _ => true
  end.

(** A word of a text: [w], between [pre] and [post], is made of three
    letters or more, no word character stands before it and none after it. *)
Definition whole_word (pre w post : str) : Prop :=
  3 <= List.length w /\
  Forall (fun c => Words.is_letter c = true) w /\
  Words.word_at (rev pre) = false /\
  Words.word_at post = false.

(** What both [len] and [", ".join] accept as the missing keywords: a list
    of strings, a string, an object. *)
Definition keywords_ok (v : json) : bool :=
  match v with
  | JArr items => forallb (fun x => match x with JStr _ => true | _ => false end) items
  | JStr _ | JObj _ => true
  | _ => false
  end.

(** The keywords, joined, can be encoded. *)
Definition keywords_encodable (v : json) : bool :=
  match py_join (lit ", ") v with
  | Ok joined => encodable joined
  | Raise _ => true
  end.

(** The characters of a string, as [", ".join] iterates them. *)
Definition characters (s : str) : list str := map (fun c => [c]) s.

(** The events of the part of a turn that follows the request: the
    parser's message and what is shown for a decoded reply. *)
Definition display_event (e : event) : bool :=
  match e with
  | st_error _ | st_metric _ _ | st_markdown_card _ _ _ _ _ _ | st_info_summary _
  | st_warning _ | progress_progress _ _ => true
  | _ => false
  end.

(* ===================================================================== *)
(** ** More sample inputs *)
(* ===================================================================== *)

(** A PDF of three pages, the second one empty; a PDF
    that the decoder rejects; a model that always answers with the expected
    object. *)
Definition three_pages : uploaded_file :=
  {| name := lit "cv.pdf";
     pdf_pages := Ok [lit "Jane Doe"; []; lit "Python"];
     docx_text := Raise (DecoderError (lit "not a DOCX")) |}.

Definition broken_pdf : uploaded_file :=
  {| name := lit "scan.pdf";
     pdf_pages := Raise (DecoderError (lit "EOF marker not found"));
     docx_text := Raise (DecoderError (lit "not a DOCX")) |}.

Definition obliging : str -> reply := fun _ => Reply full_reply.

(** A reply whose Role is the first half of a surrogate pair, alone. *)
Definition half_pair : list (str * json) :=
  [ (lit "JD Match", JStr (lit "70%")); (lit "Role", JStr [55357%N]) ].

(** A reply whose MissingKeywords is one string. *)
Definition keywords_as_text : list (str * json) :=
  [ (lit "JD Match", JStr (lit "70%")); (lit "MissingKeywords", JStr (lit "sql")) ].

(** Two resumes the model answers, then a PDF the decoder rejects, then one
    more resume. *)
Definition four_resumes : list uploaded_file :=
  [ docx (lit "a.docx") (lit "x"); docx (lit "b.docx") (lit "y"); broken_pdf;
    docx (lit "d.docx") (lit "z") ].

(* ===================================================================== *)
(** ** Properties *)
(* ===================================================================== *)

(** *** [json.loads]: the fuel is enough *)

Module JsonFacts.

Local Open Scope nat_scope.

Lemma skip_ws_length (s : str) : List.length (skip_ws s) <= List.length s.
Proof.
  induction s as [|c s IH]; simpl; [lia|]. destruct (is_ws c); simpl; lia.
Qed.

Lemma expect_length (c : N) (s r : str) :
  expect c s = Some r -> List.length s = S (List.length r).
Proof.
  destruct s as [|x s]; simpl; [discriminate|].
  destruct (x =? c)%N; [|discriminate]. intros [= ->]. reflexivity.
Qed.

Lemma startswith_length (s p : str) :
  startswith s p = true -> List.length p <= List.length s.
Proof.
  revert s. induction p as [|x p IH]; intros s; simpl; [lia|].
  destruct s as [|y s]; [discriminate|].
  intros H. apply andb_prop in H as [_ H]. apply IH in H. simpl. lia.
Qed.

Lemma expect_lit_length (p s r : str) :
  expect_lit p s = Some r -> List.length s = List.length p + List.length r.
Proof.
  unfold expect_lit. destruct (startswith s p) eqn:E; [|discriminate].
  intros [= <-]. rewrite length_skipn. apply startswith_length in E. lia.
Qed.

Lemma hex4_length (s r : str) (u : N) :
  hex4 s = Some (u, r) -> List.length s = 4 + List.length r.
Proof.
  unfold hex4. destruct s as [|a [|b [|c [|d s]]]]; try discriminate.
  unfold obind.
  destruct (hex_digit a); [|discriminate]. destruct (hex_digit b); [|discriminate].
  destruct (hex_digit c); [|discriminate]. destruct (hex_digit d); [|discriminate].
  intros [= _ <-]. reflexivity.
Qed.

Lemma unicode_escape_length (s r : str) (u : N) :
  unicode_escape s = Some (u, r) -> List.length r < List.length s.
Proof.
  unfold unicode_escape, obind.
  destruct (hex4 s) as [[u1 r1]|] eqn:E1; [|discriminate].
  apply hex4_length in E1.
  destruct (is_high_surrogate u1); [|intros [= _ <-]; lia].
  destruct r1 as [|a [|b r2]]; try (intros [= _ <-]; simpl in *; lia).
  destruct ((a =? 92) && (b =? 117))%N; [|intros [= _ <-]; simpl in *; lia].
  destruct (hex4 r2) as [[u2 r3]|] eqn:E2; [|discriminate].
  apply hex4_length in E2.
  destruct (is_low_surrogate u2); intros [= _ <-]; simpl in *; lia.
Qed.

Lemma scanstring_length (fuel : nat) :
  forall s acc x r, scanstring fuel s acc = Some (x, r) -> List.length r < List.length s.
Proof.
  induction fuel as [|fuel IH]; intros s acc x r; simpl; [discriminate|].
  destruct s as [|c t]; [discriminate|].
  destruct (c =? 34)%N; [intros [= _ <-]; simpl; lia|].
  destruct (c =? 92)%N.
  - destruct t as [|e t']; [discriminate|].
    destruct (e =? 117)%N; unfold obind.
    + destruct (unicode_escape t') as [[u r1]|] eqn:E; [|discriminate].
      apply unicode_escape_length in E. intros H. apply IH in H. simpl. lia.
    + destruct (simple_escape e); [|discriminate].
      intros H. apply IH in H. simpl. lia.
  - destruct (c <=? 31)%N; [discriminate|].
    intros H. apply IH in H. simpl. lia.
Qed.

Lemma span_digits_length (s ds r : str) :
  span_digits s = (ds, r) -> List.length r <= List.length s.
Proof.
  revert ds r. induction s as [|c s IH]; intros ds r; simpl.
  - intros [= _ <-]. simpl. lia.
  - destruct (is_digit c).
    + destruct (span_digits s) as [ds' r'] eqn:E. intros [= _ <-].
      specialize (IH _ _ eq_refl). lia.
    + intros [= _ <-]. simpl. lia.
Qed.

Lemma match_number_length (s r : str) (v : json) :
  match_number s = Some (v, r) -> List.length r < List.length s.
Proof.
  unfold match_number.
  set (signed := match s with
                 | c :: t => if (c =? 45)%N then ([c], t) else ([], s)
                 | [] => ([], s)
                 end).
  assert (Hsigned : List.length (snd signed) <= List.length s).
  { subst signed. destruct s as [|c t]; simpl; [lia|].
    destruct (c =? 45)%N; simpl; lia. }
  destruct signed as [sign s1]. simpl in Hsigned. unfold obind.
  destruct (int_part s1) as [[ds r1]|] eqn:Eint; [|discriminate].
  assert (Hint : List.length r1 < List.length s1).
  { unfold int_part in Eint. destruct s1 as [|d t]; [discriminate|].
    destruct ((49 <=? d) && (d <=? 57))%N.
    - destruct (span_digits t) as [ds' r'] eqn:E. injection Eint as _ <-.
      apply span_digits_length in E. simpl. lia.
    - destruct (d =? 48)%N; [|discriminate]. injection Eint as _ <-. simpl. lia. }
  destruct (frac_part r1) as [fr r2] eqn:Efrac.
  assert (Hfrac : List.length r2 <= List.length r1).
  { unfold frac_part in Efrac. destruct r1 as [|p [|d t]]; try (injection Efrac as _ <-; lia).
    destruct ((p =? 46)%N && is_digit d).
    - destruct (span_digits t) as [ds' r'] eqn:E. injection Efrac as _ <-.
      apply span_digits_length in E. simpl. lia.
    - injection Efrac as _ <-. lia. }
  destruct (exp_part r2) as [ex r3] eqn:Eexp.
  assert (Hexp : List.length r3 <= List.length r2).
  { unfold exp_part in Eexp. destruct r2 as [|e t]; [injection Eexp as _ <-; lia|].
    destruct ((e =? 101) || (e =? 69))%N; [|injection Eexp as _ <-; lia].
    set (signed_exp := match t with
                       | c :: t' => if ((c =? 45) || (c =? 43))%N then ([c], t') else ([], t)
                       | [] => ([], t)
                       end) in Eexp.
    assert (Hs : List.length (snd signed_exp) <= List.length t).
    { subst signed_exp. destruct t as [|c t']; simpl; [lia|].
      destruct ((c =? 45) || (c =? 43))%N; simpl; lia. }
    destruct signed_exp as [sg t1]. simpl in Hs.
    destruct (span_digits t1) as [[|d ds'] r'] eqn:E.
    - injection Eexp as _ <-. lia.
    - injection Eexp as _ <-. apply span_digits_length in E. simpl. lia. }
  destruct fr, ex; intros [= _ <-]; lia.
Qed.

Lemma constant_length (s r : str) (v : json) :
  constant s = Some (v, r) -> List.length r < List.length s.
Proof.
  unfold constant.
  repeat match goal with
         | |- context [expect_lit ?p s] =>
           let E := fresh "E" in
           destruct (expect_lit p s) eqn:E;
             [apply expect_lit_length in E; intros [= _ <-];
              change (List.length p) with (List.length p) in E; simpl in E; lia|]
         end.
  discriminate.
Qed.

(** A term that is read leaves a shorter text. *)
Lemma scan_length (fuel : nat) :
  (forall s v r, scan_once fuel s = Some (v, r) -> List.length r < List.length s) /\
  (forall s acc v r, parse_object fuel s acc = Some (v, r) -> List.length r < List.length s) /\
  (forall s acc v r, parse_array fuel s acc = Some (v, r) -> List.length r < List.length s).
Proof.
  induction fuel as [|fuel (IHscan & IHobject & IHarray)];
    [repeat split; intros; discriminate|].
  assert (Hscan : forall s v r,
             scan_once (S fuel) s = Some (v, r) -> List.length r < List.length s).
  { intros s v r. simpl. destruct s as [|c t]; [discriminate|].
    destruct (c =? 34)%N.
    { unfold obind. destruct (scanstring _ t []) as [[x r1]|] eqn:E; [|discriminate].
      intros [= _ <-]. apply scanstring_length in E. simpl. lia. }
    pose proof (skip_ws_length t) as Hws.
    destruct (c =? 123)%N.
    { destruct (expect 125 (skip_ws t)) as [r1|] eqn:E.
      - intros [= _ <-]. apply expect_length in E. simpl. lia.
      - intros H. apply IHobject in H. simpl. lia. }
    destruct (c =? 91)%N.
    { destruct (expect 93 (skip_ws t)) as [r1|] eqn:E.
      - intros [= _ <-]. apply expect_length in E. simpl. lia.
      - intros H. apply IHarray in H. simpl. lia. }
    destruct (constant (c :: t)) as [[v1 r1]|] eqn:E.
    - intros [= _ <-]. apply constant_length in E. exact E.
    - apply match_number_length. }
  split; [exact Hscan|]. split.
  - intros s acc v r. simpl. unfold obind.
    destruct (expect 34 s) as [s1|] eqn:E1; [|discriminate]. apply expect_length in E1.
    destruct (scanstring _ s1 []) as [[key s2]|] eqn:E2; [|discriminate].
    apply scanstring_length in E2.
    pose proof (skip_ws_length s2) as Hws2.
    destruct (expect 58 (skip_ws s2)) as [s3|] eqn:E3; [|discriminate].
    apply expect_length in E3.
    pose proof (skip_ws_length s3) as Hws3.
    destruct (scan_once fuel (skip_ws s3)) as [[v1 s4]|] eqn:E4; [|discriminate].
    apply IHscan in E4.
    pose proof (skip_ws_length s4) as Hws4.
    destruct (skip_ws s4) as [|d s5] eqn:E5; [discriminate|]. simpl in Hws4.
    destruct (d =? 125)%N; [intros [= _ <-]; lia|].
    destruct (d =? 44)%N; [|discriminate].
    pose proof (skip_ws_length s5) as Hws5.
    intros H. apply IHobject in H. lia.
  - intros s acc v r. simpl. unfold obind.
    destruct (scan_once fuel s) as [[v1 s1]|] eqn:E1; [|discriminate].
    apply IHscan in E1.
    pose proof (skip_ws_length s1) as Hws1.
    destruct (skip_ws s1) as [|d s2] eqn:E2; [discriminate|]. simpl in Hws1.
    destruct (d =? 93)%N; [intros [= _ <-]; lia|].
    destruct (d =? 44)%N; [|discriminate].
    pose proof (skip_ws_length s2) as Hws2.
    intros H. apply IHarray in H. lia.
Qed.

(** Fuel beyond twice the length of the text changes nothing. *)
Lemma scan_fuel (fuel1 : nat) :
  forall fuel2,
    (forall s, 2 * List.length s <= fuel1 -> 2 * List.length s <= fuel2 ->
               scan_once fuel1 s = scan_once fuel2 s) /\
    (forall s acc, 2 * List.length s <= fuel1 -> 2 * List.length s <= fuel2 ->
                   parse_object fuel1 s acc = parse_object fuel2 s acc) /\
    (forall s acc, 2 * List.length s + 1 <= fuel1 -> 2 * List.length s + 1 <= fuel2 ->
                   parse_array fuel1 s acc = parse_array fuel2 s acc).
Proof.
  assert (Hempty : forall fuel,
             scan_once fuel [] = None /\ forall acc, parse_object fuel [] acc = None)
    by (intros [|fuel]; split; reflexivity).
  induction fuel1 as [|fuel1 IH]; intros fuel2.
  { repeat split; intros; try lia;
      (destruct s; [|simpl in *; lia]); destruct (Hempty fuel2) as [H1 H2];
      [rewrite H1 | rewrite H2]; reflexivity. }
  destruct fuel2 as [|fuel2].
  { repeat split; intros; try lia;
      (destruct s; [|simpl in *; lia]); destruct (Hempty (S fuel1)) as [H1 H2];
      [rewrite H1 | rewrite H2]; reflexivity. }
  destruct (IH fuel2) as (IHscan & IHobject & IHarray).
  destruct (scan_length fuel2) as (Lscan & _ & _).
  split; [|split].
  - intros s H1 H2. simpl. destruct s as [|c t]; [reflexivity|]. simpl in H1, H2.
    destruct (c =? 34)%N; [reflexivity|].
    pose proof (skip_ws_length t) as Hws.
    destruct (c =? 123)%N.
    { destruct (expect 125 (skip_ws t)); [reflexivity|]. apply IHobject; lia. }
    destruct (c =? 91)%N.
    { destruct (expect 93 (skip_ws t)); [reflexivity|]. apply IHarray; lia. }
    reflexivity.
  - intros s acc H1 H2. simpl. unfold obind.
    destruct (expect 34 s) as [s1|] eqn:E1; [|reflexivity]. apply expect_length in E1.
    destruct (scanstring _ s1 []) as [[key s2]|] eqn:E2; [|reflexivity].
    apply scanstring_length in E2.
    pose proof (skip_ws_length s2) as Hws2.
    destruct (expect 58 (skip_ws s2)) as [s3|] eqn:E3; [|reflexivity].
    apply expect_length in E3.
    pose proof (skip_ws_length s3) as Hws3.
    rewrite (IHscan (skip_ws s3)) by lia.
    destruct (scan_once fuel2 (skip_ws s3)) as [[v1 s4]|] eqn:E4; [|reflexivity].
    apply Lscan in E4.
    pose proof (skip_ws_length s4) as Hws4.
    destruct (skip_ws s4) as [|d s5] eqn:E5; [reflexivity|]. simpl in Hws4.
    destruct (d =? 125)%N; [reflexivity|].
    destruct (d =? 44)%N; [|reflexivity].
    pose proof (skip_ws_length s5) as Hws5.
    apply IHobject; lia.
  - intros s acc H1 H2. simpl. unfold obind.
    rewrite (IHscan s) by lia.
    destruct (scan_once fuel2 s) as [[v1 s1]|] eqn:E1; [|reflexivity].
    apply Lscan in E1.
    pose proof (skip_ws_length s1) as Hws1.
    destruct (skip_ws s1) as [|d s2] eqn:E2; [reflexivity|]. simpl in Hws1.
    destruct (d =? 93)%N; [reflexivity|].
    destruct (d =? 44)%N; [|reflexivity].
    pose proof (skip_ws_length s2) as Hws2.
    apply IHarray; lia.
Qed.

(** [json.loads] does not depend on the fuel it gives the scanner: with any
    larger amount the result is the same, so that [None] is a text that is
    not JSON and never a scan cut short. *)
Lemma loads_fuel (fuel : nat) (s : str) :
  2 * List.length s < fuel ->
  loads s =
  match scan_once fuel (skip_ws s) with
  | Some (v, rest) => match skip_ws rest with [] => Some v | _ :: _ => None end
  | None => None
  end.
Proof.
  intros H. unfold loads, obind.
  pose proof (skip_ws_length s) as Hws.
  destruct (scan_fuel (S (2 * List.length s)) fuel) as (Hscan & _ & _).
  rewrite (Hscan (skip_ws s)) by lia.
  destruct (scan_once fuel (skip_ws s)) as [[v rest]|]; reflexivity.
Qed.

End JsonFacts.

(** *** The fallback pattern *)

Module ReFacts.

Import Re.

Local Open Scope N_scope.

Lemma dot_star_brace_none (s : str) : ~ In 125 s -> dot_star_brace s = None.
Proof.
  induction s as [|c s IH]; simpl; [reflexivity|].
  intros H. rewrite IH by tauto.
  destruct (N.eqb_spec c 125); [exfalso; apply H; left; congruence | reflexivity].
Qed.

Lemma dot_star_brace_in (s : str) : In 125 s -> dot_star_brace s <> None.
Proof.
  induction s as [|c s IH]; simpl; [tauto|].
  intros Hin. destruct (dot_star_brace s) eqn:E; [discriminate|].
  destruct Hin as [-> | Hin]; [discriminate | tauto].
Qed.

Lemma dot_star_brace_some (s m : str) :
  dot_star_brace s = Some m ->
  exists mid post, s = mid ++ 125 :: post /\ m = mid ++ [125] /\ ~ In 125 post.
Proof.
  revert m. induction s as [|c s IH]; simpl; [discriminate|].
  intros m. destruct (dot_star_brace s) as [m'|] eqn:E.
  - intros [= <-]. destruct (IH m' eq_refl) as (mid & post & -> & -> & Hpost).
    exists (c :: mid), post. auto.
  - destruct (N.eqb_spec c 125) as [->|]; [|discriminate].
    intros [= <-]. exists [], s. repeat split.
    intros Hin. exact (dot_star_brace_in s Hin E).
Qed.

(** The star is greedy: the match ends at the last closing brace. *)
Lemma dot_star_brace_last (mid post : str) :
  ~ In 125 post -> dot_star_brace (mid ++ 125 :: post) = Some (mid ++ [125]).
Proof.
  intros Hpost. induction mid as [|c mid IH]; simpl.
  - rewrite (dot_star_brace_none post Hpost). reflexivity.
  - rewrite IH. reflexivity.
Qed.

(** The search is leftmost: the match starts at the first opening brace. *)
Lemma search_braces_first_to_last (pre mid post : str) :
  ~ In 123 pre -> ~ In 125 post ->
  search_braces (pre ++ 123 :: mid ++ 125 :: post) = Some (123 :: mid ++ [125]).
Proof.
  intros Hpre Hpost. induction pre as [|c pre IH]; simpl.
  - rewrite (dot_star_brace_last mid post Hpost). reflexivity.
  - destruct (N.eqb_spec c 123) as [->|]; [exfalso; apply Hpre; left; reflexivity|].
    apply IH. intros Hin. apply Hpre. right. exact Hin.
Qed.

(** Every match is of that shape. *)
Lemma search_braces_some (s m : str) :
  search_braces s = Some m ->
  exists pre mid post,
    s = pre ++ 123 :: mid ++ 125 :: post /\ m = 123 :: mid ++ [125] /\
    ~ In 123 pre /\ ~ In 125 post.
Proof.
  induction s as [|c s IH]; simpl; [discriminate|].
  assert (Hskip : c <> 123 \/ dot_star_brace s = None ->
                  search_braces s = Some m ->
                  exists pre mid post,
                    c :: s = pre ++ 123 :: mid ++ 125 :: post /\ m = 123 :: mid ++ [125] /\
                    ~ In 123 pre /\ ~ In 125 post).
  { intros Hc Hs. destruct (IH Hs) as (pre & mid & post & -> & -> & Hpre & Hpost).
    destruct Hc as [Hc | Hnone].
    - exists (c :: pre), mid, post. repeat split; auto.
      intros [Heq | Hin]; [congruence | tauto].
    - exfalso.
      assert (Hgreedy : dot_star_brace ((pre ++ 123 :: mid) ++ 125 :: post)
                        = Some ((pre ++ 123 :: mid) ++ [125]))
        by (apply dot_star_brace_last; exact Hpost).
      rewrite <- app_assoc in Hgreedy. simpl in Hgreedy. congruence. }
  destruct (N.eqb_spec c 123) as [->|Hc].
  - destruct (dot_star_brace s) as [m'|] eqn:E.
    + intros [= <-].
      destruct (dot_star_brace_some s m' E) as (mid & post & -> & -> & Hpost).
      exists [], mid, post. repeat split; auto.
    + apply Hskip. right. reflexivity.
  - apply Hskip. left. exact Hc.
Qed.

(** There is no match exactly when no closing brace follows an opening one. *)
Lemma search_braces_none (s : str) :
  search_braces s = None <->
  ~ exists pre mid post, s = pre ++ 123 :: mid ++ 125 :: post.
Proof.
  split.
  - intros Hnone (pre & mid & post & ->).
    induction pre as [|c pre IH]; simpl in Hnone.
    + destruct (dot_star_brace (mid ++ 125 :: post)) eqn:E; [discriminate|].
      apply (dot_star_brace_in (mid ++ 125 :: post)); [|exact E].
      apply in_or_app. right. left. reflexivity.
    + destruct (c =? 123); [destruct (dot_star_brace _); [discriminate|]|]; auto.
  - intros Hno. destruct (search_braces s) as [m|] eqn:E; [|reflexivity].
    exfalso. apply Hno.
    destruct (search_braces_some s m E) as (pre & mid & post & -> & _).
    exists pre, mid, post. reflexivity.
Qed.

End ReFacts.

(** *** The prompt *)

Lemma format_input_prompt (text jd linkedin : str) :
  format input_prompt (prompt_args text jd linkedin)
  = Some (prompt_layout text jd linkedin).
Proof. vm_compute. reflexivity. Qed.

Lemma build_prompt_layout (resume_text jd_input linkedin_url : str) :
  build_prompt resume_text jd_input linkedin_url
  = Ok (prompt_layout (firstn 4000 resume_text) (firstn 1000 jd_input) linkedin_url).
Proof. unfold build_prompt. rewrite format_input_prompt. reflexivity. Qed.

(** C4.  The prompt built for a resume text and a job description embeds the
    first 4000 characters of the resume text and the first 1000 characters
    of the job description: a longer text is cut to exactly that many
    characters, its own first ones, and a text that is not longer is
    embedded unchanged. *)
Theorem C4_prompt_truncates_inputs (resume_text jd_input linkedin_url : str) :
  exists text jd rest_text rest_jd,
    build_prompt resume_text jd_input linkedin_url
      = Ok (prompt_layout text jd linkedin_url) /\
    resume_text = text ++ rest_text /\
    jd_input = jd ++ rest_jd /\
    List.length text = Nat.min 4000 (List.length resume_text) /\
    List.length jd = Nat.min 1000 (List.length jd_input) /\
    (4000 < List.length resume_text <-> List.length text = 4000 /\ rest_text <> []) /\
    (List.length resume_text <= 4000 <-> text = resume_text) /\
    (1000 < List.length jd_input <-> List.length jd = 1000 /\ rest_jd <> []) /\
    (List.length jd_input <= 1000 <-> jd = jd_input).
Proof.
  assert (cut : forall (n : nat) (s : str),
             s = firstn n s ++ skipn n s /\
             List.length (firstn n s) = Nat.min n (List.length s) /\
             (n < List.length s <-> List.length (firstn n s) = n /\ skipn n s <> []) /\
             (List.length s <= n <-> firstn n s = s)).
  { intros n s.
    pose proof (firstn_skipn n s) as Hsplit.
    pose proof (length_firstn n s) as Hlen.
    pose proof (length_skipn n s) as Hrest.
    repeat split; auto.
    - lia.
    - intros Hnil. rewrite Hnil in Hrest. simpl in Hrest. lia.
    - intros [_ Hne]. destruct (skipn n s) eqn:E; [congruence|]. simpl in Hrest. lia.
    - intros Hle. apply firstn_all2. exact Hle.
    - intros Heq. rewrite <- Heq at 1. rewrite Hlen. lia. }
  destruct (cut 4000 resume_text) as (Ht & Htl & Htlong & Htshort).
  destruct (cut 1000 jd_input) as (Hj & Hjl & Hjlong & Hjshort).
  exists (firstn 4000 resume_text), (firstn 1000 jd_input),
         (skipn 4000 resume_text), (skipn 1000 jd_input).
  rewrite build_prompt_layout.
  repeat split; auto; try apply Htlong; try apply Hjlong;
    try apply Htshort; try apply Hjshort; auto.
Qed.

(** *** The monad *)

Lemma trace_bind_ok {A B} {m : M A} (f : A -> M B) {t : list event} {a : A} :
  m = (t, Ok a) -> bind m f = (t ++ trace (f a), outcome (f a)).
Proof.
  intros ->. unfold bind, trace, outcome. destruct (f a). reflexivity.
Qed.

Lemma bind_emit {B} (e : event) (k : M B) :
  (emit e ;;; k) = (e :: trace k, outcome k).
Proof. unfold bind, emit, trace, outcome. destruct k. reflexivity. Qed.

Lemma bind_lift_ok {A B} (a : A) (f : A -> M B) : bind (lift (Ok a)) f = f a.
Proof. unfold bind, lift. destruct (f a). reflexivity. Qed.

(** *** Text *)

Lemma lstrip_blank (s : str) : forallb isspace s = true -> lstrip s = [].
Proof.
  induction s as [|c s IH]; simpl; [reflexivity|].
  intros H. apply andb_prop in H as [Hc Hs]. rewrite Hc. auto.
Qed.

Lemma strip_blank (s : str) : forallb isspace s = true -> strip s = [].
Proof. intros H. unfold strip, rstrip. rewrite (lstrip_blank s H). reflexivity. Qed.

Ltac compare_N :=
  repeat match goal with
         | H : context [N.leb ?a ?b] |- _ =>
           destruct (N.leb_spec a b); cbn [andb orb negb] in H
         | H : context [N.eqb ?a ?b] |- _ =>
           destruct (N.eqb_spec a b); cbn [andb orb negb] in H
         | |- context [N.leb ?a ?b] => destruct (N.leb_spec a b); cbn [andb orb negb]
         | |- context [N.eqb ?a ?b] => destruct (N.eqb_spec a b); cbn [andb orb negb]
         end.

(** *** Case *)

Lemma lowercase_of_form (c d : N) : lowercase_of c = Some d -> In d lowercase_forms.
Proof.
  unfold lowercase_of, lowercase_forms.
  destruct (find _ lowercase_table) as [[[[first last] step] target]|] eqn:F;
    [|discriminate].
  intros [= <-]. apply find_some in F as [Hin Hc].
  apply andb_prop in Hc as [Hc Hmod]. apply andb_prop in Hc as [Hfirst Hlast].
  apply N.leb_le in Hfirst, Hlast. apply N.eqb_eq in Hmod.
  apply in_flat_map. exists (first, last, step, target). split; [exact Hin|].
  apply in_map_iff. exists (N.to_nat ((c - first) / step)). split.
  - rewrite N2Nat.id. f_equal.
    pose proof (N.Div0.div_mod (c - first) step) as Hdiv.
    rewrite Hmod, N.add_0_r in Hdiv. rewrite N.mul_comm. symmetry. exact Hdiv.
  - apply in_seq.
    assert (Hle : ((c - first) / step <= (last - first) / step)%N)
      by (apply N.Div0.div_le_mono; lia).
    revert Hle. generalize ((c - first) / step)%N ((last - first) / step)%N. lia.
Qed.

Lemma lowercase_forms_not_upper :
  forallb (fun d => negb (isupper d)) lowercase_forms = true.
Proof. vm_compute. reflexivity. Qed.

Lemma lowercase_forms_not_capital :
  forallb (fun d => negb ((65 <=? d) && (d <=? 90))%N) lowercase_forms = true.
Proof. vm_compute. reflexivity. Qed.

(** An uppercase character among the lowercase form of [c] is [c] itself,
    and [c] has no lowercase form. *)
Lemma lower_char_upper (c d : N) :
  In d (lower_char c) -> isupper d = true -> d = c /\ lower_char c = [c].
Proof.
  unfold lower_char. destruct (c =? 304)%N.
  - intros [<- | [<- | []]] H; vm_compute in H; discriminate H.
  - destruct (lowercase_of c) as [l|] eqn:E.
    + intros [<- | []] H. exfalso.
      pose proof lowercase_forms_not_upper as Hforms. rewrite forallb_forall in Hforms.
      specialize (Hforms l (lowercase_of_form c l E)). rewrite H in Hforms.
      discriminate Hforms.
    + intros [<- | []] _. split; reflexivity.
Qed.

Lemma lower_from_in (s : str) :
  forall before d,
    In d (lower_from before s) ->
    d = 962%N \/ d = 963%N \/ exists c, In c s /\ c <> 931%N /\ In d (lower_char c).
Proof.
  induction s as [|c s IH]; intros before d; simpl; [intros []|].
  intros H. apply in_app_or in H as [H | H].
  - destruct (N.eqb_spec c 931) as [->|Hc].
    + destruct (cased_first before && negb (cased_first s)); destruct H as [<- | []]; auto.
    + right. right. exists c. auto.
  - destruct (IH _ _ H) as [-> | [-> | (c0 & Hin & Hc0 & Hd)]]; auto.
    right. right. exists c0. auto.
Qed.

(** What [str.lower()] leaves of the uppercase characters: those of the
    text that have no lowercase form. *)
Lemma lower_upper (text : str) (c : N) :
  In c (lower text) -> isupper c = true -> In c text /\ lower [c] = [c].
Proof.
  intros Hin Hupper.
  destruct (lower_from_in text [] c Hin) as [-> | [-> | (c0 & Hc0 & Hsigma & Hc)]];
    [vm_compute in Hupper; discriminate Hupper
    |vm_compute in Hupper; discriminate Hupper|].
  destruct (lower_char_upper c0 c Hc Hupper) as [-> Hsame].
  split; [exact Hc0|].
  unfold lower. simpl. apply N.eqb_neq in Hsigma. rewrite Hsigma, Hsame. reflexivity.
Qed.

(** A lowercased text holds no capital letter A to Z. *)
Lemma lower_no_capital (text : str) (c : N) :
  In c (lower text) -> ~ (65 <= c <= 90)%N.
Proof.
  intros Hin Hcap.
  destruct (lower_from_in text [] c Hin) as [-> | [-> | (c0 & _ & _ & Hc)]]; try lia.
  unfold lower_char in Hc. destruct (c0 =? 304)%N.
  - destruct Hc as [<- | [<- | []]]; lia.
  - destruct (lowercase_of c0) as [l|] eqn:E; destruct Hc as [<- | []].
    + pose proof lowercase_forms_not_capital as Hforms. rewrite forallb_forall in Hforms.
      specialize (Hforms l (lowercase_of_form c0 l E)).
      apply negb_true_iff, andb_false_iff in Hforms as [H | H]; apply N.leb_gt in H; lia.
    + assert (Hseq : In c0 (map N.of_nat (seq 65 26))).
      { apply in_map_iff. exists (N.to_nat c0). split; [apply N2Nat.id | apply in_seq; lia]. }
      simpl in Hseq.
      repeat (destruct Hseq as [<- | Hseq]; [vm_compute in E; discriminate E|]).
      destruct Hseq.
Qed.

(** A text in which U+0130 does not occur keeps its length. *)
Lemma lower_length (s : str) :
  forall before,
    ~ In 304%N s -> List.length (lower_from before s) = List.length s.
Proof.
  induction s as [|c s IH]; intros before Hdot; [reflexivity|].
  simpl. rewrite length_app, IH by (intros H; apply Hdot; right; exact H).
  f_equal. destruct (c =? 931)%N.
  - destruct (cased_first before && negb (cased_first s)); reflexivity.
  - unfold lower_char. destruct (N.eqb_spec c 304) as [->|_].
    + exfalso. apply Hdot. left. reflexivity.
    + destruct (lowercase_of c); reflexivity.
Qed.

(** *** The document extractor *)

(** C7.  For a file whose name ends in neither [.pdf] nor [.docx] the
    extractor returns the empty string: no decoder is called (the trace is
    empty) and nothing is raised, whatever the decoders would do. *)
Theorem C7_other_extension_gives_empty_text (f : uploaded_file) :
  endswith (name f) (lit ".pdf") = false ->
  endswith (name f) (lit ".docx") = false ->
  input_resume_text f = ([], Ok []).
Proof.
  intros Hpdf Hdocx. unfold input_resume_text. rewrite Hpdf, Hdocx. reflexivity.
Qed.

Lemma C7_witness :
  endswith (name notes_txt) (lit ".pdf") = false /\
  endswith (name notes_txt) (lit ".docx") = false /\
  input_resume_text notes_txt = ([], Ok []).
Proof.
  split; [reflexivity|]. split; [reflexivity|].
  apply (C7_other_extension_gives_empty_text notes_txt); reflexivity.
Defined.

(** *** Input validation *)

(** C8.  A run with no uploaded file, or with a job description made of
    whitespace only, shows the error and does nothing else: the trace holds
    that one message (no decoder call, no request to the model, no result
    shown, no download) and no row is recorded. *)
Theorem C8_run_rejected_up_front (generate : str -> reply) (jd_input : str)
    (uploaded_files : list uploaded_file) (linkedin_url : str) :
  uploaded_files = [] \/ forallb isspace jd_input = true ->
  evaluate_resumes generate jd_input uploaded_files linkedin_url
  = ([st_error (lit "Please provide both JD and at least one resume.")], Ok []).
Proof.
  intros [Hfiles | Hblank]; unfold evaluate_resumes.
  - rewrite Hfiles. reflexivity.
  - rewrite (strip_blank jd_input Hblank). rewrite orb_true_r. reflexivity.
Qed.

Lemma C8_witness :
  forallb isspace (lit "  ") = true /\
  evaluate_resumes (fun _ => Reply (lit "{}")) (lit "  ") [notes_txt] []
  = ([st_error (lit "Please provide both JD and at least one resume.")], Ok []).
Proof.
  split; [reflexivity|].
  apply (C8_run_rejected_up_front (fun _ => Reply (lit "{}")) (lit "  ") [notes_txt] []).
  right. reflexivity.
Defined.

Lemma bind_assoc {A B C} (m : M A) (f : A -> M B) (g : B -> M C) :
  bind (bind m f) g = bind m (fun a => bind (f a) g).
Proof.
  destruct m as [t [a|e]]; [|reflexivity]. unfold bind at 2 3.
  destruct (f a) as [t' [b|e']]; unfold bind.
  - destruct (g b). rewrite app_assoc. reflexivity.
  - reflexivity.
Qed.

Lemma trace_bind {A B} {m : M A} (f : A -> M B) {t : list event} {a : A} :
  m = (t, Ok a) -> trace (bind m f) = t ++ trace (f a).
Proof. intros H. rewrite (trace_bind_ok f H). reflexivity. Qed.

(** *** The evaluation client *)

Lemma dumps_fallback : dumps fallback = fallback_text.
Proof. vm_compute. reflexivity. Qed.

Lemma loads_fallback : loads fallback_text = Some fallback.
Proof. vm_compute. reflexivity. Qed.

(** The model always answers or fails: the client always returns a text,
    after exactly one request. *)
Lemma get_gemini_response_total (generate : str -> reply) (input_text : str) :
  exists shown response,
    get_gemini_response generate input_text
    = (generate_content input_text :: shown, Ok response).
Proof.
  unfold get_gemini_response. rewrite bind_emit.
  destruct (generate input_text) as [text|e].
  - exists [], text. reflexivity.
  - exists [st_error (lit "Gemini API error: " ++ e)], (dumps fallback). reflexivity.
Qed.

(** C2 (as amended).  When the call to the model raises, the client shows
    the error and returns, instead of raising, one fixed text: the JSON
    object whose JD Match is "N/A", whose MissingKeywords is the empty list,
    whose Profile Summary is "Error" and whose six other fields are empty
    strings.  The text depends neither on the prompt nor on the error, and
    [json.loads] decodes it. *)
Theorem C2_failed_call_returns_fallback (generate : str -> reply)
    (input_text message : str) :
  generate input_text = Fails message ->
  get_gemini_response generate input_text
  = ([generate_content input_text; st_error (lit "Gemini API error: " ++ message)],
     Ok fallback_text) /\
  loads fallback_text
  = Some (JObj [ (lit "JD Match", JStr (lit "N/A"));
                 (lit "MissingKeywords", JArr []);
                 (lit "Profile Summary", JStr (lit "Error"));
                 (lit "Candidate Name", JStr []);
                 (lit "Role", JStr []);
                 (lit "Current Company", JStr []);
                 (lit "Duration", JStr []);
                 (lit "Overall Experience", JStr []);
                 (lit "LinkedIn", JStr []) ]).
Proof.
  intros Hfail. split.
  - unfold get_gemini_response. rewrite Hfail, dumps_fallback. reflexivity.
  - exact loads_fallback.
Qed.

Lemma C2_witness :
  service_down (lit "any prompt") = Fails (lit "503 unavailable") /\
  get_gemini_response service_down (lit "any prompt")
  = ([generate_content (lit "any prompt");
      st_error (lit "Gemini API error: " ++ lit "503 unavailable")],
     Ok fallback_text).
Proof.
  split; [reflexivity|].
  apply (C2_failed_call_returns_fallback service_down (lit "any prompt")
           (lit "503 unavailable")).
  reflexivity.
Defined.

(** C2, as stated, fails: the Profile Summary of the fallback payload is
    the word "Error", which is neither the empty string nor "N/A". *)
Lemma C2_counterexample :
  exists response fields,
    outcome (get_gemini_response service_down (lit "any prompt")) = Ok response /\
    loads response = Some (JObj fields) /\
    dict_get (lit "Profile Summary") fields = Some (JStr (lit "Error")) /\
    JStr (lit "Error") <> JStr [] /\
    JStr (lit "Error") <> JStr (lit "N/A") /\
    JStr (lit "Error") <> JArr [].
Proof.
  exists fallback_text.
  eexists. split; [vm_compute; reflexivity|].
  split; [exact loads_fallback|].
  split; [vm_compute; reflexivity|].
  repeat split; vm_compute; discriminate.
Qed.

(** *** Lowercasing *)

Lemma In_firstn {A} (n : nat) (l : list A) (x : A) : In x (firstn n l) -> In x l.
Proof.
  intros H. rewrite <- (firstn_skipn n l). apply in_or_app. left. exact H.
Qed.

(** What one turn of the loop does up to its request to the model. *)
Lemma evaluate_resume_request (generate : str -> reply) (jd_input linkedin_url : str)
    (total idx : nat) (f : uploaded_file) (results_data : list row)
    (t : list event) (text : str) :
  input_resume_text f = (t, Ok text) ->
  exists rest,
    trace (evaluate_resume generate jd_input linkedin_url total idx f results_data)
    = t ++ st_subheader ([128206%N] ++ lit " Resume: `" ++ name f ++ lit "`")
        :: generate_content
             (prompt_layout (firstn 4000 (lower text)) (firstn 1000 jd_input) linkedin_url)
        :: rest.
Proof.
  intros Hin. unfold evaluate_resume.
  rewrite (trace_bind _ Hin). rewrite bind_emit.
  rewrite build_prompt_layout, bind_lift_ok.
  destruct (get_gemini_response_total generate
              (prompt_layout (firstn 4000 (lower text)) (firstn 1000 jd_input) linkedin_url))
    as (shown & response & Hresp).
  rewrite (trace_bind _ Hresp). cbn [trace fst].
  eexists. rewrite <- app_comm_cons. reflexivity.
Qed.

(** Lowering can lengthen a text, so that cutting after it and cutting
    before it differ. *)
Lemma lower_dotted_text :
  firstn 4000 (lower dotted_text) = repeat 97%N 3999 ++ [105%N] /\
  lower (firstn 4000 dotted_text) = repeat 97%N 3999 ++ [105%N; 775%N].
Proof. split; vm_compute; reflexivity. Qed.

(** C10 (as amended).  The text extracted from a resume is lowercased as a
    whole and only then cut: the prompt sent for it embeds the first 4000
    characters of the lowercased text.  An embedded character that is
    uppercase stood in the extracted text and has no lowercase form:
    [str.lower()] leaves it as it is. *)
Theorem C10_resume_lowercased_then_cut (generate : str -> reply)
    (jd_input linkedin_url : str) (total idx : nat) (f : uploaded_file)
    (results_data : list row) (t : list event) (text : str) :
  input_resume_text f = (t, Ok text) ->
  exists rest,
    trace (evaluate_resume generate jd_input linkedin_url total idx f results_data)
    = t ++ st_subheader ([128206%N] ++ lit " Resume: `" ++ name f ++ lit "`")
        :: generate_content
             (prompt_layout (firstn 4000 (lower text)) (firstn 1000 jd_input) linkedin_url)
        :: rest /\
    forall c,
      In c (firstn 4000 (lower text)) -> isupper c = true ->
      In c text /\ lower [c] = [c].
Proof.
  intros Hin.
  destruct (evaluate_resume_request generate jd_input linkedin_url total idx f
              results_data t text Hin) as [rest Hrest].
  exists rest. split; [exact Hrest|].
  intros c Hc Hupper. apply In_firstn in Hc. exact (lower_upper text c Hc Hupper).
Qed.

Lemma C10_witness :
  (exists rest,
      trace (evaluate_resume (fun _ => Reply (lit "{}")) (lit "Data JD") [] 1 0
               (docx (lit "cv.docx") dotted_text) [])
      = [docx2txt_process (lit "cv.docx")]
          ++ st_subheader ([128206%N] ++ lit " Resume: `"
                           ++ name (docx (lit "cv.docx") dotted_text) ++ lit "`")
          :: generate_content
               (prompt_layout (firstn 4000 (lower dotted_text))
                              (firstn 1000 (lit "Data JD")) [])
          :: rest /\
      forall c,
        In c (firstn 4000 (lower dotted_text)) -> isupper c = true ->
        In c dotted_text /\ lower [c] = [c]) /\
  firstn 4000 (lower dotted_text) <> lower (firstn 4000 dotted_text).
Proof.
  split.
  - apply (C10_resume_lowercased_then_cut (fun _ => Reply (lit "{}")) (lit "Data JD") []
             1 0 (docx (lit "cv.docx") dotted_text) []
             [docx2txt_process (lit "cv.docx")] dotted_text).
    reflexivity.
  - intros H. apply (f_equal (@List.length N)) in H. vm_compute in H. discriminate H.
Defined.

(** C10, as stated, fails: a resume whose text is U+1D400 (mathematical
    bold capital A), an uppercase letter with no lowercase form, reaches
    the prompt unchanged. *)
Lemma C10_counterexample :
  In (generate_content (prompt_layout [119808%N] (lit "Data JD") []))
     (trace (evaluate_resume (fun _ => Reply (lit "{}")) (lit "Data JD") [] 1 0 bold_cv []))
  /\ docx_text bold_cv = Ok [119808%N]
  /\ isupper 119808 = true.
Proof.
  split; [|split; reflexivity].
  vm_compute. right. right. left. reflexivity.
Qed.

(** *** The response parser *)

Lemma parse_response_direct (response : str) (response_json : json) :
  loads response = Some response_json ->
  parse_response response = ([], Ok (Some response_json)).
Proof. intros H. unfold parse_response. rewrite H. reflexivity. Qed.

Lemma parse_response_fallback (response group : str) (response_json : json) :
  loads response = None ->
  Re.search_braces response = Some group ->
  loads group = Some response_json ->
  parse_response response = ([], Ok (Some response_json)).
Proof. intros H1 H2 H3. unfold parse_response. rewrite H1, H2, H3. reflexivity. Qed.

(** No brace-delimited text at all: the error is shown and the loop goes on
    to the next resume. *)
Lemma parse_response_skip (response : str) :
  loads response = None ->
  Re.search_braces response = None ->
  parse_response response = ([st_error (lit "Failed to parse JSON.")], Ok None).
Proof. intros H1 H2. unfold parse_response. rewrite H1, H2. reflexivity. Qed.

(** A brace-delimited text that is not JSON: the second [json.loads] raises
    inside the handler. *)
Lemma parse_response_raises (response group : str) :
  loads response = None ->
  Re.search_braces response = Some group ->
  loads group = None ->
  parse_response response = ([], Raise JSONDecodeError).
Proof. intros H1 H2 H3. unfold parse_response. rewrite H1, H2, H3. reflexivity. Qed.

Lemma handle_response_skip (total idx : nat) (file_name response : str)
    (results_data : list row) :
  loads response = None ->
  Re.search_braces response = None ->
  handle_response total idx file_name response results_data
  = ([st_error (lit "Failed to parse JSON.")], Ok results_data).
Proof.
  intros H1 H2. unfold handle_response.
  rewrite (parse_response_skip response H1 H2). reflexivity.
Qed.

(** C9 (as amended).  For a reply that [json.loads] rejects, the fallback
    step takes the text from the first opening brace to the last closing
    brace of the whole reply (here: no opening brace in [pre], no closing
    brace in [post]; [mid] is arbitrary, braces and line breaks included).
    When that text is valid JSON, the reply is parsed by this step: so is a
    JSON object embedded in a text with no opening brace before it and no
    closing brace after it. *)
Theorem C9_fallback_takes_first_to_last_brace (response pre mid post : str) :
  loads response = None ->
  response = pre ++ [123%N] ++ mid ++ [125%N] ++ post ->
  ~ In 123%N pre ->
  ~ In 125%N post ->
  Re.search_braces response = Some ([123%N] ++ mid ++ [125%N]) /\
  forall response_json,
    loads ([123%N] ++ mid ++ [125%N]) = Some response_json ->
    parse_response response = ([], Ok (Some response_json)).
Proof.
  intros Hdirect -> Hpre Hpost.
  assert (Hsearch : Re.search_braces (pre ++ [123%N] ++ mid ++ [125%N] ++ post)
                    = Some ([123%N] ++ mid ++ [125%N]))
    by (apply ReFacts.search_braces_first_to_last; assumption).
  split; [exact Hsearch|].
  intros response_json Hgroup.
  exact (parse_response_fallback _ _ _ Hdirect Hsearch Hgroup).
Qed.

Lemma C9_witness :
  parse_response (lit "Sure! " ++ [123%N] ++ litq "'JD Match':'80%'" ++ [125%N] ++ lit " Thanks.")
  = ([], Ok (Some (JObj [(lit "JD Match", JStr (lit "80%"))]))).
Proof.
  apply (C9_fallback_takes_first_to_last_brace
           (lit "Sure! " ++ [123%N] ++ litq "'JD Match':'80%'" ++ [125%N] ++ lit " Thanks.")
           (lit "Sure! ") (litq "'JD Match':'80%'") (lit " Thanks.")).
  - vm_compute. reflexivity.
  - reflexivity.
  - vm_compute. intuition discriminate.
  - vm_compute. intuition discriminate.
  - vm_compute. reflexivity.
Defined.

(** C9, as stated, fails: a valid JSON object embedded in text that is not
    JSON goes unparsed when that text holds a brace of its own.  The match
    runs to the last closing brace of the reply, the second [json.loads]
    rejects it, and the exception leaves the handler. *)
Lemma C9_counterexample :
  exists pre object post response_json,
    pre = lit "Sure! " /\
    object = litq "{'JD Match':'80%'}" /\
    post = lit " (fields in {} are optional)" /\
    loads object = Some response_json /\
    loads (pre ++ object ++ post) = None /\
    Re.search_braces (pre ++ object ++ post)
    = Some (litq "{'JD Match':'80%'} (fields in {}") /\
    parse_response (pre ++ object ++ post) = ([], Raise JSONDecodeError).
Proof.
  do 3 eexists. exists (JObj [(lit "JD Match", JStr (lit "80%"))]).
  split; [reflexivity|]. split; [reflexivity|]. split; [reflexivity|].
  repeat split; vm_compute; reflexivity.
Qed.

(** *** A reply that fails both parses *)

(** C1 (the code's behaviour at the failing input).  The reply [{abc}] fails
    the direct parse, the pattern matches it whole and the second parse
    fails too; the exception is not caught: the run of two resumes ends
    during the first, with no message from the parser, and the second
    resume is never read. *)
Theorem C1_second_parse_failure_ends_the_run :
  loads (lit "{abc}") = None /\
  Re.search_braces (lit "{abc}") = Some (lit "{abc}") /\
  evaluate_resumes garbled (lit "Data JD") [notes_txt; cv_docx] []
  = ([st_progress;
      st_subheader ([128206%N] ++ lit " Resume: `notes.txt`");
      generate_content (prompt_layout [] (lit "Data JD") [])],
     Raise JSONDecodeError).
Proof. repeat split; vm_compute; reflexivity. Qed.

(** *** Field extraction and the report row *)

Lemma outcome_bind {A B} (m : M A) (f : A -> M B) :
  outcome (bind m f)
  = match outcome m with Ok a => outcome (f a) | Raise e => Raise e end.
Proof.
  destruct m as [t [a|e]]; unfold bind, outcome; simpl; [destruct (f a)|]; reflexivity.
Qed.

Lemma outcome_show (ok : bool) (e : event) :
  outcome (show ok e) = if ok then Ok tt else Raise UnicodeEncodeError.
Proof. destruct ok; reflexivity. Qed.

Lemma outcome_metric (label : str) (v : json) :
  outcome (metric label v)
  = if metric_ok v then
      if shown_ok v then Ok tt else Raise UnicodeEncodeError
    else Raise TypeError.
Proof. destruct v; try reflexivity. apply outcome_show. Qed.

Lemma py_join_len (sep : str) (v : json) (joined : str) :
  py_join sep v = Ok joined -> exists n, py_len v = Ok n.
Proof. destruct v; simpl; try discriminate; eauto. Qed.

Lemma py_len_join (sep : str) (v : json) (e : exn) (n : nat) :
  py_len v = Ok n -> py_join sep v = Raise e -> py_bool v = true.
Proof.
  destruct v; simpl; try discriminate.
  destruct items as [|x items]; simpl; [discriminate | reflexivity].
Qed.

Lemma py_join_empty (sep : str) (v : json) (joined : str) :
  py_bool v = false -> py_join sep v = Ok joined -> joined = [].
Proof.
  destruct v; simpl; try discriminate.
  - destruct s; [intros _ [= <-]; reflexivity | discriminate].
  - destruct items; [intros _ [= <-]; reflexivity | discriminate].
  - destruct pairs; [intros _ [= <-]; reflexivity | discriminate].
Qed.

Lemma py_len_TypeError (v : json) (e : exn) : py_len v = Raise e -> e = TypeError.
Proof. destruct v; simpl; congruence. Qed.

Lemma py_join_TypeError (sep : str) (v : json) (e : exn) :
  py_join sep v = Raise e -> e = TypeError.
Proof.
  destruct v; simpl; try congruence. destruct (strings_of items); congruence.
Qed.

(** A literal and a number in decimal hold no surrogate. *)
Lemma encodable_lit (s : string) : encodable (lit s) = true.
Proof.
  unfold lit. induction s as [|a s IH]; [reflexivity|].
  simpl. rewrite IH, andb_true_r.
  pose proof (N_ascii_bounded a) as Hbound.
  unfold is_surrogate. apply negb_true_iff, andb_false_iff. left. apply N.leb_gt. lia.
Qed.

Lemma encodable_of_nat (n : nat) : encodable (of_nat n) = true.
Proof. apply encodable_lit. Qed.

Lemma encodable_app (a b : str) : encodable (a ++ b) = encodable a && encodable b.
Proof. apply forallb_app. Qed.

Lemma encodable_join (sep : str) (parts : list str) :
  encodable sep = true -> forallb encodable parts = true ->
  encodable (join sep parts) = true.
Proof.
  intros Hsep. induction parts as [|p parts IH]; [reflexivity|].
  intros H. apply andb_prop in H as [Hp Hparts].
  destruct parts as [|q parts]; [exact Hp|].
  change (join sep (p :: q :: parts)) with (p ++ sep ++ join sep (q :: parts)).
  rewrite !encodable_app, Hp, Hsep, (IH Hparts). reflexivity.
Qed.

Lemma py_get_field (pairs : list (str * json)) (key : str) (default : json) :
  py_get (JObj pairs) key default = Ok (field pairs key default).
Proof. reflexivity. Qed.

(** The value of the rest of the loop body, for a decoded object. *)
Lemma outcome_record_result (total idx : nat) (file_name : str)
    (pairs : list (str * json)) (results_data : list row) :
  outcome (record_result total idx file_name (JObj pairs) results_data)
  = if metric_ok (field pairs (lit "JD Match") (JStr (lit "N/A"))) then
      if shown_ok (field pairs (lit "JD Match") (JStr (lit "N/A"))) then
        match py_len (field pairs (lit "MissingKeywords") (JArr [])) with
        | Ok _ =>
          if forallb shown_ok (card_values pairs)
             && shown_ok (field pairs (lit "Profile Summary") (JStr [])) then
            match py_join (lit ", ") (field pairs (lit "MissingKeywords") (JArr [])) with
            | Ok joined =>
              if encodable joined
              then Ok (results_data ++ [report_row file_name pairs joined])
              else Raise UnicodeEncodeError
            | Raise e => Raise e
            end
          else Raise UnicodeEncodeError
        | Raise e => Raise e
        end
      else Raise UnicodeEncodeError
    else Raise TypeError.
Proof.
  unfold record_result, card_values. rewrite !py_get_field, !bind_lift_ok.
  rewrite outcome_bind, outcome_metric.
  destruct (metric_ok (field pairs (lit "JD Match") (JStr (lit "N/A")))); [|reflexivity].
  destruct (shown_ok (field pairs (lit "JD Match") (JStr (lit "N/A")))); [|reflexivity].
  rewrite outcome_bind. cbn [lift outcome snd].
  destruct (py_len _) as [count|e] eqn:Hlen; [|reflexivity].
  rewrite outcome_bind, outcome_metric. cbn [metric_ok shown_ok].
  rewrite encodable_of_nat.
  rewrite outcome_bind, outcome_show.
  destruct (forallb shown_ok _); cbn [andb]; [|reflexivity].
  rewrite outcome_bind, outcome_show.
  destruct (shown_ok (field pairs (lit "Profile Summary") (JStr []))); [|reflexivity].
  rewrite outcome_bind.
  destruct (py_join (lit ", ") _) as [joined|e] eqn:Hjoin.
  - destruct (py_bool (field pairs (lit "MissingKeywords") (JArr []))) eqn:Hbool.
    + rewrite bind_lift_ok, outcome_show.
      destruct (encodable joined); [|reflexivity].
      rewrite bind_lift_ok, bind_emit. reflexivity.
    + rewrite (py_join_empty _ _ _ Hbool Hjoin).
      cbn [outcome ret snd]. rewrite bind_lift_ok, bind_emit. reflexivity.
  - rewrite (py_len_join _ _ _ _ Hlen Hjoin). reflexivity.
Qed.

(** The values pass: the row is recorded. *)
Lemma record_result_records (total idx : nat) (file_name : str)
    (pairs : list (str * json)) (results_data : list row) (joined : str) :
  metric_ok (field pairs (lit "JD Match") (JStr (lit "N/A"))) = true ->
  texts_ok pairs = true ->
  py_join (lit ", ") (field pairs (lit "MissingKeywords") (JArr [])) = Ok joined ->
  encodable joined = true ->
  outcome (record_result total idx file_name (JObj pairs) results_data)
  = Ok (results_data ++ [report_row file_name pairs joined]).
Proof.
  intros Hmatch Htexts Hjoin Hjoined. unfold texts_ok in Htexts.
  apply andb_prop in Htexts as [Htexts Hsummary].
  apply andb_prop in Htexts as [Hjd Hcard].
  rewrite outcome_record_result, Hmatch, Hjd, Hcard, Hsummary.
  destruct (py_join_len _ _ _ Hjoin) as [n ->]. rewrite Hjoin, Hjoined. reflexivity.
Qed.

Lemma outcome_record_result_other (total idx : nat) (file_name : str)
    (response_json : json) (results_data : list row) :
  (forall pairs, response_json <> JObj pairs) ->
  outcome (record_result total idx file_name response_json results_data)
  = Raise AttributeError.
Proof.
  intros H. destruct response_json; try reflexivity. exfalso. exact (H pairs eq_refl).
Qed.

(** A reply for which the rest of the loop body completes is an object
    whose values pass, and its row is the one added. *)
Lemma record_result_completes (total idx : nat) (file_name : str) (response_json : json)
    (results_data rows : list row) :
  outcome (record_result total idx file_name response_json results_data) = Ok rows ->
  exists pairs count joined,
    response_json = JObj pairs /\
    metric_ok (field pairs (lit "JD Match") (JStr (lit "N/A"))) = true /\
    texts_ok pairs = true /\
    py_len (field pairs (lit "MissingKeywords") (JArr [])) = Ok count /\
    py_join (lit ", ") (field pairs (lit "MissingKeywords") (JArr [])) = Ok joined /\
    encodable joined = true /\
    rows = results_data ++ [report_row file_name pairs joined].
Proof.
  destruct response_json;
    try (rewrite outcome_record_result_other by discriminate; discriminate).
  rewrite outcome_record_result.
  destruct (metric_ok _) eqn:Hmatch; [|discriminate].
  destruct (shown_ok (field pairs (lit "JD Match") (JStr (lit "N/A")))) eqn:Hjd;
    [|discriminate].
  destruct (py_len _) as [count|] eqn:Hlen; [|discriminate].
  destruct (forallb shown_ok (card_values pairs)) eqn:Hcard; [|discriminate].
  destruct (shown_ok (field pairs (lit "Profile Summary") (JStr []))) eqn:Hsummary;
    [|discriminate].
  destruct (py_join (lit ", ") _) as [joined|] eqn:Hjoin; [|discriminate].
  destruct (encodable joined) eqn:Hjoined; [|discriminate].
  intros [= <-]. exists pairs, count, joined.
  unfold texts_ok. rewrite Hjd, Hcard, Hsummary. repeat split; auto.
Qed.

Lemma strings_of_map (keywords : list str) : strings_of (map JStr keywords) = Some keywords.
Proof.
  induction keywords as [|k ks IH]; simpl; [reflexivity|]. rewrite IH. reflexivity.
Qed.

Lemma field_present (pairs : list (str * json)) (key : str) (default v : json) :
  dict_get key pairs = Some v -> field pairs key default = v.
Proof. intros H. unfold field. rewrite H. reflexivity. Qed.

Lemma field_absent (pairs : list (str * json)) (key : str) (default : json) :
  dict_get key pairs = None -> field pairs key default = default.
Proof. intros H. unfold field. rewrite H. reflexivity. Qed.

(** The eight text columns of a row hold the fields of the same name. *)
Lemma report_row_text_columns (file_name : str) (pairs : list (str * json))
    (joined : str) (key : str) (default : json) :
  In (key, default) text_defaults ->
  dict_get key (report_row file_name pairs joined) = Some (field pairs key default).
Proof.
  intros Hin. unfold text_defaults in Hin. simpl in Hin.
  repeat (destruct Hin as [[= <- <-] | Hin]; [reflexivity|]).
  destruct Hin.
Qed.

(** A value read for a key is shown when the object's own is, the defaults
    being plain texts. *)
Lemma texts_ok_present (pairs : list (str * json)) :
  (forall key default v,
      In (key, default) text_defaults ->
      dict_get key pairs = Some v -> shown_ok v = true) ->
  texts_ok pairs = true.
Proof.
  intros Hshown.
  assert (Hfield : forall key default,
             In (key, default) text_defaults -> shown_ok default = true ->
             shown_ok (field pairs key default) = true).
  { intros key default Hin Hdefault. unfold field.
    destruct (dict_get key pairs) as [v|] eqn:E; [|exact Hdefault].
    exact (Hshown key default v Hin E). }
  unfold texts_ok, card_values. cbn [forallb].
  repeat (apply andb_true_intro; split); try reflexivity;
    (apply Hfield; [unfold text_defaults; simpl; auto 12 | reflexivity]).
Qed.

(** C6 (as amended).  Field extraction from a decoded object puts a default
    in the place of every absent key: "N/A" for JD Match, the empty string
    for the seven other text fields, the empty list for MissingKeywords.  An
    absent key is never fatal: every object whose JD Match, if present, is
    not a list or an object, whose MissingKeywords, if present, is a list of
    strings, and in which no string that is shown (a text field, a keyword)
    holds a surrogate on its own yields a row; the empty object does. *)
Theorem C6_absent_keys_take_defaults (total idx : nat) (file_name : str)
    (pairs : list (str * json)) (results_data : list row) :
  (forall v, dict_get (lit "JD Match") pairs = Some v -> metric_ok v = true) ->
  (forall key default v,
      In (key, default) text_defaults ->
      dict_get key pairs = Some v -> shown_ok v = true) ->
  (forall v, dict_get (lit "MissingKeywords") pairs = Some v ->
             exists keywords,
               v = JArr (map JStr keywords) /\ forallb encodable keywords = true) ->
  exists r,
    outcome (record_result total idx file_name (JObj pairs) results_data)
    = Ok (results_data ++ [r]) /\
    (forall key default v,
        In (key, default) text_defaults ->
        dict_get key pairs = Some v -> dict_get key r = Some v) /\
    (forall key default,
        In (key, default) text_defaults ->
        dict_get key pairs = None -> dict_get key r = Some default) /\
    (dict_get (lit "MissingKeywords") pairs = None ->
     dict_get (lit "Missing Keywords") r = Some (JStr [])).
Proof.
  intros Hmatch Hshown Hkeywords.
  assert (Hjoin : exists joined,
             py_join (lit ", ") (field pairs (lit "MissingKeywords") (JArr [])) = Ok joined /\
             encodable joined = true /\
             (dict_get (lit "MissingKeywords") pairs = None -> joined = [])).
  { unfold field. destruct (dict_get (lit "MissingKeywords") pairs) as [v|] eqn:E.
    - destruct (Hkeywords v eq_refl) as (keywords & -> & Hok). simpl.
      rewrite strings_of_map. eexists. split; [reflexivity|]. split; [|discriminate].
      apply encodable_join; [reflexivity | exact Hok].
    - exists []. repeat split; reflexivity. }
  destruct Hjoin as (joined & Hjoin & Hjoined & Hnone).
  exists (report_row file_name pairs joined). split; [|split; [|split]].
  - apply record_result_records; auto.
    + unfold field.
      destruct (dict_get (lit "JD Match") pairs) as [v|] eqn:E; [auto | reflexivity].
    + exact (texts_ok_present pairs Hshown).
  - intros key default v Hin Hget.
    rewrite (report_row_text_columns file_name pairs joined key default Hin).
    rewrite (field_present pairs key default v Hget). reflexivity.
  - intros key default Hin Hget.
    rewrite (report_row_text_columns file_name pairs joined key default Hin).
    rewrite (field_absent pairs key default Hget). reflexivity.
  - intros Habsent. rewrite (Hnone Habsent). reflexivity.
Qed.

Lemma C6_witness :
  exists r,
    outcome (record_result 1 0 (lit "cv.docx") (JObj []) []) = Ok ([] ++ [r]) /\
    (forall key default v,
        In (key, default) text_defaults ->
        dict_get key (@nil (str * json)) = Some v -> dict_get key r = Some v) /\
    (forall key default,
        In (key, default) text_defaults ->
        dict_get key (@nil (str * json)) = None -> dict_get key r = Some default) /\
    (dict_get (lit "MissingKeywords") (@nil (str * json)) = None ->
     dict_get (lit "Missing Keywords") r = Some (JStr [])).
Proof.
  apply (C6_absent_keys_take_defaults 1 0 (lit "cv.docx") [] []).
  - intros v H. discriminate H.
  - intros key default v _ H. discriminate H.
  - intros v H. discriminate H.
Defined.

(** C6, as stated, fails: for the empty object the JD Match of the row is
    the default "N/A", not the empty string. *)
Lemma C6_counterexample :
  exists r,
    loads (lit "{}") = Some (JObj []) /\
    outcome (handle_response 1 0 (lit "cv.docx") (lit "{}") []) = Ok [r] /\
    dict_get (lit "JD Match") r = Some (JStr (lit "N/A")) /\
    JStr (lit "N/A") <> JStr [].
Proof.
  eexists. split; [vm_compute; reflexivity|].
  split; [vm_compute; reflexivity|].
  split; [vm_compute; reflexivity|].
  vm_compute. discriminate.
Qed.

(** *** A reply that is the expected object *)

(** C3 (as amended).  A reply that is a JSON object with all nine keys, in
    which MissingKeywords is a list of strings, JD Match is not a list or an
    object and no string that is shown (a text value, a keyword) holds a
    surrogate on its own, is parsed by the direct step, and the row recorded
    for it holds the file name, the eight text values of the object as they
    are, and, as Missing Keywords, the keywords joined with a comma and a
    space. *)
Theorem C3_object_values_reach_the_row (total idx : nat) (file_name response : str)
    (pairs : list (str * json)) (keywords : list str) (results_data : list row) :
  loads response = Some (JObj pairs) ->
  (forall key default, In (key, default) text_defaults -> dict_get key pairs <> None) ->
  (forall v, dict_get (lit "JD Match") pairs = Some v -> metric_ok v = true) ->
  dict_get (lit "MissingKeywords") pairs = Some (JArr (map JStr keywords)) ->
  (forall key default v,
      In (key, default) text_defaults ->
      dict_get key pairs = Some v -> shown_ok v = true) ->
  forallb encodable keywords = true ->
  parse_response response = ([], Ok (Some (JObj pairs))) /\
  exists r,
    outcome (handle_response total idx file_name response results_data)
    = Ok (results_data ++ [r]) /\
    dict_get (lit "Resume File") r = Some (JStr file_name) /\
    (forall key default,
        In (key, default) text_defaults -> dict_get key r = dict_get key pairs) /\
    dict_get (lit "Missing Keywords") r = Some (JStr (join (lit ", ") keywords)).
Proof.
  intros Hloads Hpresent Hmatch Hkeywords Hshown Hencodable.
  pose proof (parse_response_direct response (JObj pairs) Hloads) as Hparse.
  split; [exact Hparse|].
  exists (report_row file_name pairs (join (lit ", ") keywords)).
  split; [|split; [|split]].
  - unfold handle_response. rewrite outcome_bind, Hparse. cbn [outcome snd].
    apply record_result_records.
    + unfold field.
      destruct (dict_get (lit "JD Match") pairs) as [v|] eqn:E; [auto | reflexivity].
    + exact (texts_ok_present pairs Hshown).
    + rewrite (field_present pairs (lit "MissingKeywords") (JArr []) _ Hkeywords).
      cbn [py_join]. rewrite strings_of_map. reflexivity.
    + apply encodable_join; [reflexivity | exact Hencodable].
  - reflexivity.
  - intros key default Hin.
    rewrite (report_row_text_columns file_name pairs _ key default Hin).
    unfold field. destruct (dict_get key pairs) eqn:E; [reflexivity|].
    exfalso. exact (Hpresent key default Hin E).
  - reflexivity.
Qed.

Lemma C3_witness :
  loads full_reply = Some (JObj full_reply_pairs) /\
  parse_response full_reply = ([], Ok (Some (JObj full_reply_pairs))) /\
  exists r,
    outcome (handle_response 1 0 (lit "cv.docx") full_reply []) = Ok ([] ++ [r]) /\
    dict_get (lit "Resume File") r = Some (JStr (lit "cv.docx")) /\
    (forall key default,
        In (key, default) text_defaults -> dict_get key r = dict_get key full_reply_pairs) /\
    dict_get (lit "Missing Keywords") r
    = Some (JStr (join (lit ", ") [lit "python"; lit "sql"])).
Proof.
  split; [vm_compute; reflexivity|].
  apply (C3_object_values_reach_the_row 1 0 (lit "cv.docx") full_reply full_reply_pairs
           [lit "python"; lit "sql"] []).
  - vm_compute. reflexivity.
  - intros key default Hin. unfold text_defaults in Hin. simpl in Hin.
    repeat (destruct Hin as [[= <- <-] | Hin]; [vm_compute; discriminate|]).
    destruct Hin.
  - intros v [= <-]. reflexivity.
  - reflexivity.
  - intros key default v Hin Hget. unfold text_defaults in Hin. simpl in Hin.
    repeat (destruct Hin as [[= <- <-] | Hin];
            [vm_compute in Hget; injection Hget as <-; reflexivity|]).
    destruct Hin.
  - reflexivity.
Defined.

(** C3, as stated, fails: one field of the row is not the value of the
    object.  The object holds a list of two keywords; the row holds one
    string, the two joined. *)
Lemma C3_counterexample :
  exists r,
    loads full_reply = Some (JObj full_reply_pairs) /\
    outcome (handle_response 1 0 (lit "cv.docx") full_reply []) = Ok [r] /\
    dict_get (lit "MissingKeywords") full_reply_pairs
    = Some (JArr [JStr (lit "python"); JStr (lit "sql")]) /\
    dict_get (lit "Missing Keywords") r = Some (JStr (lit "python, sql")) /\
    JStr (lit "python, sql") <> JArr [JStr (lit "python"); JStr (lit "sql")].
Proof.
  eexists. split; [vm_compute; reflexivity|].
  split; [vm_compute; reflexivity|].
  split; [vm_compute; reflexivity|].
  split; [vm_compute; reflexivity|].
  discriminate.
Qed.

(** *** The report *)

Lemma row_cells (r : row) :
  map fst r = column_names ->
  map (fun c => dict_get c r) column_names = map (fun kv => Some (snd kv)) r.
Proof.
  intros H.
  do 10 (destruct r as [|[? ?] r]; [discriminate H|]).
  destruct r; [|discriminate H].
  injection H as -> -> -> -> -> -> -> -> -> ->.
  reflexivity.
Qed.

Lemma columns_stable (rows : list row) :
  Forall (fun r => map fst r = column_names) rows ->
  fold_left (fun cs d => fold_left add_column (map fst d) cs) rows column_names
  = column_names.
Proof.
  induction rows as [|r rows IH]; intros H; [reflexivity|].
  inversion H as [|? ? Hr Hrows]; subst. simpl. rewrite Hr.
  change (fold_left add_column column_names column_names) with column_names.
  exact (IH Hrows).
Qed.

(** The download of a non-empty list of rows that all have the ten columns
    is their report. *)
Lemma to_csv_report (rows : list row) :
  rows <> [] ->
  Forall (fun r => map fst r = column_names) rows ->
  to_csv (pd_DataFrame rows) = report rows.
Proof.
  intros Hne Hall. destruct rows as [|r rows]; [congruence|].
  assert (Hcols : columns (pd_DataFrame (r :: rows)) = column_names).
  { unfold pd_DataFrame. cbn [columns fold_left].
    inversion Hall as [|? ? Hr Hrows]; subst. rewrite Hr.
    change (fold_left add_column column_names []) with column_names.
    exact (columns_stable rows Hrows). }
  unfold to_csv, report. f_equal.
  - rewrite Hcols. reflexivity.
  - unfold pd_DataFrame in *. cbn [columns records] in *. rewrite Hcols.
    apply map_ext_in. intros d Hd. apply row_cells.
    rewrite Forall_forall in Hall. exact (Hall d Hd).
Qed.

(** *** What the loop shows *)

Lemma quiet_bind {A B} (m : M A) (f : A -> M B) :
  quiet m -> (forall a, quiet (f a)) -> quiet (bind m f).
Proof.
  unfold quiet. destruct m as [t [a|e]]; intros Hm Hf; [|exact Hm].
  rewrite (trace_bind f eq_refl). apply Forall_app. split; [exact Hm | apply Hf].
Qed.

Lemma quiet_emit (e : event) : not_download e -> quiet (emit e).
Proof. intros H. constructor; [exact H | constructor]. Qed.

Lemma quiet_ret {A} (a : A) : quiet (ret a).
Proof. constructor. Qed.

Lemma quiet_lift {A} (r : result A) : quiet (lift r).
Proof. constructor. Qed.

Lemma quiet_show (ok : bool) (e : event) : not_download e -> quiet (show ok e).
Proof. intros H. destruct ok; [apply quiet_emit; exact H | apply quiet_lift]. Qed.

Ltac quiet_step :=
  match goal with
  | |- quiet (bind _ _) => apply quiet_bind; [|intros]
  | |- quiet (emit _) => apply quiet_emit; exact I
  | |- quiet (show _ _) => apply quiet_show; exact I
  | |- quiet (ret _) => apply quiet_ret
  | |- quiet (lift _) => apply quiet_lift
  | |- quiet (match ?x with _ => _ end) => destruct x
  end.

Lemma quiet_input_resume_text (f : uploaded_file) : quiet (input_resume_text f).
Proof. unfold input_resume_text. repeat quiet_step. Qed.

Lemma quiet_get_gemini_response (generate : str -> reply) (input_text : str) :
  quiet (get_gemini_response generate input_text).
Proof. unfold get_gemini_response. repeat quiet_step. Qed.

Lemma quiet_parse_response (response : str) : quiet (parse_response response).
Proof. unfold parse_response. repeat quiet_step. Qed.

Lemma quiet_metric (label : str) (v : json) : quiet (metric label v).
Proof. unfold metric. repeat quiet_step. Qed.

Lemma quiet_record_result (total idx : nat) (file_name : str) (response_json : json)
    (results_data : list row) :
  quiet (record_result total idx file_name response_json results_data).
Proof.
  unfold record_result.
  repeat first [apply quiet_metric | quiet_step].
Qed.

Lemma quiet_evaluate_resume (generate : str -> reply) (jd_input linkedin_url : str)
    (total idx : nat) (f : uploaded_file) (results_data : list row) :
  quiet (evaluate_resume generate jd_input linkedin_url total idx f results_data).
Proof.
  unfold evaluate_resume, handle_response.
  repeat first [apply quiet_input_resume_text | apply quiet_get_gemini_response
               | apply quiet_parse_response | apply quiet_record_result | quiet_step].
Qed.

Lemma quiet_evaluate_loop (generate : str -> reply) (jd_input linkedin_url : str)
    (total : nat) (files : list uploaded_file) :
  forall idx results_data,
    quiet (evaluate_loop generate jd_input linkedin_url total idx files results_data).
Proof.
  induction files as [|f files IH]; intros idx results_data; simpl.
  - apply quiet_ret.
  - apply quiet_bind; [apply quiet_evaluate_resume | intros; apply IH].
Qed.

(** *** What the loop records *)

(** The value of one turn of the loop, from the decoded reply. *)
Lemma outcome_evaluate_resume (generate : str -> reply) (jd_input linkedin_url : str)
    (total idx : nat) (f : uploaded_file) (results_data : list row) :
  outcome (evaluate_resume generate jd_input linkedin_url total idx f results_data)
  = match decoded generate jd_input linkedin_url f with
    | Ok (Some response_json) =>
      outcome (record_result total idx (name f) response_json results_data)
    | Ok None => Ok results_data
    | Raise e => Raise e
    end.
Proof.
  unfold evaluate_resume, decoded, reply_of, handle_response.
  rewrite outcome_bind. destruct (outcome (input_resume_text f)) as [text|e]; [|reflexivity].
  rewrite bind_emit. cbn [outcome snd].
  rewrite outcome_bind. cbn [lift outcome snd].
  destruct (build_prompt (lower text) jd_input linkedin_url) as [prompt|e]; [|reflexivity].
  rewrite outcome_bind.
  destruct (outcome (get_gemini_response generate prompt)) as [response|e]; [|reflexivity].
  rewrite outcome_bind.
  destruct (outcome (parse_response response)) as [[response_json|]|e]; reflexivity.
Qed.

(** A turn that completes leaves the rows as they were, or adds one row:
    that of the decoded object, under the file's name. *)
Lemma evaluate_resume_rows (generate : str -> reply) (jd_input linkedin_url : str)
    (total idx : nat) (f : uploaded_file) (results_data rows : list row) :
  outcome (evaluate_resume generate jd_input linkedin_url total idx f results_data)
  = Ok rows ->
  rows = results_data ++ resume_rows generate jd_input linkedin_url f /\
  match decoded generate jd_input linkedin_url f with
  | Ok (Some (JObj pairs)) =>
    exists joined,
      py_join (lit ", ") (field pairs (lit "MissingKeywords") (JArr [])) = Ok joined /\
      resume_rows generate jd_input linkedin_url f = [report_row (name f) pairs joined]
  | Ok (Some _) => False
  | Ok None => resume_rows generate jd_input linkedin_url f = []
  | Raise _ => False
  end.
Proof.
  unfold resume_rows. rewrite !outcome_evaluate_resume.
  destruct (decoded generate jd_input linkedin_url f) as [[response_json|]|e].
  - intros H.
    destruct (record_result_completes _ _ _ _ _ _ H)
      as (pairs & count & joined & -> & Hmatch & Htexts & Hlen & Hjoin & Hjoined & ->).
    rewrite (record_result_records 0 0 (name f) pairs [] joined Hmatch Htexts Hjoin
               Hjoined).
    split; [reflexivity|]. exists joined. split; [exact Hjoin | reflexivity].
  - intros [= <-]. split; [symmetry; apply app_nil_r | reflexivity].
  - discriminate.
Qed.

(** The loop, when it completes: the rows of the files, in their order. *)
Lemma evaluate_loop_rows (generate : str -> reply) (jd_input linkedin_url : str)
    (total : nat) (files : list uploaded_file) :
  forall idx results_data rows,
    outcome (evaluate_loop generate jd_input linkedin_url total idx files results_data)
    = Ok rows ->
    rows = results_data ++ flat_map (resume_rows generate jd_input linkedin_url) files /\
    Forall (fun f =>
              match decoded generate jd_input linkedin_url f with
              | Ok (Some (JObj pairs)) =>
                exists joined,
                  py_join (lit ", ") (field pairs (lit "MissingKeywords") (JArr []))
                  = Ok joined /\
                  resume_rows generate jd_input linkedin_url f
                  = [report_row (name f) pairs joined]
              | Ok (Some _) => False
              | Ok None => resume_rows generate jd_input linkedin_url f = []
              | Raise _ => False
              end) files.
Proof.
  induction files as [|f files IH]; intros idx results_data rows; simpl.
  - intros [= <-]. split; [symmetry; apply app_nil_r | constructor].
  - rewrite outcome_bind.
    destruct (outcome (evaluate_resume generate jd_input linkedin_url total idx f
                         results_data)) as [rows1|e] eqn:E; [|discriminate].
    intros Hrest.
    destruct (evaluate_resume_rows _ _ _ _ _ _ _ _ E) as [-> Hf].
    destruct (IH _ _ _ Hrest) as [-> Hfiles].
    split; [rewrite app_assoc; reflexivity | constructor; assumption].
Qed.

Lemma flat_map_rows_columns (generate : str -> reply) (jd_input linkedin_url : str)
    (files : list uploaded_file) :
  Forall (fun f =>
            match decoded generate jd_input linkedin_url f with
            | Ok (Some (JObj pairs)) =>
              exists joined,
                py_join (lit ", ") (field pairs (lit "MissingKeywords") (JArr []))
                = Ok joined /\
                resume_rows generate jd_input linkedin_url f
                = [report_row (name f) pairs joined]
            | Ok (Some _) => False
            | Ok None => resume_rows generate jd_input linkedin_url f = []
            | Raise _ => False
            end) files ->
  Forall (fun r => map fst r = column_names)
         (flat_map (resume_rows generate jd_input linkedin_url) files).
Proof.
  induction 1 as [|f files Hf _ IH]; simpl; [constructor|].
  apply Forall_app. split; [|exact IH].
  destruct (decoded generate jd_input linkedin_url f) as [[[]|]|];
    try contradiction.
  - destruct Hf as (joined & _ & ->). constructor; [reflexivity | constructor].
  - rewrite Hf. constructor.
Qed.

Lemma encode_utf8_ok (data encoded : csv) :
  encode_utf8 data = Ok encoded -> encoded = data.
Proof.
  unfold encode_utf8. destruct (_ && _); [intros [= <-]; reflexivity | discriminate].
Qed.

(** C5 (as amended).  In a run that is accepted and completes, the rows
    recorded are those of the files in upload order: a file whose reply was
    decoded contributes exactly one row (its name, the values read, the keywords
    joined with a comma and a space), a file whose reply was skipped
    contributes none.  Every row has the ten columns in the fixed order.
    With no row, no download is offered; otherwise exactly one is, and it is
    the report of the rows: the fixed header line, then the rows in order. *)
Theorem C5_report_rows_in_order (generate : str -> reply) (jd_input : str)
    (uploaded_files : list uploaded_file) (linkedin_url : str)
    (shown : list event) (rows : list row) :
  is_empty uploaded_files || is_empty (strip jd_input) = false ->
  evaluate_resumes generate jd_input uploaded_files linkedin_url = (shown, Ok rows) ->
  rows = flat_map (resume_rows generate jd_input linkedin_url) uploaded_files /\
  Forall (fun f =>
            match decoded generate jd_input linkedin_url f with
            | Ok (Some (JObj pairs)) =>
              exists joined,
                py_join (lit ", ") (field pairs (lit "MissingKeywords") (JArr []))
                = Ok joined /\
                resume_rows generate jd_input linkedin_url f
                = [report_row (name f) pairs joined]
            | Ok (Some _) => False
            | Ok None => resume_rows generate jd_input linkedin_url f = []
            | Raise _ => False
            end) uploaded_files /\
  Forall (fun r => map fst r = column_names) rows /\
  (rows = [] -> forall data, ~ In (st_download_button data) shown) /\
  (rows <> [] -> forall data, In (st_download_button data) shown <-> data = report rows).
Proof.
  intros Haccepted Hrun. unfold evaluate_resumes in Hrun. rewrite Haccepted in Hrun.
  rewrite bind_emit in Hrun.
  pose proof (quiet_evaluate_loop generate jd_input linkedin_url
                (List.length uploaded_files) uploaded_files 0 []) as Hquiet.
  destruct (evaluate_loop generate jd_input linkedin_url (List.length uploaded_files) 0
              uploaded_files []) as [loop_shown [results_data|e]] eqn:Hloop;
    [|cbn in Hrun; discriminate Hrun].
  destruct (evaluate_loop_rows generate jd_input linkedin_url
              (List.length uploaded_files) uploaded_files 0 [] results_data)
    as [Hrows Hfiles].
  { rewrite Hloop. reflexivity. }
  simpl in Hrows.
  pose proof (flat_map_rows_columns generate jd_input linkedin_url uploaded_files Hfiles)
    as Hcolumns.
  rewrite <- Hrows in Hcolumns.
  unfold quiet in Hquiet. cbn [trace fst] in Hquiet. rewrite Forall_forall in Hquiet.
  assert (Hloop_quiet : forall data, ~ In (st_download_button data) loop_shown)
    by (intros data Hin; exact (Hquiet _ Hin)).
  destruct results_data as [|r results_data].
  - cbn in Hrun. injection Hrun as <- <-.
    split; [exact Hrows|]. split; [exact Hfiles|]. split; [constructor|].
    split; [|congruence].
    intros _ data [Hin | Hin]; [discriminate Hin|].
    apply in_app_or in Hin as [Hin | Hin].
    + exact (Hloop_quiet data Hin).
    + destruct Hin as [Hin | [Hin | []]]; discriminate Hin.
  - rewrite (trace_bind_ok _ eq_refl) in Hrun. cbn [is_empty] in Hrun.
    rewrite (to_csv_report (r :: results_data)) in Hrun by (congruence || assumption).
    destruct (encode_utf8 (report (r :: results_data))) as [data|e] eqn:Hencode;
      [|cbn in Hrun; discriminate Hrun].
    apply encode_utf8_ok in Hencode. subst data.
    cbn in Hrun. injection Hrun as <- <-.
    split; [exact Hrows|]. split; [exact Hfiles|]. split; [exact Hcolumns|].
    split; [discriminate|].
    intros _ data. split.
    + intros [Hin | Hin]; [discriminate Hin|].
      apply in_app_or in Hin as [Hin | Hin]; [exfalso; exact (Hloop_quiet data Hin)|].
      destruct Hin as [Hin | [Hin | [Hin | []]]]; try discriminate Hin.
      injection Hin as <-. reflexivity.
    + intros ->. right. apply in_or_app. right. left. reflexivity.
Qed.

Lemma C5_witness :
  three_rows = flat_map (resume_rows scripted (lit "Data JD") []) three_resumes /\
  forall data,
    In (st_download_button data)
       (trace (evaluate_resumes scripted (lit "Data JD") three_resumes []))
    <-> data = report three_rows.
Proof.
  destruct (C5_report_rows_in_order scripted (lit "Data JD") three_resumes []
              (trace (evaluate_resumes scripted (lit "Data JD") three_resumes []))
              three_rows)
    as (Hrows & _ & _ & _ & Hdownload).
  - reflexivity.
  - vm_compute. reflexivity.
  - split; [exact Hrows | apply Hdownload; discriminate].
Defined.

(** C5, as stated, fails: a resume can be parsed and yet give no row, and a
    row can be recorded and yet never be exported.  Of two resumes, the
    reply for the first is the expected object, whose row is recorded; the
    reply for the second is parsed to an object whose MissingKeywords is
    null, and taking its length ends the run with [TypeError]: the second
    resume has no row and no download is offered for the first. *)
Lemma C5_counterexample :
  decoded null_keywords (lit "Data JD") [] (docx (lit "a.docx") (lit "x"))
  = Ok (Some (JObj full_reply_pairs)) /\
  decoded null_keywords (lit "Data JD") [] (docx (lit "b.docx") (lit "yy"))
  = Ok (Some (JObj [(lit "MissingKeywords", JNull)])) /\
  resume_rows null_keywords (lit "Data JD") [] (docx (lit "a.docx") (lit "x"))
  = [report_row (lit "a.docx") full_reply_pairs (lit "python, sql")] /\
  outcome (evaluate_resumes null_keywords (lit "Data JD") two_resumes [])
  = Raise TypeError /\
  forall data,
    ~ In (st_download_button data)
         (trace (evaluate_resumes null_keywords (lit "Data JD") two_resumes [])).
Proof.
  split; [vm_compute; reflexivity|]. split; [vm_compute; reflexivity|].
  split; [vm_compute; reflexivity|]. split; [vm_compute; reflexivity|].
  intros data H. vm_compute in H.
  repeat (destruct H as [H | H]; [discriminate H|]). exact H.
Qed.


(* ===================================================================== *)
(** ** Further properties of the script *)
(* ===================================================================== *)

(** *** More on the monad *)

Lemma trace_bind_cases {A B} (m : M A) (f : A -> M B) :
  trace (bind m f)
  = trace m ++ match outcome m with Ok a => trace (f a) | Raise _ => [] end.
Proof.
  destruct m as [t [a|e]]; unfold bind, trace, outcome; simpl.
  - destruct (f a). reflexivity.
  - symmetry. apply app_nil_r.
Qed.

Lemma bind_cases {A B} (m : M A) (f : A -> M B) :
  bind m f
  = (trace m ++ match outcome m with Ok a => trace (f a) | Raise _ => [] end,
     match outcome m with Ok a => outcome (f a) | Raise e => Raise e end).
Proof.
  rewrite <- trace_bind_cases, <- outcome_bind. destruct (bind m f). reflexivity.
Qed.

Lemma metric_emit (label : str) (v : json) :
  metric_ok v = true -> shown_ok v = true -> metric label v = emit (st_metric label v).
Proof.
  destruct v; simpl; intros H1 H2; try reflexivity; try discriminate H1.
  unfold show. rewrite H2. reflexivity.
Qed.

(** *** The document extractor, on a PDF *)

Lemma concat_nonempty (pages : list str) :
  List.concat (filter (fun t => negb (Nat.eqb (List.length t) 0)) pages)
  = List.concat pages.
Proof.
  induction pages as [|p pages IH]; [reflexivity|].
  destruct p as [|c p]; simpl; rewrite IH; reflexivity.
Qed.

(** X1.  For a file whose name ends in [.pdf] and which the PDF decoder
    reads, the extracted text is the text of all the pages, in page order,
    with nothing between two pages: leaving out the pages without text
    changes nothing.  The decoder is called once, and the DOCX decoder is
    not called, whatever it would return. *)
Theorem pdf_text_is_all_pages_joined (f : uploaded_file) (pages : list str) :
  endswith (name f) (lit ".pdf") = true ->
  pdf_pages f = Ok pages ->
  input_resume_text f = ([PdfReader (name f)], Ok (List.concat pages)).
Proof.
  intros Hpdf Hpages. unfold input_resume_text.
  rewrite Hpdf, Hpages, bind_emit, bind_lift_ok, concat_nonempty. reflexivity.
Qed.

Lemma pdf_text_is_all_pages_joined_witness :
  input_resume_text three_pages = ([PdfReader (lit "cv.pdf")], Ok (lit "Jane DoePython")).
Proof.
  apply (pdf_text_is_all_pages_joined three_pages [lit "Jane Doe"; []; lit "Python"]);
    reflexivity.
Defined.

(** *** One turn of the loop, by the reply of the model *)

(** A turn whose file is read and whose request is answered. *)
Lemma evaluate_resume_answered (generate : str -> reply) (jd_input linkedin_url : str)
    (total idx : nat) (f : uploaded_file) (results_data : list row)
    (t : list event) (text response : str) :
  input_resume_text f = (t, Ok text) ->
  generate (resume_prompt jd_input linkedin_url text) = Reply response ->
  evaluate_resume generate jd_input linkedin_url total idx f results_data
  = (t ++ st_subheader ([128206%N] ++ lit " Resume: `" ++ name f ++ lit "`")
       :: generate_content (resume_prompt jd_input linkedin_url text)
       :: trace (handle_response total idx (name f) response results_data),
     outcome (handle_response total idx (name f) response results_data)).
Proof.
  intros Hin Hgen. unfold evaluate_resume.
  rewrite (trace_bind_ok _ Hin). rewrite bind_emit.
  rewrite build_prompt_layout, bind_lift_ok.
  fold (resume_prompt jd_input linkedin_url text).
  unfold get_gemini_response. rewrite Hgen, bind_emit.
  cbn [trace outcome fst snd ret].
  rewrite (trace_bind_ok _ eq_refl). reflexivity.
Qed.

(** A turn whose file is read and whose request fails. *)
Lemma evaluate_resume_failed (generate : str -> reply) (jd_input linkedin_url : str)
    (total idx : nat) (f : uploaded_file) (results_data : list row)
    (t : list event) (text message : str) :
  input_resume_text f = (t, Ok text) ->
  generate (resume_prompt jd_input linkedin_url text) = Fails message ->
  evaluate_resume generate jd_input linkedin_url total idx f results_data
  = (t ++ st_subheader ([128206%N] ++ lit " Resume: `" ++ name f ++ lit "`")
       :: generate_content (resume_prompt jd_input linkedin_url text)
       :: st_error (lit "Gemini API error: " ++ message)
       :: trace (handle_response total idx (name f) fallback_text results_data),
     outcome (handle_response total idx (name f) fallback_text results_data)).
Proof.
  intros Hin Hgen. unfold evaluate_resume.
  rewrite (trace_bind_ok _ Hin). rewrite bind_emit.
  rewrite build_prompt_layout, bind_lift_ok.
  fold (resume_prompt jd_input linkedin_url text).
  unfold get_gemini_response. rewrite Hgen, !bind_emit, dumps_fallback.
  cbn [trace outcome fst snd ret].
  rewrite (trace_bind_ok _ eq_refl). reflexivity.
Qed.

(** X2.  A file whose name ends in neither [.pdf] nor [.docx] (a name in
    capitals, [CV.PDF], is one) is not set aside: its turn of the loop goes
    on with the empty text.  Nothing is decoded, the file's name is shown,
    and the model is asked to evaluate an empty resume against the job
    description. *)
Theorem unsupported_file_is_evaluated_as_empty (generate : str -> reply)
    (jd_input linkedin_url : str) (total idx : nat) (f : uploaded_file)
    (results_data : list row) :
  endswith (name f) (lit ".pdf") = false ->
  endswith (name f) (lit ".docx") = false ->
  exists rest,
    trace (evaluate_resume generate jd_input linkedin_url total idx f results_data)
    = st_subheader ([128206%N] ++ lit " Resume: `" ++ name f ++ lit "`")
      :: generate_content (prompt_layout [] (firstn 1000 jd_input) linkedin_url)
      :: rest.
Proof.
  intros Hpdf Hdocx.
  assert (Hin : input_resume_text f = ([], Ok []))
    by (unfold input_resume_text; rewrite Hpdf, Hdocx; reflexivity).
  destruct (evaluate_resume_request generate jd_input linkedin_url total idx f
              results_data [] [] Hin) as [rest Hrest].
  exists rest. exact Hrest.
Qed.

Lemma unsupported_file_is_evaluated_as_empty_witness :
  exists rest,
    trace (evaluate_resume obliging (lit "Data JD") [] 1 0
             (docx (lit "CV.PDF") (lit "Jane Doe")) [])
    = st_subheader ([128206%N] ++ lit " Resume: `" ++ lit "CV.PDF" ++ lit "`")
      :: generate_content (prompt_layout [] (firstn 1000 (lit "Data JD")) [])
      :: rest.
Proof.
  apply (unsupported_file_is_evaluated_as_empty obliging (lit "Data JD") [] 1 0
           (docx (lit "CV.PDF") (lit "Jane Doe")) []); reflexivity.
Defined.

(** X3.  When the call to the model fails for a resume, the turn completes:
    the error is shown, then the placeholder values (JD Match "N/A", zero
    missing keywords, empty fields, the summary "Error") and the progress;
    no warning is shown.  The row recorded holds the file's name beside the
    placeholder values, with an empty Missing Keywords, and the rows
    recorded before are kept. *)
Theorem failed_call_records_placeholder_row (generate : str -> reply)
    (jd_input linkedin_url : str) (total idx : nat) (f : uploaded_file)
    (results_data : list row) (t : list event) (text message : str) :
  input_resume_text f = (t, Ok text) ->
  generate (resume_prompt jd_input linkedin_url text) = Fails message ->
  evaluate_resume generate jd_input linkedin_url total idx f results_data
  = (t ++ [ st_subheader ([128206%N] ++ lit " Resume: `" ++ name f ++ lit "`");
            generate_content (resume_prompt jd_input linkedin_url text);
            st_error (lit "Gemini API error: " ++ message);
            st_metric ([127919%N] ++ lit " JD Match") (JStr (lit "N/A"));
            st_metric ([128201%N] ++ lit " Missing Keywords") (JStr (lit "0"));
            st_markdown_card (JStr []) (JStr []) (JStr []) (JStr []) (JStr []) (JStr []);
            st_info_summary (JStr (lit "Error"));
            progress_progress (idx + 1) total ],
     Ok (results_data ++ [report_row (name f) fallback_pairs []])).
Proof.
  intros Hin Hgen.
  rewrite (evaluate_resume_failed generate jd_input linkedin_url total idx f
             results_data t text message Hin Hgen).
  unfold handle_response.
  rewrite (parse_response_direct fallback_text fallback loads_fallback).
  rewrite bind_cases. cbn [trace outcome fst snd app].
  reflexivity.
Qed.

Lemma failed_call_records_placeholder_row_witness :
  outcome (evaluate_resume service_down (lit "Data JD") [] 2 1 cv_docx
             [report_row (lit "a.docx") full_reply_pairs (lit "python, sql")])
  = Ok [ report_row (lit "a.docx") full_reply_pairs (lit "python, sql");
         report_row (lit "cv.docx") fallback_pairs [] ].
Proof.
  rewrite (failed_call_records_placeholder_row service_down (lit "Data JD") [] 2 1
             cv_docx [report_row (lit "a.docx") full_reply_pairs (lit "python, sql")]
             [docx2txt_process (lit "cv.docx")]
             (lit "Senior ENGINEER, SQL and Python") (lit "503 unavailable"));
    reflexivity.
Defined.

(** X4.  A reply that is not JSON and in which no closing brace follows an
    opening brace is skipped: after the request, the turn shows the one
    message that the reply could not be parsed, and nothing else (no
    metric, no progress); no row is added and the turn completes, so the
    loop goes on. *)
Theorem unparsable_reply_is_skipped (generate : str -> reply)
    (jd_input linkedin_url : str) (total idx : nat) (f : uploaded_file)
    (results_data : list row) (t : list event) (text response : str) :
  input_resume_text f = (t, Ok text) ->
  generate (resume_prompt jd_input linkedin_url text) = Reply response ->
  loads response = None ->
  (~ exists pre mid post, response = pre ++ 123%N :: mid ++ 125%N :: post) ->
  evaluate_resume generate jd_input linkedin_url total idx f results_data
  = (t ++ [ st_subheader ([128206%N] ++ lit " Resume: `" ++ name f ++ lit "`");
            generate_content (resume_prompt jd_input linkedin_url text);
            st_error (lit "Failed to parse JSON.") ],
     Ok results_data).
Proof.
  intros Hin Hgen Hloads Hbraces.
  rewrite (evaluate_resume_answered generate jd_input linkedin_url total idx f
             results_data t text response Hin Hgen).
  apply ReFacts.search_braces_none in Hbraces.
  rewrite (handle_response_skip total idx (name f) response results_data Hloads Hbraces).
  reflexivity.
Qed.

Lemma unparsable_reply_is_skipped_witness :
  evaluate_resume (fun _ => Reply (lit "} I cannot evaluate this {")) (lit "Data JD") []
    1 0 cv_docx []
  = ([docx2txt_process (lit "cv.docx")]
       ++ [ st_subheader ([128206%N] ++ lit " Resume: `" ++ name cv_docx ++ lit "`");
            generate_content
              (resume_prompt (lit "Data JD") [] (lit "Senior ENGINEER, SQL and Python"));
            st_error (lit "Failed to parse JSON.") ],
     Ok []).
Proof.
  apply (unparsable_reply_is_skipped (fun _ => Reply (lit "} I cannot evaluate this {"))
           (lit "Data JD") [] 1 0 cv_docx [] [docx2txt_process (lit "cv.docx")]
           (lit "Senior ENGINEER, SQL and Python") (lit "} I cannot evaluate this {")).
  - reflexivity.
  - reflexivity.
  - vm_compute. reflexivity.
  - apply ReFacts.search_braces_none. vm_compute. reflexivity.
Defined.

(** X5.  A reply that is valid JSON but not an object (a list, a string, a
    number, [true], [false], [null]) is decoded by the first step and ends
    the run at the first field read, with [AttributeError]: nothing is shown
    after the request, no row is added, and the exception is not caught. *)
Theorem non_object_reply_ends_the_run (generate : str -> reply)
    (jd_input linkedin_url : str) (total idx : nat) (f : uploaded_file)
    (results_data : list row) (t : list event) (text response : str) (v : json) :
  input_resume_text f = (t, Ok text) ->
  generate (resume_prompt jd_input linkedin_url text) = Reply response ->
  loads response = Some v ->
  (forall pairs, v <> JObj pairs) ->
  evaluate_resume generate jd_input linkedin_url total idx f results_data
  = (t ++ [ st_subheader ([128206%N] ++ lit " Resume: `" ++ name f ++ lit "`");
            generate_content (resume_prompt jd_input linkedin_url text) ],
     Raise AttributeError).
Proof.
  intros Hin Hgen Hloads Hother.
  rewrite (evaluate_resume_answered generate jd_input linkedin_url total idx f
             results_data t text response Hin Hgen).
  unfold handle_response.
  rewrite (parse_response_direct response v Hloads).
  rewrite bind_cases. cbn [trace outcome fst snd app].
  destruct v; try reflexivity. exfalso. exact (Hother pairs eq_refl).
Qed.

Lemma non_object_reply_ends_the_run_witness :
  evaluate_resume (fun _ => Reply (lit "85")) (lit "Data JD") [] 1 0 cv_docx []
  = ([docx2txt_process (lit "cv.docx")]
       ++ [ st_subheader ([128206%N] ++ lit " Resume: `" ++ name cv_docx ++ lit "`");
            generate_content
              (resume_prompt (lit "Data JD") [] (lit "Senior ENGINEER, SQL and Python")) ],
     Raise AttributeError).
Proof.
  apply (non_object_reply_ends_the_run (fun _ => Reply (lit "85")) (lit "Data JD") [] 1 0
           cv_docx [] [docx2txt_process (lit "cv.docx")]
           (lit "Senior ENGINEER, SQL and Python") (lit "85") (JInt 85)).
  - reflexivity.
  - reflexivity.
  - vm_compute. reflexivity.
  - intros pairs H. discriminate H.
Defined.

(** *** What a recorded resume shows *)

Lemma keywords_ok_join (sep : str) (v : json) :
  keywords_ok v = true -> exists joined, py_join sep v = Ok joined.
Proof.
  destruct v; simpl; try discriminate; eauto.
  intros H. assert (Hs : exists parts, strings_of items = Some parts).
  { induction items as [|x items IH]; simpl in *; [eauto|].
    destruct x; try discriminate H. destruct (IH H) as [parts ->]. simpl. eauto. }
  destruct Hs as [parts ->]. eauto.
Qed.

Lemma keywords_ok_len (v : json) :
  keywords_ok v = true -> exists count, py_len v = Ok count.
Proof. destruct v; simpl; try discriminate; eauto. Qed.

Lemma keywords_not_ok (sep : str) (v : json) :
  keywords_ok v = false ->
  py_len v = Raise TypeError \/
  (exists count, py_len v = Ok count) /\ py_join sep v = Raise TypeError.
Proof.
  destruct v; simpl; try discriminate; auto.
  intros H. right. split; [eauto|].
  assert (Hs : strings_of items = None).
  { induction items as [|x items IH]; simpl in *; [discriminate|].
    destruct x; try reflexivity. rewrite (IH H). reflexivity. }
  rewrite Hs. reflexivity.
Qed.

(** The whole of the rest of the loop body, when the values pass. *)
Lemma record_result_shown (total idx : nat) (file_name : str)
    (pairs : list (str * json)) (results_data : list row) (count : nat) (joined : str) :
  metric_ok (field pairs (lit "JD Match") (JStr (lit "N/A"))) = true ->
  texts_ok pairs = true ->
  py_len (field pairs (lit "MissingKeywords") (JArr [])) = Ok count ->
  py_join (lit ", ") (field pairs (lit "MissingKeywords") (JArr [])) = Ok joined ->
  encodable joined = true ->
  record_result total idx file_name (JObj pairs) results_data
  = ([ st_metric ([127919%N] ++ lit " JD Match")
                 (field pairs (lit "JD Match") (JStr (lit "N/A")));
       st_metric ([128201%N] ++ lit " Missing Keywords") (JStr (of_nat count));
       st_markdown_card (field pairs (lit "Candidate Name") (JStr []))
                        (field pairs (lit "Role") (JStr []))
                        (field pairs (lit "Current Company") (JStr []))
                        (field pairs (lit "Duration") (JStr []))
                        (field pairs (lit "Overall Experience") (JStr []))
                        (field pairs (lit "LinkedIn") (JStr []));
       st_info_summary (field pairs (lit "Profile Summary") (JStr [])) ]
     ++ (if py_bool (field pairs (lit "MissingKeywords") (JArr []))
         then [st_warning (lit "Missing Keywords: " ++ joined)] else [])
     ++ [progress_progress (idx + 1) total],
     Ok (results_data ++ [report_row file_name pairs joined])).
Proof.
  intros Hmatch Htexts Hlen Hjoin Hjoined. unfold texts_ok, card_values in Htexts.
  apply andb_prop in Htexts as [Htexts Hsummary].
  apply andb_prop in Htexts as [Hjd Hcard].
  unfold record_result. rewrite !py_get_field, !bind_lift_ok.
  rewrite (metric_emit _ _ Hmatch Hjd), bind_emit.
  rewrite Hlen, bind_lift_ok.
  rewrite (metric_emit _ (JStr (of_nat count)) eq_refl (encodable_of_nat count)), bind_emit.
  rewrite Hcard, Hsummary. cbn [show]. rewrite !bind_emit.
  rewrite Hjoin.
  destruct (py_bool (field pairs (lit "MissingKeywords") (JArr []))).
  - rewrite !bind_lift_ok, Hjoined. cbn [show]. rewrite !bind_emit. reflexivity.
  - rewrite bind_lift_ok. reflexivity.
Qed.

(** X6.  For a reply decoded to an object, the rest of the turn either
    records one row or ends the run with [TypeError] or with
    [UnicodeEncodeError], and nothing else.  It records the row exactly when
    the JD Match read is neither a list nor an object, the MissingKeywords
    read is a list of strings, a string or an object, and no text that is
    shown (the JD Match, the six values of the card, the summary, the
    keywords joined) holds a surrogate on its own.  With values of these
    types, a surrogate ends the run with [UnicodeEncodeError]; with texts
    that can be encoded, a value of another type ends it with
    [TypeError]. *)
Theorem object_is_recorded_iff_values_pass (total idx : nat) (file_name : str)
    (pairs : list (str * json)) (results_data : list row) :
  (metric_ok (field pairs (lit "JD Match") (JStr (lit "N/A")))
   && keywords_ok (field pairs (lit "MissingKeywords") (JArr []))
   && (texts_ok pairs
       && keywords_encodable (field pairs (lit "MissingKeywords") (JArr []))) = true ->
   exists joined,
     py_join (lit ", ") (field pairs (lit "MissingKeywords") (JArr [])) = Ok joined /\
     outcome (record_result total idx file_name (JObj pairs) results_data)
     = Ok (results_data ++ [report_row file_name pairs joined])) /\
  (metric_ok (field pairs (lit "JD Match") (JStr (lit "N/A")))
   && keywords_ok (field pairs (lit "MissingKeywords") (JArr []))
   && (texts_ok pairs
       && keywords_encodable (field pairs (lit "MissingKeywords") (JArr []))) = false ->
   outcome (record_result total idx file_name (JObj pairs) results_data)
   = Raise TypeError \/
   outcome (record_result total idx file_name (JObj pairs) results_data)
   = Raise UnicodeEncodeError) /\
  (metric_ok (field pairs (lit "JD Match") (JStr (lit "N/A")))
   && keywords_ok (field pairs (lit "MissingKeywords") (JArr [])) = true ->
   texts_ok pairs
   && keywords_encodable (field pairs (lit "MissingKeywords") (JArr [])) = false ->
   outcome (record_result total idx file_name (JObj pairs) results_data)
   = Raise UnicodeEncodeError) /\
  (metric_ok (field pairs (lit "JD Match") (JStr (lit "N/A")))
   && keywords_ok (field pairs (lit "MissingKeywords") (JArr [])) = false ->
   texts_ok pairs
   && keywords_encodable (field pairs (lit "MissingKeywords") (JArr [])) = true ->
   outcome (record_result total idx file_name (JObj pairs) results_data)
   = Raise TypeError).
Proof.
  rewrite outcome_record_result. unfold texts_ok, keywords_encodable.
  destruct (keywords_ok (field pairs (lit "MissingKeywords") (JArr []))) eqn:Hk.
  - destruct (keywords_ok_join (lit ", ") _ Hk) as [joined Hjoin].
    destruct (keywords_ok_len _ Hk) as [count Hlen].
    rewrite Hlen, Hjoin.
    destruct (metric_ok (field pairs (lit "JD Match") (JStr (lit "N/A"))));
      destruct (shown_ok (field pairs (lit "JD Match") (JStr (lit "N/A"))));
      destruct (forallb shown_ok (card_values pairs));
      destruct (shown_ok (field pairs (lit "Profile Summary") (JStr [])));
      destruct (encodable joined);
      cbn [andb]; repeat split; intros; try discriminate; eauto.
  - destruct (keywords_not_ok (lit ", ") _ Hk) as [Hlen | [[count Hlen] Hjoin]];
      rewrite Hlen, ?Hjoin;
      destruct (metric_ok (field pairs (lit "JD Match") (JStr (lit "N/A"))));
      destruct (shown_ok (field pairs (lit "JD Match") (JStr (lit "N/A"))));
      destruct (forallb shown_ok (card_values pairs));
      destruct (shown_ok (field pairs (lit "Profile Summary") (JStr [])));
      cbn [andb]; repeat split; intros; try discriminate; auto.
Qed.

Lemma object_is_recorded_iff_values_pass_witness :
  loads (litq "{'JD Match':'70%','Role':'\ud83d'}") = Some (JObj half_pair) /\
  metric_ok (field half_pair (lit "JD Match") (JStr (lit "N/A")))
  && keywords_ok (field half_pair (lit "MissingKeywords") (JArr [])) = true /\
  texts_ok half_pair
  && keywords_encodable (field half_pair (lit "MissingKeywords") (JArr [])) = false /\
  outcome (record_result 1 0 (lit "cv.docx") (JObj half_pair) [])
  = Raise UnicodeEncodeError.
Proof.
  split; [vm_compute; reflexivity|].
  split; [vm_compute; reflexivity|].
  split; [vm_compute; reflexivity|].
  destruct (object_is_recorded_iff_values_pass 1 0 (lit "cv.docx") half_pair [])
    as (_ & _ & H & _).
  apply H; vm_compute; reflexivity.
Defined.

(** X7.  What the page shows for a reply decoded to an object whose JD Match
    is not a list or an object, whose MissingKeywords (or its default, when
    the key is absent) is a list of strings, and in which no text that is
    shown holds a surrogate on its own: the two metrics, the second one
    holding the number of keywords in decimal; the card; the summary; a
    warning that lists the keywords, only when there is at least one; and
    last the progress, at (idx + 1) / total. *)
Theorem recorded_resume_display (total idx : nat) (file_name : str)
    (pairs : list (str * json)) (keywords : list str) (results_data : list row) :
  metric_ok (field pairs (lit "JD Match") (JStr (lit "N/A"))) = true ->
  field pairs (lit "MissingKeywords") (JArr []) = JArr (map JStr keywords) ->
  texts_ok pairs = true ->
  forallb encodable keywords = true ->
  trace (record_result total idx file_name (JObj pairs) results_data)
  = [ st_metric ([127919%N] ++ lit " JD Match")
                (field pairs (lit "JD Match") (JStr (lit "N/A")));
      st_metric ([128201%N] ++ lit " Missing Keywords")
                (JStr (of_nat (List.length keywords)));
      st_markdown_card (field pairs (lit "Candidate Name") (JStr []))
                       (field pairs (lit "Role") (JStr []))
                       (field pairs (lit "Current Company") (JStr []))
                       (field pairs (lit "Duration") (JStr []))
                       (field pairs (lit "Overall Experience") (JStr []))
                       (field pairs (lit "LinkedIn") (JStr []));
      st_info_summary (field pairs (lit "Profile Summary") (JStr [])) ]
    ++ match keywords with
       | [] => []
       | _ :: _ => [st_warning (lit "Missing Keywords: " ++ join (lit ", ") keywords)]
       end
    ++ [progress_progress (idx + 1) total].
Proof.
  intros Hmatch Hkeywords Htexts Hencodable.
  rewrite (record_result_shown total idx file_name pairs results_data
             (List.length keywords) (join (lit ", ") keywords) Hmatch Htexts).
  - rewrite Hkeywords. destruct keywords; reflexivity.
  - rewrite Hkeywords. cbn [py_len]. rewrite length_map. reflexivity.
  - rewrite Hkeywords. cbn [py_join]. rewrite strings_of_map. reflexivity.
  - apply encodable_join; [reflexivity | exact Hencodable].
Qed.

Lemma recorded_resume_display_witness :
  trace (record_result 3 0 (lit "a.docx") (JObj full_reply_pairs) [])
  = [ st_metric ([127919%N] ++ lit " JD Match") (JStr (lit "85%"));
      st_metric ([128201%N] ++ lit " Missing Keywords") (JStr (lit "2"));
      st_markdown_card (JStr (lit "A. Jones")) (JStr (lit "Engineer")) (JStr (lit "Acme"))
                       (JStr (lit "2 years")) (JStr (lit "5 years"))
                       (JStr (lit "https://linkedin.com/in/ajones"));
      st_info_summary (JStr (lit "Data engineer"));
      st_warning (lit "Missing Keywords: python, sql");
      progress_progress 1 3 ].
Proof.
  apply (recorded_resume_display 3 0 (lit "a.docx") full_reply_pairs
           [lit "python"; lit "sql"] []); reflexivity.
Defined.

Lemma encodable_characters (s : str) :
  encodable s = true -> forallb encodable (characters s) = true.
Proof.
  induction s as [|c s IH]; [reflexivity|]. simpl.
  intros H. apply andb_prop in H as [Hc Hs]. rewrite Hc, (IH Hs). reflexivity.
Qed.

(** X8.  When the reply gives MissingKeywords as one string instead of a
    list, the string is taken character by character.  When it holds no
    surrogate, and neither does another text that is shown, the turn
    completes: the metric shows the number of its characters, the warning
    (shown unless the string is empty) and the Missing Keywords of the row
    hold its characters separated by a comma and a space. *)
Theorem keywords_given_as_text_are_split (total idx : nat) (file_name : str)
    (pairs : list (str * json)) (s : str) (results_data : list row) :
  metric_ok (field pairs (lit "JD Match") (JStr (lit "N/A"))) = true ->
  dict_get (lit "MissingKeywords") pairs = Some (JStr s) ->
  texts_ok pairs = true ->
  encodable s = true ->
  outcome (record_result total idx file_name (JObj pairs) results_data)
  = Ok (results_data ++ [report_row file_name pairs (join (lit ", ") (characters s))]) /\
  In (st_metric ([128201%N] ++ lit " Missing Keywords") (JStr (of_nat (List.length s))))
     (trace (record_result total idx file_name (JObj pairs) results_data)) /\
  (s <> [] ->
   In (st_warning (lit "Missing Keywords: " ++ join (lit ", ") (characters s)))
      (trace (record_result total idx file_name (JObj pairs) results_data))).
Proof.
  intros Hmatch Hkeywords Htexts Hencodable.
  pose proof (field_present pairs (lit "MissingKeywords") (JArr []) (JStr s) Hkeywords)
    as Hfield.
  rewrite (record_result_shown total idx file_name pairs results_data
             (List.length s) (join (lit ", ") (characters s)) Hmatch Htexts);
    try (rewrite Hfield; reflexivity).
  - cbn [trace outcome fst snd]. rewrite Hfield.
    split; [reflexivity|]. split.
    + right. left. reflexivity.
    + intros Hne. destruct s as [|c s]; [congruence|].
      cbn [py_bool List.length Nat.eqb negb].
      do 4 right. left. reflexivity.
  - apply encodable_join; [reflexivity | exact (encodable_characters s Hencodable)].
Qed.

Lemma keywords_given_as_text_are_split_witness :
  outcome (record_result 1 0 (lit "cv.docx") (JObj keywords_as_text) [])
  = Ok [report_row (lit "cv.docx") keywords_as_text (lit "s, q, l")].
Proof.
  destruct (keywords_given_as_text_are_split 1 0 (lit "cv.docx") keywords_as_text
              (lit "sql") []) as (Hrow & _).
  - vm_compute. reflexivity.
  - vm_compute. reflexivity.
  - vm_compute. reflexivity.
  - vm_compute. reflexivity.
  - rewrite Hrow. vm_compute. reflexivity.
Defined.

(** *** The loop and the run *)

Lemma bind_ret {A B} (a : A) (f : A -> M B) : bind (ret a) f = f a.
Proof. exact (bind_lift_ok a f). Qed.

Lemma bind_ext {A B} (m : M A) (f g : A -> M B) :
  (forall a, f a = g a) -> bind m f = bind m g.
Proof. intros H. destruct m as [t [a|e]]; simpl; [rewrite H|]; reflexivity. Qed.

Lemma bind_raise {A B} (m : M A) (f : A -> M B) (e : exn) :
  outcome m = Raise e -> bind m f = (trace m, Raise e).
Proof. destruct m as [t [a|e']]; simpl; intros [= ->]. reflexivity. Qed.

(** An accepted run: the progress bar, the loop and, when the loop
    completes, the download (if there is a row, and it can be encoded), the
    message and the balloons. *)
Lemma evaluate_resumes_accepted (generate : str -> reply) (jd_input : str)
    (uploaded_files : list uploaded_file) (linkedin_url : str) :
  accepted jd_input uploaded_files = true ->
  evaluate_resumes generate jd_input uploaded_files linkedin_url
  = match evaluate_loop generate jd_input linkedin_url
            (List.length uploaded_files) 0 uploaded_files [] with
    | (loop_shown, Ok rows) =>
      if is_empty rows then
        (st_progress :: loop_shown
           ++ [st_success ([9989%N] ++ lit " Evaluation complete."); st_balloons],
         Ok rows)
      else
        match encode_utf8 (to_csv (pd_DataFrame rows)) with
        | Ok data =>
          (st_progress :: loop_shown
             ++ [st_download_button data;
                 st_success ([9989%N] ++ lit " Evaluation complete."); st_balloons],
           Ok rows)
        | Raise e => (st_progress :: loop_shown, Raise e)
        end
    | (loop_shown, Raise e) => (st_progress :: loop_shown, Raise e)
    end.
Proof.
  unfold accepted, evaluate_resumes. intros H. apply negb_true_iff in H. rewrite H.
  rewrite bind_emit, bind_cases.
  destruct (evaluate_loop generate jd_input linkedin_url (List.length uploaded_files) 0
              uploaded_files []) as [t [rows|e]]; cbn [trace outcome fst snd].
  - destruct rows as [|r rows]; [reflexivity|]. cbn [is_empty].
    destruct (encode_utf8 (to_csv (pd_DataFrame (r :: rows)))) as [data|e].
    + reflexivity.
    + cbn. rewrite app_nil_r. reflexivity.
  - rewrite app_nil_r. reflexivity.
Qed.

(** An accepted run that completes. *)
Lemma evaluate_resumes_completes (generate : str -> reply) (jd_input : str)
    (uploaded_files : list uploaded_file) (linkedin_url : str)
    (shown : list event) (rows : list row) :
  accepted jd_input uploaded_files = true ->
  evaluate_resumes generate jd_input uploaded_files linkedin_url = (shown, Ok rows) ->
  outcome (evaluate_loop generate jd_input linkedin_url
             (List.length uploaded_files) 0 uploaded_files []) = Ok rows /\
  shown
  = st_progress
      :: trace (evaluate_loop generate jd_input linkedin_url
                  (List.length uploaded_files) 0 uploaded_files [])
      ++ (if is_empty rows then []
          else [st_download_button (to_csv (pd_DataFrame rows))])
      ++ [st_success ([9989%N] ++ lit " Evaluation complete."); st_balloons].
Proof.
  intros Hacc. rewrite (evaluate_resumes_accepted _ _ _ _ Hacc).
  destruct (evaluate_loop generate jd_input linkedin_url (List.length uploaded_files) 0
              uploaded_files []) as [t [rows0|e]]; [|discriminate].
  destruct rows0 as [|r rows0]; cbn [is_empty trace outcome fst snd].
  - intros [= <- <-]. split; reflexivity.
  - destruct (encode_utf8 (to_csv (pd_DataFrame (r :: rows0)))) as [data|e] eqn:E;
      [|discriminate].
    apply encode_utf8_ok in E. subst data.
    intros [= <- <-]. split; reflexivity.
Qed.

Lemma evaluate_resumes_rejected (generate : str -> reply) (jd_input : str)
    (uploaded_files : list uploaded_file) (linkedin_url : str) :
  accepted jd_input uploaded_files = false ->
  evaluate_resumes generate jd_input uploaded_files linkedin_url
  = ([st_error (lit "Please provide both JD and at least one resume.")], Ok []).
Proof.
  unfold accepted, evaluate_resumes. intros H. apply negb_false_iff in H. rewrite H.
  reflexivity.
Qed.

(** The events of the loop are those of its turns. *)
Lemma shown_bind {A B} (P : event -> Prop) (m : M A) (f : A -> M B) :
  Forall P (trace m) -> (forall a, Forall P (trace (f a))) -> Forall P (trace (bind m f)).
Proof.
  intros Hm Hf. rewrite trace_bind_cases. apply Forall_app. split; [exact Hm|].
  destruct (outcome m); [apply Hf | constructor].
Qed.

Ltac shown_step :=
  match goal with
  | |- Forall _ (trace (bind _ _)) => apply shown_bind; [|intros]
  | |- Forall _ (trace (show _ _)) => unfold show
  | |- Forall _ (trace (emit _)) => constructor; [reflexivity | constructor]
  | |- Forall _ (trace (ret _)) => constructor
  | |- Forall _ (trace (lift _)) => constructor
  | |- Forall _ (trace (match ?x with _ => _ end)) => destruct x
  end.

Lemma display_metric (label : str) (v : json) :
  Forall (fun e => display_event e = true) (trace (metric label v)).
Proof. unfold metric. repeat shown_step. Qed.

Lemma display_handle_response (total idx : nat) (file_name response : str)
    (results_data : list row) :
  Forall (fun e => display_event e = true)
         (trace (handle_response total idx file_name response results_data)).
Proof.
  unfold handle_response, parse_response, record_result.
  repeat first [apply display_metric | shown_step].
Qed.

Lemma display_is_turn_event (t : list event) :
  Forall (fun e => display_event e = true) t -> Forall (fun e => turn_event e = true) t.
Proof.
  apply Forall_impl. intros e. destruct e; simpl; congruence.
Qed.

Lemma turn_events_evaluate_resume (generate : str -> reply) (jd_input linkedin_url : str)
    (total idx : nat) (f : uploaded_file) (results_data : list row) :
  Forall (fun e => turn_event e = true)
         (trace (evaluate_resume generate jd_input linkedin_url total idx f results_data)).
Proof.
  unfold evaluate_resume, input_resume_text, get_gemini_response.
  repeat first [apply display_is_turn_event; apply display_handle_response | shown_step].
Qed.

Lemma turn_events_evaluate_loop (generate : str -> reply) (jd_input linkedin_url : str)
    (total : nat) (files : list uploaded_file) :
  forall idx results_data,
    Forall (fun e => turn_event e = true)
           (trace (evaluate_loop generate jd_input linkedin_url total idx files
                     results_data)).
Proof.
  induction files as [|f files IH]; intros idx results_data; simpl.
  - constructor.
  - apply shown_bind; [apply turn_events_evaluate_resume | intros; apply IH].
Qed.

(** The value of a turn, from the value of the turn taken on its own. *)
Lemma outcome_evaluate_resume_turn (generate : str -> reply) (jd_input linkedin_url : str)
    (total idx : nat) (f : uploaded_file) (results_data : list row) :
  outcome (evaluate_resume generate jd_input linkedin_url total idx f results_data)
  = match turn generate jd_input linkedin_url f with
    | Ok rows => Ok (results_data ++ rows)
    | Raise e => Raise e
    end.
Proof.
  unfold turn. rewrite !outcome_evaluate_resume.
  destruct (decoded generate jd_input linkedin_url f) as [[response_json|]|e].
  - destruct response_json as [| | | | |pairs|pairs];
      try (rewrite !outcome_record_result_other by discriminate; reflexivity).
    rewrite !outcome_record_result.
    destruct (metric_ok (field pairs (lit "JD Match") (JStr (lit "N/A"))));
      [|reflexivity].
    destruct (shown_ok (field pairs (lit "JD Match") (JStr (lit "N/A"))));
      [|reflexivity].
    destruct (py_len _); [|reflexivity].
    destruct (forallb shown_ok (card_values pairs)
              && shown_ok (field pairs (lit "Profile Summary") (JStr [])));
      [|reflexivity].
    destruct (py_join (lit ", ") _) as [joined|]; [|reflexivity].
    destruct (encodable joined); reflexivity.
  - rewrite app_nil_r. reflexivity.
  - reflexivity.
Qed.

Lemma outcome_evaluate_loop_cons (generate : str -> reply) (jd_input linkedin_url : str)
    (total idx : nat) (f : uploaded_file) (files : list uploaded_file)
    (results_data : list row) :
  outcome (evaluate_loop generate jd_input linkedin_url total idx (f :: files) results_data)
  = match turn generate jd_input linkedin_url f with
    | Ok rows =>
      outcome (evaluate_loop generate jd_input linkedin_url total (S idx) files
                 (results_data ++ rows))
    | Raise e => Raise e
    end.
Proof.
  simpl. rewrite outcome_bind, outcome_evaluate_resume_turn.
  destruct (turn generate jd_input linkedin_url f); reflexivity.
Qed.

(** The files after one whose turn raises are not looked at. *)
Lemma evaluate_loop_stops (generate : str -> reply) (jd_input linkedin_url : str)
    (total : nat) (f : uploaded_file) (post post' : list uploaded_file) (e : exn) :
  turn generate jd_input linkedin_url f = Raise e ->
  forall pre idx results_data,
    evaluate_loop generate jd_input linkedin_url total idx (pre ++ f :: post) results_data
    = evaluate_loop generate jd_input linkedin_url total idx (pre ++ f :: post')
        results_data.
Proof.
  intros Hraise. induction pre as [|p pre IH]; intros idx results_data; simpl.
  - assert (H : outcome (evaluate_resume generate jd_input linkedin_url total idx f
                           results_data) = Raise e)
      by (rewrite outcome_evaluate_resume_turn, Hraise; reflexivity).
    rewrite !(bind_raise _ _ e H). reflexivity.
  - apply bind_ext. intros rows. apply IH.
Qed.

Lemma outcome_evaluate_loop_raise (generate : str -> reply) (jd_input linkedin_url : str)
    (total : nat) (f : uploaded_file) (post : list uploaded_file) (e : exn) :
  turn generate jd_input linkedin_url f = Raise e ->
  forall pre idx results_data,
    Forall (fun p => exists rows, turn generate jd_input linkedin_url p = Ok rows) pre ->
    outcome (evaluate_loop generate jd_input linkedin_url total idx (pre ++ f :: post)
               results_data)
    = Raise e.
Proof.
  intros Hraise. induction pre as [|p pre IH]; intros idx results_data Hpre.
  - simpl app. rewrite outcome_evaluate_loop_cons, Hraise. reflexivity.
  - inversion Hpre as [|? ? [rows Hp] Hrest]; subst.
    simpl app. rewrite outcome_evaluate_loop_cons, Hp. apply IH. exact Hrest.
Qed.

Lemma accepted_app (jd_input : str) (pre post : list uploaded_file) (f : uploaded_file) :
  is_empty (strip jd_input) = false -> accepted jd_input (pre ++ f :: post) = true.
Proof. intros H. unfold accepted. rewrite H. destruct pre; reflexivity. Qed.

(** X9.  An exception in one resume's turn (a file its decoder rejects, a
    reply that fails the second parse, a reply that is not an object, a
    value of the wrong type) ends the whole run with that exception, when
    the turns before it complete.  The rows recorded for the resumes before
    it are lost: no download is offered.  The resumes after it have no
    effect on the run: with any other files in their place, as many, the run
    is the same. *)
Theorem exception_in_a_turn_ends_the_run (generate : str -> reply)
    (jd_input linkedin_url : str) (pre post : list uploaded_file) (f : uploaded_file)
    (e : exn) :
  is_empty (strip jd_input) = false ->
  Forall (fun p => exists rows, turn generate jd_input linkedin_url p = Ok rows) pre ->
  turn generate jd_input linkedin_url f = Raise e ->
  outcome (evaluate_resumes generate jd_input (pre ++ f :: post) linkedin_url) = Raise e /\
  (forall data,
      ~ In (st_download_button data)
           (trace (evaluate_resumes generate jd_input (pre ++ f :: post) linkedin_url))) /\
  (forall post',
      List.length post' = List.length post ->
      evaluate_resumes generate jd_input (pre ++ f :: post') linkedin_url
      = evaluate_resumes generate jd_input (pre ++ f :: post) linkedin_url).
Proof.
  intros Hjd Hpre Hraise.
  pose proof (outcome_evaluate_loop_raise generate jd_input linkedin_url
                (List.length (pre ++ f :: post)) f post e Hraise pre 0 [] Hpre) as Hloop.
  assert (Hrun : evaluate_resumes generate jd_input (pre ++ f :: post) linkedin_url
                 = (st_progress
                      :: trace (evaluate_loop generate jd_input linkedin_url
                                  (List.length (pre ++ f :: post)) 0 (pre ++ f :: post) []),
                    Raise e)).
  { rewrite (evaluate_resumes_accepted _ _ _ _ (accepted_app jd_input pre post f Hjd)).
    destruct (evaluate_loop generate jd_input linkedin_url
                (List.length (pre ++ f :: post)) 0 (pre ++ f :: post) [])
      as [t [rows|e']]; cbn [outcome snd] in Hloop;
      [discriminate Hloop | injection Hloop as ->; reflexivity]. }
  split; [|split].
  - rewrite Hrun. reflexivity.
  - intros data. rewrite Hrun. cbn [trace fst].
    intros [Hin | Hin]; [discriminate Hin|].
    pose proof (turn_events_evaluate_loop generate jd_input linkedin_url
                  (List.length (pre ++ f :: post)) (pre ++ f :: post) 0 []) as Hall.
    rewrite Forall_forall in Hall. specialize (Hall _ Hin). discriminate Hall.
  - intros post' Hlen.
    rewrite !(evaluate_resumes_accepted _ _ _ _ (accepted_app jd_input pre _ f Hjd)).
    assert (Htotal : List.length (pre ++ f :: post') = List.length (pre ++ f :: post))
      by (rewrite !length_app; simpl; lia).
    rewrite Htotal.
    rewrite (evaluate_loop_stops generate jd_input linkedin_url
               (List.length (pre ++ f :: post)) f post' post e Hraise pre 0 []).
    reflexivity.
Qed.

Lemma exception_in_a_turn_ends_the_run_witness :
  outcome (evaluate_resumes obliging (lit "Data JD") four_resumes [])
  = Raise (DecoderError (lit "EOF marker not found")) /\
  forall data,
    ~ In (st_download_button data)
         (trace (evaluate_resumes obliging (lit "Data JD") four_resumes [])).
Proof.
  destruct (exception_in_a_turn_ends_the_run obliging (lit "Data JD") []
              [docx (lit "a.docx") (lit "x"); docx (lit "b.docx") (lit "y")]
              [docx (lit "d.docx") (lit "z")] broken_pdf
              (DecoderError (lit "EOF marker not found")))
    as (Hout & Hdown & _).
  - reflexivity.
  - repeat constructor; eexists; vm_compute; reflexivity.
  - vm_compute. reflexivity.
  - split; [exact Hout | exact Hdown].
Defined.

(** X10.  The message that the evaluation is complete, and the balloons,
    are shown exactly when the run is accepted (a file, and a job
    description that is not blank) and no turn raises: then they are the last
    two things shown.  A rejected run and a run ended by an exception show
    neither. *)
Theorem success_shown_iff_run_completes (generate : str -> reply) (jd_input : str)
    (uploaded_files : list uploaded_file) (linkedin_url : str) :
  (In (st_success ([9989%N] ++ lit " Evaluation complete."))
      (trace (evaluate_resumes generate jd_input uploaded_files linkedin_url))
   <-> accepted jd_input uploaded_files = true /\
       exists rows,
         outcome (evaluate_resumes generate jd_input uploaded_files linkedin_url) = Ok rows) /\
  (In st_balloons (trace (evaluate_resumes generate jd_input uploaded_files linkedin_url))
   <-> accepted jd_input uploaded_files = true /\
       exists rows,
         outcome (evaluate_resumes generate jd_input uploaded_files linkedin_url) = Ok rows) /\
  (accepted jd_input uploaded_files = true ->
   forall rows,
     outcome (evaluate_resumes generate jd_input uploaded_files linkedin_url) = Ok rows ->
     exists shown,
       trace (evaluate_resumes generate jd_input uploaded_files linkedin_url)
       = shown ++ [st_success ([9989%N] ++ lit " Evaluation complete."); st_balloons]).
Proof.
  destruct (accepted jd_input uploaded_files) eqn:Hacc.
  - rewrite (evaluate_resumes_accepted generate jd_input uploaded_files linkedin_url Hacc).
    pose proof (turn_events_evaluate_loop generate jd_input linkedin_url
                  (List.length uploaded_files) uploaded_files 0 []) as Hall.
    rewrite Forall_forall in Hall.
    assert (Hcompleted :
              forall (t download : list event) (rows : list row),
                (In (st_success ([9989%N] ++ lit " Evaluation complete."))
                    (st_progress :: t ++ download
                       ++ [st_success ([9989%N] ++ lit " Evaluation complete.");
                           st_balloons])
                 <-> true = true /\ exists rows', @Ok (list row) rows = Ok rows') /\
                (In st_balloons
                    (st_progress :: t ++ download
                       ++ [st_success ([9989%N] ++ lit " Evaluation complete.");
                           st_balloons])
                 <-> true = true /\ exists rows', @Ok (list row) rows = Ok rows') /\
                (true = true ->
                 forall rows',
                   @Ok (list row) rows = Ok rows' ->
                   exists shown,
                     st_progress :: t ++ download
                       ++ [st_success ([9989%N] ++ lit " Evaluation complete.");
                           st_balloons]
                     = shown ++ [st_success ([9989%N] ++ lit " Evaluation complete.");
                                 st_balloons])).
    { intros t download rows. split; [|split].
      - split; [intros _; split; [reflexivity | eauto]|].
        intros _. right. apply in_or_app. right. apply in_or_app. right. left. reflexivity.
      - split; [intros _; split; [reflexivity | eauto]|].
        intros _. right. apply in_or_app. right. apply in_or_app. right.
        right. left. reflexivity.
      - intros _ rows' _. exists (st_progress :: t ++ download).
        simpl. rewrite <- app_assoc. reflexivity. }
    assert (Hraised :
              forall (t : list event) (e : exn),
                (forall x, In x t -> turn_event x = true) ->
                (In (st_success ([9989%N] ++ lit " Evaluation complete.")) (st_progress :: t)
                 <-> true = true /\ exists rows', @Raise (list row) e = Ok rows') /\
                (In st_balloons (st_progress :: t)
                 <-> true = true /\ exists rows', @Raise (list row) e = Ok rows') /\
                (true = true ->
                 forall rows',
                   @Raise (list row) e = Ok rows' ->
                   exists shown,
                     st_progress :: t
                     = shown ++ [st_success ([9989%N] ++ lit " Evaluation complete.");
                                 st_balloons])).
    { intros t e Ht. split; [|split].
      - split; [|intros [_ [rows H]]; discriminate H].
        intros [H | H]; [discriminate H|]. specialize (Ht _ H). discriminate Ht.
      - split; [|intros [_ [rows H]]; discriminate H].
        intros [H | H]; [discriminate H|]. specialize (Ht _ H). discriminate Ht.
      - intros _ rows H. discriminate H. }
    destruct (evaluate_loop generate jd_input linkedin_url (List.length uploaded_files) 0
                uploaded_files []) as [t [rows|e]]; cbn [trace fst] in Hall.
    + destruct rows as [|r rows]; cbn [is_empty trace outcome fst snd].
      * exact (Hcompleted t [] []).
      * destruct (encode_utf8 (to_csv (pd_DataFrame (r :: rows)))) as [data|e].
        -- exact (Hcompleted t [st_download_button data] (r :: rows)).
        -- exact (Hraised t e Hall).
    + exact (Hraised t e Hall).
  - rewrite (evaluate_resumes_rejected generate jd_input uploaded_files linkedin_url Hacc).
    cbn [trace outcome fst snd]. split; [|split].
    + split; [intros [H | []]; discriminate H | intros [H _]; discriminate H].
    + split; [intros [H | []]; discriminate H | intros [H _]; discriminate H].
    + intros H. discriminate H.
Qed.

(** *** Which runs are rejected *)

Lemma lstrip_nil (s : str) : lstrip s = [] -> forallb isspace s = true.
Proof.
  induction s as [|c s IH]; simpl; [reflexivity|].
  destruct (isspace c); [exact IH | discriminate].
Qed.

Lemma lstrip_head (s : str) (c : N) (t : str) : lstrip s = c :: t -> isspace c = false.
Proof.
  induction s as [|a s IH]; simpl; [discriminate|].
  destruct (isspace a) eqn:E; [exact IH|]. intros [= <- <-]. exact E.
Qed.

Lemma strip_nil (s : str) : strip s = [] -> forallb isspace s = true.
Proof.
  unfold strip, rstrip. intros H.
  assert (Hrev : lstrip (rev (lstrip s)) = []).
  { destruct (lstrip (rev (lstrip s))) as [|c t]; [reflexivity|].
    simpl in H. apply app_eq_nil in H as [_ H]. discriminate H. }
  apply lstrip_nil in Hrev.
  destruct (lstrip s) as [|c t] eqn:E; [exact (lstrip_nil s E)|].
  exfalso. pose proof (lstrip_head s c t E) as Hc.
  rewrite forallb_forall in Hrev.
  rewrite (Hrev c) in Hc; [discriminate Hc|].
  apply in_rev. rewrite rev_involutive. left. reflexivity.
Qed.

(** X11.  A run is rejected exactly when no file is uploaded or the job
    description holds nothing but whitespace (the empty text included).  In
    every other case, a job description of one visible character being
    enough, the run is accepted: the progress bar is shown first and the
    loop runs. *)
Theorem run_rejected_iff_no_file_or_blank (generate : str -> reply) (jd_input : str)
    (uploaded_files : list uploaded_file) (linkedin_url : str) :
  (evaluate_resumes generate jd_input uploaded_files linkedin_url
   = ([st_error (lit "Please provide both JD and at least one resume.")], Ok [])
   <-> uploaded_files = [] \/ forallb isspace jd_input = true) /\
  (~ (uploaded_files = [] \/ forallb isspace jd_input = true) ->
   exists shown,
     trace (evaluate_resumes generate jd_input uploaded_files linkedin_url)
     = st_progress :: shown).
Proof.
  assert (Hblank : accepted jd_input uploaded_files = false <->
                   uploaded_files = [] \/ forallb isspace jd_input = true).
  { unfold accepted. rewrite negb_false_iff, orb_true_iff. split.
    - intros [H | H].
      + left. destruct uploaded_files; [reflexivity | discriminate H].
      + right. apply strip_nil. destruct (strip jd_input); [reflexivity | discriminate H].
    - intros [-> | H]; [left; reflexivity|].
      right. rewrite (strip_blank jd_input H). reflexivity. }
  split.
  - rewrite <- Hblank. destruct (accepted jd_input uploaded_files) eqn:Hacc.
    + rewrite (evaluate_resumes_accepted generate jd_input uploaded_files linkedin_url Hacc).
      split; [|intros H; discriminate H].
      destruct (evaluate_loop generate jd_input linkedin_url (List.length uploaded_files)
                  0 uploaded_files []) as [t [rows|e]];
        [destruct (is_empty rows);
         [|destruct (encode_utf8 (to_csv (pd_DataFrame rows)))]|];
        intros H; discriminate H.
    + rewrite (evaluate_resumes_rejected generate jd_input uploaded_files linkedin_url Hacc).
      split; reflexivity.
  - intros Hnot. rewrite <- Hblank in Hnot.
    destruct (accepted jd_input uploaded_files) eqn:Hacc; [|congruence].
    rewrite (evaluate_resumes_accepted generate jd_input uploaded_files linkedin_url Hacc).
    destruct (evaluate_loop generate jd_input linkedin_url (List.length uploaded_files)
                0 uploaded_files []) as [t [rows|e]];
      [destruct (is_empty rows);
       [|destruct (encode_utf8 (to_csv (pd_DataFrame rows)))]|];
      eexists; reflexivity.
Qed.

(** *** The requests of a run *)

Lemma requests_app (a b : list event) : requests (a ++ b) = requests a ++ requests b.
Proof. apply flat_map_app. Qed.

Lemma requests_display (t : list event) :
  Forall (fun e => display_event e = true) t -> requests t = [].
Proof.
  induction 1 as [|e t He _ IH]; [reflexivity|].
  unfold requests in *. simpl. rewrite IH. destruct e; try reflexivity; discriminate He.
Qed.

Lemma requests_input_resume_text (f : uploaded_file) :
  requests (trace (input_resume_text f)) = [].
Proof.
  unfold input_resume_text.
  destruct (endswith (name f) (lit ".pdf")).
  - destruct (pdf_pages f); reflexivity.
  - destruct (endswith (name f) (lit ".docx")); [destruct (docx_text f)|]; reflexivity.
Qed.

Lemma evaluate_resume_unread (generate : str -> reply) (jd_input linkedin_url : str)
    (total idx : nat) (f : uploaded_file) (results_data : list row) (e : exn) :
  outcome (input_resume_text f) = Raise e ->
  evaluate_resume generate jd_input linkedin_url total idx f results_data
  = (trace (input_resume_text f), Raise e).
Proof. intros H. unfold evaluate_resume. apply bind_raise. exact H. Qed.

(** One request for every file that is read, whatever comes of it. *)
Lemma requests_evaluate_resume (generate : str -> reply) (jd_input linkedin_url : str)
    (total idx : nat) (f : uploaded_file) (results_data : list row) :
  requests (trace (evaluate_resume generate jd_input linkedin_url total idx f results_data))
  = match outcome (input_resume_text f) with
    | Ok text => [resume_prompt jd_input linkedin_url text]
    | Raise _ => []
    end.
Proof.
  pose proof (requests_input_resume_text f) as Hquiet.
  destruct (input_resume_text f) as [t [text|e]] eqn:Hin; cbn [trace outcome fst snd] in *.
  - destruct (generate (resume_prompt jd_input linkedin_url text)) as [response|message]
      eqn:Hgen.
    + rewrite (evaluate_resume_answered generate jd_input linkedin_url total idx f
                 results_data t text response Hin Hgen).
      cbn [trace fst]. rewrite requests_app, Hquiet.
      change (requests (?a :: ?b :: ?l)) with (requests [a; b] ++ requests l).
      rewrite (requests_display _ (display_handle_response _ _ _ _ _)). reflexivity.
    + rewrite (evaluate_resume_failed generate jd_input linkedin_url total idx f
                 results_data t text message Hin Hgen).
      cbn [trace fst]. rewrite requests_app, Hquiet.
      change (requests (?a :: ?b :: ?c :: ?l)) with (requests [a; b; c] ++ requests l).
      rewrite (requests_display _ (display_handle_response _ _ _ _ _)). reflexivity.
  - rewrite (evaluate_resume_unread generate jd_input linkedin_url total idx f
               results_data e) by (rewrite Hin; reflexivity).
    rewrite Hin. exact Hquiet.
Qed.

Lemma requests_evaluate_loop (generate : str -> reply) (jd_input linkedin_url : str)
    (total : nat) (files : list uploaded_file) :
  forall idx results_data rows,
    outcome (evaluate_loop generate jd_input linkedin_url total idx files results_data)
    = Ok rows ->
    exists texts,
      Forall2 (fun f text => outcome (input_resume_text f) = Ok text) files texts /\
      requests (trace (evaluate_loop generate jd_input linkedin_url total idx files
                         results_data))
      = map (resume_prompt jd_input linkedin_url) texts.
Proof.
  induction files as [|f files IH]; intros idx results_data rows; simpl.
  - intros _. exists []. split; [constructor | reflexivity].
  - rewrite outcome_bind, trace_bind_cases, requests_app, requests_evaluate_resume.
    destruct (outcome (evaluate_resume generate jd_input linkedin_url total idx f
                         results_data)) as [rows1|e] eqn:E; [|discriminate].
    intros Hrest. destruct (IH _ _ _ Hrest) as (texts & Hall & Hreq).
    destruct (outcome (input_resume_text f)) as [text|e] eqn:Hin.
    + exists (text :: texts). split; [constructor; assumption|].
      rewrite Hreq. reflexivity.
    + rewrite (evaluate_resume_unread generate jd_input linkedin_url total idx f
                 results_data e Hin) in E.
      discriminate E.
Qed.

(** X12.  In a run that is accepted and completes, exactly one request is
    sent to the model for every uploaded resume, in upload order, and no
    other: the request for a resume is the prompt built from its extracted
    text.  Nothing is sent twice, whatever the reply was (an error, a text
    that cannot be parsed). *)
Theorem one_request_per_resume_in_order (generate : str -> reply) (jd_input : str)
    (uploaded_files : list uploaded_file) (linkedin_url : str)
    (shown : list event) (rows : list row) :
  accepted jd_input uploaded_files = true ->
  evaluate_resumes generate jd_input uploaded_files linkedin_url = (shown, Ok rows) ->
  exists texts,
    Forall2 (fun f text => outcome (input_resume_text f) = Ok text) uploaded_files texts /\
    requests shown = map (resume_prompt jd_input linkedin_url) texts /\
    List.length (requests shown) = List.length uploaded_files.
Proof.
  intros Hacc Hrun.
  destruct (evaluate_resumes_completes generate jd_input uploaded_files linkedin_url
              shown rows Hacc Hrun) as [Hout Hshown].
  destruct (requests_evaluate_loop generate jd_input linkedin_url
              (List.length uploaded_files) uploaded_files 0 [] rows Hout)
    as (texts & Hall & Hreq).
  exists texts. split; [exact Hall|].
  assert (Hrequests : requests shown = map (resume_prompt jd_input linkedin_url) texts).
  { rewrite Hshown.
    change (requests (st_progress :: ?l)) with (requests l).
    rewrite requests_app, Hreq. destruct rows; simpl; apply app_nil_r. }
  split; [exact Hrequests|].
  rewrite Hrequests, length_map. symmetry. exact (Forall2_length Hall).
Qed.

Lemma one_request_per_resume_in_order_witness :
  requests (trace (evaluate_resumes scripted (lit "Data JD") three_resumes []))
  = map (resume_prompt (lit "Data JD") []) [lit "x"; lit "yy"; lit "zzz"].
Proof.
  destruct (one_request_per_resume_in_order scripted (lit "Data JD") three_resumes []
              (trace (evaluate_resumes scripted (lit "Data JD") three_resumes []))
              three_rows)
    as (texts & Hall & Hreq & _).
  - reflexivity.
  - vm_compute. reflexivity.
  - rewrite Hreq. f_equal.
    inversion Hall as [|? ? ? ? H1 Hall1]; subst.
    inversion Hall1 as [|? ? ? ? H2 Hall2]; subst.
    inversion Hall2 as [|? ? ? ? H3 Hall3]; subst.
    inversion Hall3; subst.
    injection H1 as <-. injection H2 as <-. injection H3 as <-. reflexivity.
Defined.

(** *** The progress bar *)

Lemma progress_values_app (a b : list event) :
  progress_values (a ++ b) = progress_values a ++ progress_values b.
Proof. apply flat_map_app. Qed.

Lemma progress_values_input_resume_text (f : uploaded_file) :
  progress_values (trace (input_resume_text f)) = [].
Proof.
  unfold input_resume_text.
  destruct (endswith (name f) (lit ".pdf")).
  - destruct (pdf_pages f); reflexivity.
  - destruct (endswith (name f) (lit ".docx")); [destruct (docx_text f)|]; reflexivity.
Qed.

(** What the loop does with a reply, by what the parser makes of it. *)
Lemma handle_response_cases (total idx : nat) (file_name response : str)
    (results_data : list row) :
  handle_response total idx file_name response results_data
  = match outcome (parse_response response) with
    | Ok (Some response_json) =>
      record_result total idx file_name response_json results_data
    | Ok None => ([st_error (lit "Failed to parse JSON.")], Ok results_data)
    | Raise e => ([], Raise e)
    end.
Proof.
  unfold handle_response, parse_response.
  destruct (loads response) as [v|]; [rewrite bind_ret; reflexivity|].
  destruct (Re.search_braces response) as [group|]; [|reflexivity].
  destruct (loads group) as [v|]; [rewrite bind_ret; reflexivity | reflexivity].
Qed.

Lemma decoded_read (generate : str -> reply) (jd_input linkedin_url : str)
    (f : uploaded_file) (t : list event) (text : str) :
  input_resume_text f = (t, Ok text) ->
  decoded generate jd_input linkedin_url f
  = match generate (resume_prompt jd_input linkedin_url text) with
    | Reply response => outcome (parse_response response)
    | Fails _ => Ok (Some fallback)
    end.
Proof.
  intros Hin. unfold decoded, reply_of. rewrite Hin. cbn [outcome snd].
  rewrite build_prompt_layout. fold (resume_prompt jd_input linkedin_url text).
  unfold get_gemini_response. rewrite bind_emit.
  destruct (generate (resume_prompt jd_input linkedin_url text)) as [response|message].
  - reflexivity.
  - rewrite bind_emit, dumps_fallback. cbn [outcome snd ret].
    rewrite (parse_response_direct fallback_text fallback loads_fallback). reflexivity.
Qed.

Lemma progress_values_record_result (total idx : nat) (file_name : str)
    (response_json : json) (results_data rows : list row) :
  outcome (record_result total idx file_name response_json results_data) = Ok rows ->
  progress_values (trace (record_result total idx file_name response_json results_data))
  = [(idx + 1, total)].
Proof.
  intros H.
  destruct (record_result_completes _ _ _ _ _ _ H)
    as (pairs & count & joined & -> & Hmatch & Htexts & Hlen & Hjoin & Hjoined & _).
  rewrite (record_result_shown total idx file_name pairs results_data count joined
             Hmatch Htexts Hlen Hjoin Hjoined).
  cbn [trace fst]. rewrite !progress_values_app.
  destruct (py_bool _); reflexivity.
Qed.

(** The progress bar moves in a turn exactly when the reply is decoded. *)
Lemma progress_values_evaluate_resume (generate : str -> reply)
    (jd_input linkedin_url : str) (total idx : nat) (f : uploaded_file)
    (results_data rows : list row) :
  outcome (evaluate_resume generate jd_input linkedin_url total idx f results_data)
  = Ok rows ->
  progress_values
    (trace (evaluate_resume generate jd_input linkedin_url total idx f results_data))
  = match decoded generate jd_input linkedin_url f with
    | Ok (Some _) => [(idx + 1, total)]
    | _ => []
    end.
Proof.
  pose proof (progress_values_input_resume_text f) as Hquiet.
  destruct (input_resume_text f) as [t [text|e]] eqn:Hin; cbn [trace fst] in Hquiet.
  - rewrite (decoded_read generate jd_input linkedin_url f t text Hin).
    destruct (generate (resume_prompt jd_input linkedin_url text)) as [response|message]
      eqn:Hgen.
    + rewrite (evaluate_resume_answered generate jd_input linkedin_url total idx f
                 results_data t text response Hin Hgen).
      cbn [trace outcome fst snd]. rewrite progress_values_app, Hquiet.
      change (progress_values (?a :: ?b :: ?l))
        with (progress_values [a; b] ++ progress_values l).
      rewrite handle_response_cases.
      destruct (outcome (parse_response response)) as [[v|]|e].
      * intros H. rewrite (progress_values_record_result _ _ _ _ _ _ H). reflexivity.
      * reflexivity.
      * discriminate.
    + rewrite (evaluate_resume_failed generate jd_input linkedin_url total idx f
                 results_data t text message Hin Hgen).
      cbn [trace outcome fst snd]. rewrite progress_values_app, Hquiet.
      change (progress_values (?a :: ?b :: ?c :: ?l))
        with (progress_values [a; b; c] ++ progress_values l).
      rewrite handle_response_cases.
      rewrite (parse_response_direct fallback_text fallback loads_fallback).
      cbn [outcome snd].
      intros H. rewrite (progress_values_record_result _ _ _ _ _ _ H). reflexivity.
  - rewrite (evaluate_resume_unread generate jd_input linkedin_url total idx f
               results_data e) by (rewrite Hin; reflexivity).
    discriminate.
Qed.

Lemma progress_values_evaluate_loop (generate : str -> reply)
    (jd_input linkedin_url : str) (total : nat) (files : list uploaded_file) :
  forall idx results_data rows,
    outcome (evaluate_loop generate jd_input linkedin_url total idx files results_data)
    = Ok rows ->
    progress_values
      (trace (evaluate_loop generate jd_input linkedin_url total idx files results_data))
    = map (fun i => (i + 1, total)) (recorded generate jd_input linkedin_url idx files) /\
    List.length rows
    = List.length results_data
      + List.length (recorded generate jd_input linkedin_url idx files) /\
    List.length (recorded generate jd_input linkedin_url idx files)
    + List.length (filter (skipped generate jd_input linkedin_url) files)
    = List.length files.
Proof.
  induction files as [|f files IH]; intros idx results_data rows.
  - simpl. intros [= <-]. repeat split; lia.
  - cbn [evaluate_loop recorded filter].
    rewrite outcome_bind, trace_bind_cases, progress_values_app.
    destruct (outcome (evaluate_resume generate jd_input linkedin_url total idx f
                         results_data)) as [rows1|e] eqn:E; [|discriminate].
    intros Hrest. destruct (IH _ _ _ Hrest) as (Hvalues & Hlen & Hsum).
    rewrite (progress_values_evaluate_resume _ _ _ _ _ _ _ _ E), Hvalues.
    destruct (evaluate_resume_rows _ _ _ _ _ _ _ _ E) as [-> Hf].
    unfold skipped at 1.
    destruct (decoded generate jd_input linkedin_url f) as [[v|]|e]; try contradiction.
    + destruct v; try contradiction. destruct Hf as (joined & _ & Hrow).
      rewrite Hrow, length_app in Hlen. simpl in *. split; [reflexivity | split; lia].
    + rewrite Hf, app_nil_r in Hlen. simpl in *. split; [reflexivity | split; lia].
Qed.

(** X13.  In a run that is accepted and completes, the progress bar is
    moved once for every resume whose reply was decoded, and for no other:
    after the resume at position idx (from 0) it stands at (idx + 1) / total,
    total being the number of uploaded files.  For a skipped resume it stays
    where it was, so the bar ends below 1 when the last resume is skipped.
    The bar moves as many times as rows are recorded, and every resume is
    either recorded or skipped. *)
Theorem progress_follows_recorded_resumes (generate : str -> reply) (jd_input : str)
    (uploaded_files : list uploaded_file) (linkedin_url : str)
    (shown : list event) (rows : list row) :
  accepted jd_input uploaded_files = true ->
  evaluate_resumes generate jd_input uploaded_files linkedin_url = (shown, Ok rows) ->
  progress_values shown
  = map (fun idx => (idx + 1, List.length uploaded_files))
        (recorded generate jd_input linkedin_url 0 uploaded_files) /\
  List.length (progress_values shown) = List.length rows /\
  List.length rows
  + List.length (filter (skipped generate jd_input linkedin_url) uploaded_files)
  = List.length uploaded_files.
Proof.
  intros Hacc Hrun.
  destruct (evaluate_resumes_completes generate jd_input uploaded_files linkedin_url
              shown rows Hacc Hrun) as [Hout Hshown].
  destruct (progress_values_evaluate_loop generate jd_input linkedin_url
              (List.length uploaded_files) uploaded_files 0 [] rows Hout)
    as (Hvalues & Hlen & Hsum).
  assert (Hprogress : progress_values shown
                      = map (fun idx => (idx + 1, List.length uploaded_files))
                            (recorded generate jd_input linkedin_url 0 uploaded_files)).
  { rewrite Hshown.
    change (progress_values (st_progress :: ?l)) with (progress_values l).
    rewrite progress_values_app, Hvalues. destruct rows; simpl; apply app_nil_r. }
  split; [exact Hprogress|]. simpl in Hlen. split.
  - rewrite Hprogress, length_map. lia.
  - lia.
Qed.

Lemma progress_follows_recorded_resumes_witness :
  progress_values (trace (evaluate_resumes scripted (lit "Data JD") three_resumes []))
  = [(1, 3); (3, 3)].
Proof.
  destruct (progress_follows_recorded_resumes scripted (lit "Data JD") three_resumes []
              (trace (evaluate_resumes scripted (lit "Data JD") three_resumes []))
              three_rows)
    as (Hvalues & _).
  - reflexivity.
  - vm_compute. reflexivity.
  - rewrite Hvalues. vm_compute. reflexivity.
Defined.

(** *** The size of the prompt *)

Lemma prompt_layout_length (text jd linkedin : str) :
  List.length (prompt_layout text jd linkedin)
  = 268 + List.length text + List.length jd + 2 * List.length linkedin.
Proof.
  unfold prompt_layout. rewrite !length_app.
  repeat match goal with
         | |- context [List.length (lit ?s)] =>
           let n := eval vm_compute in (List.length (lit s)) in
           change (List.length (lit s)) with n
         | |- context [List.length (litq ?s)] =>
           let n := eval vm_compute in (List.length (litq s)) in
           change (List.length (litq s)) with n
         end.
  change (List.length nl) with 1. lia.
Qed.

(** X14.  The prompt is always built (braces and any other character in the
    three inputs are embedded as they are), and its length is that of the
    fixed text, 268 characters, plus the resume text up to 4000, the job
    description up to 1000, and the LinkedIn text twice, which is not cut:
    only the part of the resume and of the job description is bounded. *)
Theorem prompt_length (resume_text jd_input linkedin_url : str) :
  exists prompt,
    build_prompt resume_text jd_input linkedin_url = Ok prompt /\
    List.length prompt
    = 268 + Nat.min 4000 (List.length resume_text)
      + Nat.min 1000 (List.length jd_input) + 2 * List.length linkedin_url /\
    List.length prompt <= 268 + 4000 + 1000 + 2 * List.length linkedin_url.
Proof.
  eexists. split; [apply build_prompt_layout|].
  rewrite prompt_layout_length, !length_firstn. lia.
Qed.

(** *** The page around the run *)

Lemma run_not_in_inputs (api_key : str) (e : event) :
  ~ In (Page.run e) (Page.inputs api_key).
Proof.
  unfold Page.inputs. simpl. intros H.
  repeat (destruct H as [H | H]; [discriminate H|]). exact H.
Qed.

Lemma run_not_in_footer (e : event) : ~ In (Page.run e) Page.footer.
Proof.
  unfold Page.footer. simpl. intros H.
  repeat (destruct H as [H | H]; [discriminate H|]). exact H.
Qed.

Lemma run_in_map (e : event) (shown : list event) :
  In (Page.run e) (map Page.run shown) -> In e shown.
Proof.
  intros H. apply in_map_iff in H as (x & [= ->] & Hx). exact Hx.
Qed.

(** X15.  Without the [google.generativeai] module, or without a value for
    GOOGLE_API_KEY (unset, or set to the empty text), the page is one error
    message and the script stops there: no input is offered and, whatever
    the user had entered or clicked, nothing is evaluated.  Every event of an
    evaluation on the page, hence every file decoded and every request sent
    to the model, comes from a run that the module, a key that is not empty
    and a click on the button have allowed. *)
Theorem page_evaluates_only_with_module_key_and_click (s : Page.session) :
  (Page.genai_installed s = false \/
   Page.GOOGLE_API_KEY s = None \/ Page.GOOGLE_API_KEY s = Some [] ->
   exists msg, Page.script s = ([Page.error msg], Page.Stopped)) /\
  (forall e,
      In (Page.run e) (fst (Page.script s)) ->
      Page.genai_installed s = true /\
      (exists c key, Page.GOOGLE_API_KEY s = Some (c :: key)) /\
      Page.button s = true /\
      In e (trace (evaluate_resumes (Page.generate s) (Page.jd_input s)
                     (Page.uploaded_files s) (Page.linkedin_url s)))).
Proof.
  unfold Page.script. split.
  - intros [H | [H | H]]; rewrite H.
    + eexists. reflexivity.
    + destruct (negb (Page.genai_installed s)); eexists; reflexivity.
    + destruct (negb (Page.genai_installed s)); eexists; reflexivity.
  - intros e.
    destruct (Page.genai_installed s); cbn [negb];
      [|intros [H | []]; discriminate H].
    destruct (Page.GOOGLE_API_KEY s) as [[|c key]|];
      try (intros [H | []]; discriminate H).
    destruct (Page.button s).
    + destruct (evaluate_resumes (Page.generate s) (Page.jd_input s)
                  (Page.uploaded_files s) (Page.linkedin_url s)) as [shown [rows|e']];
        cbn [fst trace]; intros H.
      * apply in_app_or in H as [H | H]; [exfalso; exact (run_not_in_inputs _ _ H)|].
        apply in_app_or in H as [H | H]; [|exfalso; exact (run_not_in_footer _ H)].
        repeat split; eauto. exact (run_in_map _ _ H).
      * apply in_app_or in H as [H | H]; [exfalso; exact (run_not_in_inputs _ _ H)|].
        repeat split; eauto. exact (run_in_map _ _ H).
    + cbn [fst]. intros H.
      apply in_app_or in H as [H | H];
        [exfalso; exact (run_not_in_inputs _ _ H) | exfalso; exact (run_not_in_footer _ H)].
Qed.

Lemma caption_not_in_inputs (api_key text : str) :
  ~ In (Page.caption text) (Page.inputs api_key).
Proof.
  unfold Page.inputs. simpl. intros H.
  repeat (destruct H as [H | H]; [discriminate H|]). exact H.
Qed.

Lemma caption_not_in_map (text : str) (shown : list event) :
  ~ In (Page.caption text) (map Page.run shown).
Proof. intros H. apply in_map_iff in H as (x & H & _). discriminate H. Qed.

(** X16.  The footer of the page (its caption) is shown exactly when the
    script runs to its last line.  It does so when the module and the key
    are there and either the button was not clicked or the run it started
    ended without an exception, a rejected run included.  An exception in
    the run is not caught anywhere: it ends the script, and the page stops
    after what the run had shown, without the footer. *)
Theorem footer_shown_iff_script_completes (s : Page.session) :
  (In (Page.caption ([128196%N] ++ lit " Powered by Google Gemini | Styled with "
                     ++ [10084%N; 65039%N] ++ lit " using Streamlit"))
      (fst (Page.script s))
   <-> snd (Page.script s) = Page.Completed) /\
  (snd (Page.script s) = Page.Completed
   <-> Page.genai_installed s = true /\
       (exists c key, Page.GOOGLE_API_KEY s = Some (c :: key)) /\
       (Page.button s = true ->
        exists rows,
          outcome (evaluate_resumes (Page.generate s) (Page.jd_input s)
                     (Page.uploaded_files s) (Page.linkedin_url s)) = Ok rows)) /\
  (forall e,
      snd (Page.script s) = Page.Raised e
      <-> Page.genai_installed s = true /\
          (exists c key, Page.GOOGLE_API_KEY s = Some (c :: key)) /\
          Page.button s = true /\
          outcome (evaluate_resumes (Page.generate s) (Page.jd_input s)
                     (Page.uploaded_files s) (Page.linkedin_url s)) = Raise e).
Proof.
  unfold Page.script.
  destruct (Page.genai_installed s); cbn [negb].
  2: { cbn [fst snd]. split; [|split].
       - split; [intros [H | []]; discriminate H | discriminate].
       - split; [discriminate | intros [H _]; discriminate H].
       - intros e. split; [discriminate | intros [H _]; discriminate H]. }
  destruct (Page.GOOGLE_API_KEY s) as [[|c key]|].
  1, 3: cbn [fst snd]; split; [|split];
    [ split; [intros [H | []]; discriminate H | discriminate]
    | split; [discriminate | intros (_ & (c0 & key0 & H) & _); discriminate H]
    | intros e; split; [discriminate | intros (_ & (c0 & key0 & H) & _); discriminate H] ].
  destruct (Page.button s).
  - destruct (evaluate_resumes (Page.generate s) (Page.jd_input s)
                (Page.uploaded_files s) (Page.linkedin_url s)) as [shown [rows|e']];
      cbn [fst snd outcome].
    + split; [|split].
      * split; [reflexivity|]. intros _.
        apply in_or_app. right. apply in_or_app. right. do 2 right. left. reflexivity.
      * split; [|reflexivity]. intros _. repeat split; eauto.
      * intros e. split; [discriminate | intros (_ & _ & _ & H); discriminate H].
    + split; [|split].
      * split; [|discriminate]. intros H. exfalso.
        apply in_app_or in H as [H | H];
          [exact (caption_not_in_inputs _ _ H) | exact (caption_not_in_map _ _ H)].
      * split; [discriminate|]. intros (_ & _ & H).
        destruct (H eq_refl) as [rows Hrows]. discriminate Hrows.
      * intros e. split.
        -- intros [= ->]. repeat split; eauto.
        -- intros (_ & _ & _ & [= ->]). reflexivity.
  - cbn [fst snd]. split; [|split].
    + split; [reflexivity|]. intros _.
      apply in_or_app. right. do 2 right. left. reflexivity.
    + split; [|reflexivity]. intros _. repeat split; eauto. discriminate.
    + intros e. split; [discriminate | intros (_ & _ & H & _); discriminate H].
Qed.

(** *** The keyword extractor *)

Module WordsFacts.

Import Words.

Lemma is_letter_word (c : N) : is_letter c = true -> is_word c = true.
Proof.
  unfold is_letter, is_word. intros H.
  apply orb_prop in H as [H | H]; apply andb_prop in H as [H1 H2];
    rewrite H1, H2; cbn [andb]; repeat (rewrite ?orb_true_r; cbn [orb]); reflexivity.
Qed.

Lemma not_word_not_letter (c : N) : is_word c = false -> is_letter c = false.
Proof.
  intros H. destruct (is_letter c) eqn:E; [|reflexivity].
  rewrite (is_letter_word c E) in H. discriminate H.
Qed.

Lemma last_of_cons (prev : option N) (c : N) (m : str) :
  last_of prev (c :: m) = last_of (Some c) m.
Proof. unfold last_of. simpl. destruct (rev m); reflexivity. Qed.

Lemma last_of_app (prev : option N) (m p : str) :
  last_of prev (m ++ p) = last_of (last_of prev m) p.
Proof.
  revert prev. induction m as [|c m IH]; intros prev; [reflexivity|].
  simpl app. rewrite !last_of_cons. apply IH.
Qed.

Lemma last_of_in (prev : option N) (p : str) :
  p <> [] -> exists x, last_of prev p = Some x /\ In x p.
Proof.
  intros Hne. unfold last_of. destruct (rev p) as [|x t] eqn:E.
  - exfalso. apply Hne. rewrite <- (rev_involutive p), E. reflexivity.
  - exists x. split; [reflexivity|]. apply in_rev. rewrite E. left. reflexivity.
Qed.

Lemma last_of_none (p : str) : word_before (last_of None p) = word_at (rev p).
Proof. unfold last_of. destruct (rev p); reflexivity. Qed.

(** What the pattern matches at a position. *)
Lemma letters_boundary_some (s : str) :
  forall min prev m r,
    letters_boundary min prev s = Some (m, r) ->
    s = m ++ r /\ min <= List.length m /\
    Forall (fun c => is_letter c = true) m /\
    boundary (last_of prev m) r = true.
Proof.
  assert (Hstop : forall min prev (s0 m r : str),
             (if Nat.eqb min 0 && boundary prev s0 then Some ([], s0) else None)
             = Some (m, r) ->
             s0 = m ++ r /\ min <= List.length m /\
             Forall (fun c => is_letter c = true) m /\
             boundary (last_of prev m) r = true).
  { intros min prev s0 m r H.
    destruct (Nat.eqb_spec min 0) as [->|]; [|discriminate H].
    destruct (boundary prev s0) eqn:E; [|discriminate H].
    injection H as <- <-. repeat split; auto. }
  induction s as [|c t IH]; intros min prev m r; simpl.
  - apply Hstop.
  - destruct (is_letter c) eqn:Hc; [|apply Hstop].
    destruct (letters_boundary (Nat.pred min) (Some c) t) as [[m' r']|] eqn:E;
      [|apply Hstop].
    intros [= <- <-]. destruct (IH _ _ _ _ E) as (-> & Hmin & Hall & Hb).
    rewrite last_of_cons. repeat split; auto. simpl. lia.
Qed.

(** The repetition is greedy: it takes the whole run of letters. *)
Lemma letters_boundary_run (m : str) :
  forall min prev r,
    Forall (fun c => is_letter c = true) m ->
    min <= List.length m ->
    word_at r = false ->
    (m = [] -> word_before prev = true) ->
    letters_boundary min prev (m ++ r) = Some (m, r).
Proof.
  induction m as [|c m IH]; intros min prev r Hall Hmin Hr Hprev.
  - simpl in Hmin. assert (min = 0) as -> by lia. simpl app.
    assert (Hb : boundary prev r = true)
      by (unfold boundary; rewrite (Hprev eq_refl), Hr; reflexivity).
    destruct r as [|d t]; simpl.
    + rewrite Hb. reflexivity.
    + simpl in Hr. rewrite (not_word_not_letter d Hr).
      change (match t with [] => is_word d | _ => is_word d end) with (is_word d).
      rewrite Hb. reflexivity.
  - inversion Hall as [|? ? Hc Hm]; subst. simpl. rewrite Hc.
    rewrite (IH (Nat.pred min) (Some c) r Hm); [reflexivity | simpl in Hmin; lia | exact Hr|].
    intros _. exact (is_letter_word c Hc).
Qed.

(** Two runs of letters that start at the same place and end before a
    character that is not a word character are the same run. *)
Lemma run_unique (m : str) :
  forall w r q,
    m ++ r = w ++ q ->
    Forall (fun c => is_letter c = true) m ->
    Forall (fun c => is_letter c = true) w ->
    word_at r = false -> word_at q = false ->
    m = w /\ r = q.
Proof.
  induction m as [|c m IH]; intros w r q Heq Hm Hw Hr Hq.
  - destruct w as [|d w]; [auto|]. exfalso.
    simpl in Heq. subst r. simpl in Hr.
    inversion Hw as [|? ? Hd _]; subst.
    rewrite (is_letter_word d Hd) in Hr. discriminate Hr.
  - destruct w as [|d w].
    + exfalso. simpl in Heq. subst q. simpl in Hq.
      inversion Hm as [|? ? Hc _]; subst.
      rewrite (is_letter_word c Hc) in Hq. discriminate Hq.
    + simpl in Heq. injection Heq as -> Heq.
      inversion Hm; inversion Hw; subst.
      destruct (IH w r q Heq) as [-> ->]; auto.
Qed.

(** The words found from a position on: those of the text left. *)
Lemma findall_from_words (fuel : nat) :
  forall prev s,
    List.length s <= fuel ->
    forall w,
      In w (findall_from fuel prev s) <->
      exists p q,
        s = p ++ w ++ q /\ 3 <= List.length w /\
        Forall (fun c => is_letter c = true) w /\
        word_before (last_of prev p) = false /\ word_at q = false.
Proof.
  assert (Hempty : forall prev (w : str),
             (exists p q, @nil N = p ++ w ++ q /\ 3 <= List.length w /\
                          Forall (fun c => is_letter c = true) w /\
                          word_before (last_of prev p) = false /\ word_at q = false)
             -> False).
  { intros prev w (p & q & Heq & Hlen & _).
    symmetry in Heq. apply app_eq_nil in Heq as [_ Heq].
    apply app_eq_nil in Heq as [-> _]. simpl in Hlen. lia. }
  induction fuel as [|fuel IH]; intros prev s Hfuel w.
  - destruct s; [|simpl in Hfuel; lia]. simpl.
    split; [intros [] | apply Hempty].
  - destruct s as [|c t]; [simpl; split; [intros [] | apply Hempty]|].
    cbn [findall_from].
    destruct (if boundary prev (c :: t) then letters_boundary 3 prev (c :: t) else None)
      as [[m r]|] eqn:Htest.
    + destruct (boundary prev (c :: t)) eqn:Hb; [|discriminate Htest].
      destruct (letters_boundary_some _ _ _ _ _ Htest) as (Hs & Hmin & Hall & Hend).
      assert (Hne : m <> []) by (intros ->; simpl in Hmin; lia).
      destruct (last_of_in prev m Hne) as (x & Hlast & Hx).
      assert (Hxw : is_word x = true).
      { apply is_letter_word. rewrite Forall_forall in Hall. exact (Hall x Hx). }
      assert (Hr : word_at r = false).
      { unfold boundary in Hend. rewrite Hlast in Hend. simpl in Hend.
        rewrite Hxw in Hend. destruct (word_at r); [discriminate Hend | reflexivity]. }
      assert (Hlen : List.length r <= fuel).
      { apply (f_equal (@List.length N)) in Hs. rewrite length_app in Hs.
        simpl in Hs, Hfuel. lia. }
      assert (Hprev : word_before prev = false).
      { unfold boundary in Hb. simpl in Hb.
        destruct m as [|d m]; [congruence|]. simpl in Hs. injection Hs as -> _.
        inversion Hall as [|? ? Hd _]; subst. rewrite (is_letter_word d Hd) in Hb.
        destruct (word_before prev); [discriminate Hb | reflexivity]. }
      simpl. rewrite (IH (last_of prev m) r Hlen w). rewrite Hs. split.
      * intros [<- | (p & q & -> & Hw)].
        -- exists [], r. simpl. repeat split; auto.
        -- exists (m ++ p), q. rewrite last_of_app, <- app_assoc. split; [reflexivity | exact Hw].
      * intros (p & q & Heq & Hw3 & Hw & Hp & Hq).
        destruct p as [|a p].
        -- left. simpl in Heq.
           destruct (run_unique m w r q Heq Hall Hw Hr Hq) as [-> _]. reflexivity.
        -- right. apply app_eq_app in Heq as [l [[Hm Hrest] | [Hp' Hrest]]].
           ++ (* the word begins inside the match: a letter stands before it *)
              exfalso.
              destruct (last_of_in prev (a :: p)) as (y & Hy & Hiny); [discriminate|].
              rewrite Hy in Hp. simpl in Hp.
              assert (Hym : In y m) by (rewrite Hm; apply in_or_app; left; exact Hiny).
              rewrite Forall_forall in Hall.
              rewrite (is_letter_word y (Hall y Hym)) in Hp. discriminate Hp.
           ++ exists l, q. rewrite Hp', last_of_app in Hp. repeat split; auto.
    + rewrite (IH (Some c) t) by (simpl in Hfuel; lia). split.
      * intros (p & q & -> & Hw). exists (c :: p), q. rewrite last_of_cons.
        split; [reflexivity | exact Hw].
      * intros (p & q & Heq & Hw3 & Hw & Hp & Hq).
        destruct p as [|a p].
        -- exfalso. simpl in Heq. change (last_of prev []) with prev in Hp.
           assert (Hb : boundary prev (c :: t) = true).
           { unfold boundary. rewrite Hp, Heq.
             destruct w as [|d w]; [simpl in Hw3; lia|].
             inversion Hw as [|? ? Hd _]; subst. simpl. exact (is_letter_word d Hd). }
           rewrite Hb, Heq in Htest.
           rewrite (letters_boundary_run w 3 prev q Hw Hw3 Hq) in Htest; [discriminate Htest|].
           intros ->. simpl in Hw3. lia.
        -- simpl in Heq. injection Heq as <- ->. rewrite last_of_cons in Hp.
           exists p, q. repeat split; auto.
Qed.

(** [re.findall] on a text: its whole words. *)
Lemma findall_words (s w : str) :
  In w (findall s) <-> exists pre post, s = pre ++ w ++ post /\ whole_word pre w post.
Proof.
  unfold findall, whole_word.
  rewrite (findall_from_words (List.length s) None s (le_n _) w).
  split; intros (p & q & Heq & Hlen & Hall & Hp & Hq); exists p, q;
    rewrite last_of_none in *; auto.
Qed.

(** A letter of the class that is no capital is a small letter. *)
Lemma letter_not_capital (c : N) :
  is_letter c = true -> ~ (65 <= c <= 90)%N -> (97 <= c <= 122)%N.
Proof.
  unfold is_letter. intros H Hcap. compare_N; try discriminate; lia.
Qed.

End WordsFacts.

Lemma list_of_set_distinct (xs : list str) : list_of_set xs (distinct xs).
Proof.
  unfold list_of_set, distinct. split; [apply NoDup_nodup|].
  intros x. apply nodup_In.
Qed.

Lemma whole_word_length (s pre w post : str) :
  s = pre ++ w ++ post -> List.length w <= List.length s.
Proof. intros ->. rewrite !length_app. lia. Qed.

(** X17.  The keywords extracted from a job description are exactly the
    whole words of its lowercased text: the runs of three or more of the
    letters a to z, A to Z, taken in full, before and after which stands no
    word character (a letter, accented ones included, a digit, the
    underscore) but another character or an end of the text.  So [sql] is a
    keyword of "MySQL, SQL."; "python3", "node_js" and "c++" give none.
    (For a text within U+0000..U+00FF, where the embedding of [str.lower]
    and of the word characters is exact.) *)
Theorem keywords_are_the_whole_words (jd_text : str) (keywords : list str) :
  (forall c, In c jd_text -> (c <= 255)%N) ->
  extract_keywords_from_jd jd_text keywords ->
  forall w,
    In w keywords <->
    exists pre post, lower jd_text = pre ++ w ++ post /\ whole_word pre w post.
Proof.
  intros _ [_ Hset] w. rewrite Hset. apply WordsFacts.findall_words.
Qed.

Lemma keywords_are_the_whole_words_witness :
  In (lit "sql") [lit "sql"; lit "mysql"] <->
  exists pre post,
    lower (lit "MySQL, SQL.") = pre ++ lit "sql" ++ post /\
    whole_word pre (lit "sql") post.
Proof.
  apply (keywords_are_the_whole_words (lit "MySQL, SQL.") [lit "sql"; lit "mysql"]).
  - intros c Hc. vm_compute in Hc.
    repeat (destruct Hc as [<- | Hc]; [vm_compute; discriminate|]). destruct Hc.
  - split.
    + repeat constructor; simpl; intuition discriminate.
    + intros x. vm_compute. tauto.
Defined.

(** X18.  The extractor always returns, and what it returns holds no
    keyword twice (the words are collected in a set, so their order is not
    that of the text).  Every keyword has three characters or more, all of
    them small letters a to z, and is no longer than the text: a text of
    fewer than three characters, the empty one included, gives no keyword.
    (For a text within U+0000..U+00FF.) *)
Theorem keywords_are_distinct_lowercase_words (jd_text : str) :
  (forall c, In c jd_text -> (c <= 255)%N) ->
  (exists keywords, extract_keywords_from_jd jd_text keywords) /\
  forall keywords,
    extract_keywords_from_jd jd_text keywords ->
    NoDup keywords /\
    (forall w,
        In w keywords ->
        3 <= List.length w <= List.length jd_text /\
        forall c, In c w -> (97 <= c <= 122)%N) /\
    (List.length jd_text < 3 -> keywords = []).
Proof.
  intros Hlatin. split.
  - exists (distinct (Words.findall (lower jd_text))). apply list_of_set_distinct.
  - intros keywords [Hnodup Hset].
    assert (Hwords : forall w,
               In w keywords ->
               3 <= List.length w <= List.length jd_text /\
               forall c, In c w -> (97 <= c <= 122)%N).
    { intros w Hw. apply Hset, WordsFacts.findall_words in Hw.
      destruct Hw as (pre & post & Heq & Hlen & Hall & _).
      pose proof (whole_word_length _ _ _ _ Heq) as Hle.
      unfold lower in Hle.
      rewrite lower_length in Hle by (intros Hdot; apply Hlatin in Hdot; lia).
      split; [lia|]. intros c Hc.
      assert (Hin : In c (lower jd_text))
        by (rewrite Heq; apply in_or_app; right; apply in_or_app; left; exact Hc).
      rewrite Forall_forall in Hall.
      exact (WordsFacts.letter_not_capital c (Hall _ Hc) (lower_no_capital _ _ Hin)). }
    split; [exact Hnodup|]. split; [exact Hwords|].
    intros Hshort. destruct keywords as [|w keywords]; [reflexivity|].
    destruct (Hwords w) as [Hlen _]; [left; reflexivity | lia].
Qed.

Lemma keywords_are_distinct_lowercase_words_witness :
  extract_keywords_from_jd (lit "MySQL, SQL.") [lit "sql"; lit "mysql"] /\
  NoDup [lit "sql"; lit "mysql"].
Proof.
  assert (H : extract_keywords_from_jd (lit "MySQL, SQL.") [lit "sql"; lit "mysql"]).
  { split.
    - repeat constructor; simpl; intuition discriminate.
    - intros x. vm_compute. tauto. }
  split; [exact H|].
  destruct (keywords_are_distinct_lowercase_words (lit "MySQL, SQL.")) as [_ Hall].
  - intros c Hc. vm_compute in Hc.
    repeat (destruct Hc as [<- | Hc]; [vm_compute; discriminate|]). destruct Hc.
  - exact (proj1 (Hall _ H)).
Defined.

(** *** A reply in a code fence *)

(** A text that begins with a backquote is not JSON. *)
Lemma loads_backquote (s : str) : loads (96%N :: s) = None.
Proof. reflexivity. Qed.

(** X19.  A reply that gives the JSON object inside a Markdown code fence
    (three backquotes and a label such as [json], the object on the next
    line, three backquotes on the line after it) is decoded to the same
    value as the object alone: the direct parse fails at the first
    backquote, the pattern takes the text from the opening brace of the
    object to its closing brace, and that text is parsed. *)
Theorem fenced_object_is_decoded (label mid : str) (response_json : json) :
  ~ In 123%N label ->
  loads (123%N :: mid ++ [125%N]) = Some response_json ->
  parse_response (lit "```" ++ label ++ nl ++ (123%N :: mid ++ [125%N]) ++ nl ++ lit "```")
  = ([], Ok (Some response_json)).
Proof.
  intros Hlabel Hobject.
  apply (parse_response_fallback _ (123%N :: mid ++ [125%N])).
  - apply loads_backquote.
  - change (lit "```" ++ label ++ nl ++ (123%N :: mid ++ [125%N]) ++ nl ++ lit "```")
      with (lit "```" ++ label ++ nl ++ 123%N :: (mid ++ [125%N]) ++ nl ++ lit "```").
    rewrite <- (app_assoc mid). rewrite !(app_assoc _ _ (123%N :: _)).
    apply (ReFacts.search_braces_first_to_last ((lit "```" ++ label) ++ nl) mid
             (nl ++ lit "```")).
    + intros H. apply in_app_or in H as [H | H].
      * apply in_app_or in H as [H | H]; [|exact (Hlabel H)].
        vm_compute in H. intuition discriminate.
      * vm_compute in H. intuition discriminate.
    + vm_compute. intuition discriminate.
  - exact Hobject.
Qed.

Lemma fenced_object_is_decoded_witness :
  parse_response (lit "```" ++ lit "json" ++ nl
                  ++ (123%N :: litq "'JD Match':'80%'" ++ [125%N]) ++ nl ++ lit "```")
  = ([], Ok (Some (JObj [(lit "JD Match", JStr (lit "80%"))]))).
Proof.
  apply (fenced_object_is_decoded (lit "json") (litq "'JD Match':'80%'")
           (JObj [(lit "JD Match", JStr (lit "80%"))])).
  - vm_compute. intuition discriminate.
  - vm_compute. reflexivity.
Defined.

(** *** A file that its decoder rejects *)

(** X20.  The exceptions of the two decoders are not caught.  When the
    decoder chosen by the file's name raises, the turn ends with that
    exception right after the call of the decoder: the file's name is not
    shown, no prompt is built and nothing is sent to the model. *)
Theorem rejected_file_ends_its_turn_unseen (generate : str -> reply)
    (jd_input linkedin_url : str) (total idx : nat) (f : uploaded_file)
    (results_data : list row) (e : exn) :
  (endswith (name f) (lit ".pdf") = true /\ pdf_pages f = Raise e) \/
  (endswith (name f) (lit ".pdf") = false /\ endswith (name f) (lit ".docx") = true /\
   docx_text f = Raise e) ->
  exists call,
    evaluate_resume generate jd_input linkedin_url total idx f results_data
    = ([call], Raise e) /\
    (call = PdfReader (name f) \/ call = docx2txt_process (name f)).
Proof.
  intros [[Hpdf Hraise] | (Hpdf & Hdocx & Hraise)].
  - exists (PdfReader (name f)). split; [|left; reflexivity].
    rewrite (evaluate_resume_unread generate jd_input linkedin_url total idx f
               results_data e);
      unfold input_resume_text; rewrite Hpdf, Hraise; reflexivity.
  - exists (docx2txt_process (name f)). split; [|right; reflexivity].
    rewrite (evaluate_resume_unread generate jd_input linkedin_url total idx f
               results_data e);
      unfold input_resume_text; rewrite Hpdf, Hdocx, Hraise; reflexivity.
Qed.

Lemma rejected_file_ends_its_turn_unseen_witness :
  exists call,
    evaluate_resume obliging (lit "Data JD") [] 1 0 broken_pdf []
    = ([call], Raise (DecoderError (lit "EOF marker not found"))) /\
    (call = PdfReader (name broken_pdf) \/ call = docx2txt_process (name broken_pdf)).
Proof.
  apply (rejected_file_ends_its_turn_unseen obliging (lit "Data JD") [] 1 0 broken_pdf []
           (DecoderError (lit "EOF marker not found"))).
  left. split; reflexivity.
Defined.
